(** * AI Article Summarizer: a shallow embedding of the extension's logic

    The development follows the three JavaScript files of the extension:
    - [content.js]    the page-side extractor            (module [Content]),
    - [background.js] the service worker / summarizer    (module [Background]),
    - [storage.js] and [popup.js] the saved-summaries list (module [Storage]).

    JavaScript strings are sequences of UTF-16 code units, and that is how
    they are represented here: [length], [substring] and the regular
    expressions of the source all work on code units. *)

From Stdlib Require Import List ZArith Lia Bool String Ascii QArith_base.
Import ListNotations.
Local Open Scope Z_scope.

(* ===================================================================== *)
(** ** JavaScript strings                                                  *)
(* ===================================================================== *)

Module JsString.

(** A string value: its UTF-16 code units, each in [0, 65535]. *)
Definition jsstring := list Z.

(** An ASCII literal of the source, as code units. *)
Definition str (s : string) : jsstring :=
  map (fun a => Z.of_N (N_of_ascii a)) (list_ascii_of_string s).

(** [s.length]. *)
Definition jslength (s : jsstring) : Z := Z.of_nat (List.length s).

(** [a === b] on two strings. *)
Fixpoint eqb (a b : jsstring) : bool :=
  match a, b with
  | [], [] => true
  | x :: a', y :: b' => (x =? y) && eqb a' b'
  | _, _ => false
  end.

(** Truthiness of a string: [!s] is true exactly for the empty string. *)
Definition truthy (s : jsstring) : bool :=
  match s with [] => false | _ :: _ => true end.

(** The class [\s] of a regular expression, which is also what
    [String.prototype.trim] removes: WhiteSpace and LineTerminator of
    ECMAScript (TAB, LF, VT, FF, CR, SP, NBSP, U+1680, U+2000..U+200A,
    LS, PS, U+202F, U+205F, U+3000, ZWNBSP). *)
Definition isWhiteSpace (c : Z) : bool :=
  ((9 <=? c) && (c <=? 13))
  || (c =? 32) || (c =? 160) || (c =? 5760)
  || ((8192 <=? c) && (c <=? 8202))
  || (c =? 8232) || (c =? 8233) || (c =? 8239) || (c =? 8287)
  || (c =? 12288) || (c =? 65279).

Fixpoint trimStart (s : jsstring) : jsstring :=
  match s with
  | [] => []
  | c :: r => if isWhiteSpace c then trimStart r else s
  end.

Definition trimEnd (s : jsstring) : jsstring := rev (trimStart (rev s)).

(** [s.trim()]. *)
Definition trim (s : jsstring) : jsstring := trimEnd (trimStart s).

(** [s.replace(/\s+/g, ' ')]: every maximal run of white space becomes
    one space.  [inRun] tells that the previous code unit belonged to a
    run whose replacement has already been emitted. *)
Fixpoint replaceWsRuns (inRun : bool) (s : jsstring) : jsstring :=
  match s with
  | [] => []
  | c :: r =>
      if isWhiteSpace c
      then (if inRun then replaceWsRuns true r else 32 :: replaceWsRuns true r)
      else c :: replaceWsRuns false r
  end.

(** For the pattern [\n\s*\n] anchored just after a line feed: the greedy
    [\s*] takes the whole white-space run of [r] and backtracks to the
    last line feed in it.  The result is the index of that line feed. *)
Fixpoint lastNewlineInRun (r : jsstring) : option nat :=
  match r with
  | [] => None
  | c :: r' =>
      if isWhiteSpace c
      then match lastNewlineInRun r' with
           | Some k => Some (S k)
           | None => if c =? 10 then Some 0%nat else None
           end
      else None
  end.

(** [s.replace(/\n\s*\n/g, '\n')].  [skip] counts the code units of the
    current match that are still to be consumed. *)
Fixpoint replaceBlankLines (skip : nat) (s : jsstring) : jsstring :=
  match s with
  | [] => []
  | c :: r =>
      match skip with
      | S k => replaceBlankLines k r
      | O =>
          if c =? 10
          then match lastNewlineInRun r with
               | Some k => 10 :: replaceBlankLines (S k) r
               | None => c :: replaceBlankLines 0 r
               end
          else c :: replaceBlankLines 0 r
      end
  end.

(** [s.substring(from, to)]: both indices are clamped to [0, length] and
    swapped when out of order. *)
Definition clampIndex (s : jsstring) (i : Z) : Z :=
  Z.min (Z.max i 0) (jslength s).

Definition substring (s : jsstring) (from to : Z) : jsstring :=
  let a := clampIndex s from in
  let b := clampIndex s to in
  firstn (Z.to_nat (Z.max a b - Z.min a b)) (skipn (Z.to_nat (Z.min a b)) s).

(** [s.replace(/[^\x00-\x7F]/g, '')]: the pattern has no [u] flag, so it
    is matched against single code units. *)
Definition isAscii (c : Z) : bool := (0 <=? c) && (c <=? 127).

Definition stripNonAscii (s : jsstring) : jsstring := filter isAscii s.

(** [p] is a strict prefix of [s]. *)
Definition isStrictPrefix (p s : jsstring) : Prop :=
  exists rest, s = p ++ rest /\ rest <> [].

End JsString.
Import JsString.

(* ===================================================================== *)
(** ** Values, exceptions and property access                              *)
(* ===================================================================== *)

Module Js.

(** What [JSON.parse] can produce, plus [undefined].  Numbers are only
    ever tested for truthiness or passed along by the code modelled
    here; they are kept as integers. *)
#[warnings="-register-all"]
Inductive JsValue : Type :=
| JUndefined
| JNull
| JBool (b : bool)
| JNum (n : Z)
| JStr (s : jsstring)
| JArr (items : list JsValue)
| JObj (fields : list (jsstring * JsValue)).

(** [!!v]. *)
Definition truthy (v : JsValue) : bool :=
  match v with
  | JUndefined | JNull => false
  | JBool b => b
  | JNum n => negb (n =? 0)
  | JStr s => JsString.truthy s
  | JArr _ | JObj _ => true
  end.

(** A thrown [Error]: its [name] and its [message]. *)
Record JsError : Type := mkError { err_name : jsstring; err_message : jsstring }.

Definition TypeError (msg : jsstring) : JsError := mkError (str "TypeError") msg.
Definition AbortError (msg : jsstring) : JsError := mkError (str "AbortError") msg.

(** A computation that returns or throws. *)
Inductive Exc (A : Type) : Type :=
| Ok (a : A)
| Throw (e : JsError).
Arguments Ok {A} a.
Arguments Throw {A} e.

Definition bindExc {A B} (m : Exc A) (f : A -> Exc B) : Exc B :=
  match m with Ok a => f a | Throw e => Throw e end.

(** [try { body } catch (err) { handler }]. *)
Definition tryCatch {A} (body : Exc A) (handler : JsError -> A) : A :=
  match body with Ok a => a | Throw e => handler e end.

(** The property names the code reads from parsed JSON.  None of them is
    defined on [Object.prototype], [Array.prototype], [String.prototype],
    [Number.prototype] or [Boolean.prototype], so a read finds an own
    property or [undefined]. *)
Inductive PropName : Type :=
| P_choices | P_0 | P_message | P_content | P_error.

Definition propText (p : PropName) : jsstring :=
  match p with
  | P_choices => str "choices"
  | P_0 => str "0"
  | P_message => str "message"
  | P_content => str "content"
  | P_error => str "error"
  end.

(** Own property of a parsed object. *)
Fixpoint ownProperty (fields : list (jsstring * JsValue)) (k : jsstring) : JsValue :=
  match fields with
  | [] => JUndefined
  | (k', v) :: rest => if JsString.eqb k' k then v else ownProperty rest k
  end.

(** The message V8 gives to the [TypeError] of a read on [undefined] or
    [null]. *)
Definition cannotRead (what : string) (p : jsstring) : jsstring :=
  str "Cannot read properties of " ++ str what ++ str " (reading '" ++ p ++ str "')".

(** [v.p] (or [v[0]] for [P_0]). *)
Definition getProp (v : JsValue) (p : PropName) : Exc JsValue :=
  match v with
  | JUndefined => Throw (TypeError (cannotRead "undefined" (propText p)))
  | JNull => Throw (TypeError (cannotRead "null" (propText p)))
  | JBool _ | JNum _ => Ok JUndefined
  | JStr s =>
      match p, s with
      | P_0, c :: _ => Ok (JStr [c])
      | _, _ => Ok JUndefined
      end
  | JArr items =>
      match p, items with
      | P_0, x :: _ => Ok x
      | _, _ => Ok JUndefined
      end
  | JObj fields => Ok (ownProperty fields (propText p))
  end.

(** [v.trim()]: only a string has the method. *)
Definition callTrim (path : string) (v : JsValue) : Exc jsstring :=
  match v with
  | JStr s => Ok (trim s)
  | JUndefined => Throw (TypeError (cannotRead "undefined" (str "trim")))
  | JNull => Throw (TypeError (cannotRead "null" (str "trim")))
  | _ => Throw (TypeError (str path ++ str ".trim is not a function"))
  end.

End Js.
Import Js.

Declare Scope exc_scope.
Delimit Scope exc_scope with exc.
Notation "x <- m ;; k" := (bindExc m (fun x => k))
  (at level 61, m at next level, right associativity) : exc_scope.

(* ===================================================================== *)
(** ** content.js: the extractor                                           *)
(* ===================================================================== *)

Module Content.

Definition quote : jsstring := [34].

(** An attribute selector [[name op "value"]], with its double quotes. *)
Definition attr (name op value : string) : jsstring :=
  str "[" ++ str name ++ str op ++ quote ++ str value ++ quote ++ str "]".

(** EXCLUDED_SELECTORS. *)
Definition EXCLUDED_SELECTORS : list jsstring :=
  [ str "nav"; str "footer"; str "aside"; str "header";
    attr "role" "=" "navigation"; attr "role" "=" "banner";
    attr "role" "=" "contentinfo";
    str ".nav"; str ".navigation"; str ".footer"; str ".sidebar";
    str ".ad"; str ".ads"; str ".advertisement";
    attr "class" "*=" "ad-"; attr "class" "*=" "ads-";
    attr "id" "*=" "ad-"; attr "id" "*=" "ads-";
    str ".social-share"; str ".comments"; str ".related-posts";
    str "script"; str "style"; str "noscript"; str "iframe" ].

(** ARTICLE_SELECTORS, in priority order. *)
Definition ARTICLE_SELECTORS : list jsstring :=
  [ str "article"; attr "role" "=" "article";
    str "main"; attr "role" "=" "main";
    str ".post-content"; str ".article-content"; str ".article-body";
    str ".entry-content"; str ".content-body"; str ".story-body" ].

Definition MAX_CONTENT_LENGTH : Z := 10000.

Definition OG_TITLE_SELECTOR : jsstring :=
  str "meta" ++ attr "property" "=" "og:title".

Definition ARTICLE_H1_SELECTOR : jsstring :=
  str "article h1, main h1, " ++ attr "role" "=" "main" ++ str " h1".

(** The text of a detached clone: [innerText] (undefined outside HTML
    elements) and [textContent]. *)
Record Clone : Type := mkClone {
  innerText : option jsstring;
  clone_textContent : option jsstring
}.

(** What the extractor reads from a DOM element.  [cloneWithout el sels]
    is the deep clone of [el] after [removeExcludedElements] has detached
    from it every node matching one of [sels]; walking the tree and
    matching selectors is the browser's part. *)
Record Element : Type := mkElement {
  content : option jsstring;          (* the [content] attribute, if any *)
  textContent : option jsstring;      (* [null] or a string *)
  cloneWithout : list jsstring -> Clone
}.

(** The page as the content script sees it. *)
Record Document : Type := mkDocument {
  querySelector : jsstring -> option Element;
  doc_title : jsstring;               (* document.title *)
  doc_body : option Element;          (* document.body, may be null *)
  location_href : jsstring            (* window.location.href *)
}.

(** The result object of the extractor. *)
Record ExtractedContent : Type := mkExtracted {
  ec_title : jsstring;
  ec_text : jsstring;
  ec_url : jsstring;
  ec_success : bool;
  ec_error : option jsstring
}.

(** [x || ''] and friends on a string that may be absent. *)
Definition orElse (x : option jsstring) (d : jsstring) : jsstring :=
  match x with
  | Some s => if JsString.truthy s then s else d
  | None => d
  end.

Definition present (x : option jsstring) : bool :=
  match x with Some s => JsString.truthy s | None => false end.

Fixpoint firstMatch (doc : Document) (selectors : list jsstring) : option Element :=
  match selectors with
  | [] => None
  | sel :: rest =>
      match querySelector doc sel with
      | Some el => Some el
      | None => firstMatch doc rest
      end
  end.

Definition findArticleContainer (doc : Document) : option Element :=
  firstMatch doc ARTICLE_SELECTORS.

(** [el && el.field]: the field of an element that was found, when it
    is a non-empty string. *)
Definition truthyField (el : option Element) (field : Element -> option jsstring)
    : option jsstring :=
  match el with
  | Some e => if present (field e) then field e else None
  | None => None
  end.

Definition extractTitle (doc : Document) : jsstring :=
  match truthyField (querySelector doc OG_TITLE_SELECTOR) content with
  | Some ogTitle => trim ogTitle
  | None =>
      match truthyField (querySelector doc ARTICLE_H1_SELECTOR) textContent with
      | Some articleH1 => trim articleH1
      | None => trim (doc_title doc)
      end
  end.

(** The white-space clean-up of the extracted text:
    [.replace(/\s+/g, ' ').replace(/\n\s*\n/g, '\n').trim()]. *)
Definition cleanText (raw : jsstring) : jsstring :=
  trim (replaceBlankLines 0 (replaceWsRuns false raw)).

(** [clone.innerText || clone.textContent || ''] for the container chosen
    by the extractor, or the [TypeError] of [container.cloneNode] when
    the page has neither an article container nor a body. *)
Definition rawText (doc : Document) : Exc jsstring :=
  let container :=
    match findArticleContainer doc with
    | Some el => Some el
    | None => doc_body doc
    end in
  match container with
  | None => Throw (TypeError (cannotRead "null" (str "cloneNode")))
  | Some el =>
      let clone := cloneWithout el EXCLUDED_SELECTORS in
      Ok (orElse (innerText clone) (orElse (clone_textContent clone) []))
  end.

Definition extractArticleContent (doc : Document) : ExtractedContent :=
  tryCatch
    (let title := extractTitle doc in
     let url := location_href doc in
     (raw <- rawText doc ;;
      let text := cleanText raw in
      if negb (JsString.truthy text) || (jslength text <? 50)
      then Ok (mkExtracted title [] url false
                 (Some (str "No content found to summarize")))
      else
        let text := if MAX_CONTENT_LENGTH <? jslength text
                    then substring text 0 MAX_CONTENT_LENGTH
                    else text in
        Ok (mkExtracted title text url true None))%exc)
    (fun err =>
       mkExtracted (orElse (Some (doc_title doc)) []) [] (location_href doc) false
         (Some (str "Extraction failed: " ++ err_message err))).

(** The cleaned text of a page, when the DOM reads succeed. *)
Definition cleanedTextOf (doc : Document) : option jsstring :=
  match rawText doc with
  | Ok raw => Some (cleanText raw)
  | Throw _ => None
  end.

End Content.

(* ===================================================================== *)
(** ** background.js: the summarizer                                       *)
(* ===================================================================== *)

Module Background.
Import Content.

(** *** Object literals used as lookup tables

    [API_ENDPOINTS[provider]] is a property read on an ordinary object:
    a key that is not an own property is looked up on
    [Object.prototype].  A read therefore yields one of the literal's
    strings, a member inherited from [Object.prototype] (a function, or
    the prototype object for [__proto__]; all truthy), or [undefined]. *)
Inductive Member : Type :=
| MString (s : jsstring)
| MInherited (name : jsstring).

Definition OBJECT_PROTOTYPE_KEYS : list jsstring :=
  [ str "constructor"; str "hasOwnProperty"; str "isPrototypeOf";
    str "propertyIsEnumerable"; str "toLocaleString"; str "toString";
    str "valueOf"; str "__proto__";
    str "__defineGetter__"; str "__defineSetter__";
    str "__lookupGetter__"; str "__lookupSetter__" ].

Definition inheritedKey (k : jsstring) : bool :=
  existsb (JsString.eqb k) OBJECT_PROTOTYPE_KEYS.

Fixpoint ownString (obj : list (jsstring * jsstring)) (k : jsstring) : option jsstring :=
  match obj with
  | [] => None
  | (k', v) :: rest => if JsString.eqb k' k then Some v else ownString rest k
  end.

(** [obj[k]]; [None] is [undefined]. *)
Definition readMember (obj : list (jsstring * jsstring)) (k : jsstring) : option Member :=
  match ownString obj k with
  | Some v => Some (MString v)
  | None => if inheritedKey k then Some (MInherited k) else None
  end.

Definition memberTruthy (m : option Member) : bool :=
  match m with
  | Some (MString s) => JsString.truthy s
  | Some (MInherited _) => true
  | None => false
  end.

(** [obj[k] || obj.openai]. *)
Definition readMemberOr (obj : list (jsstring * jsstring)) (k dflt : jsstring) : option Member :=
  if memberTruthy (readMember obj k) then readMember obj k else readMember obj dflt.

Definition API_ENDPOINTS : list (jsstring * jsstring) :=
  [ (str "openai", str "https://api.openai.com/v1/chat/completions");
    (str "openrouter", str "https://openrouter.ai/api/v1/chat/completions") ].

Definition DEFAULT_MODELS : list (jsstring * jsstring) :=
  [ (str "openai", str "gpt-3.5-turbo");
    (str "openrouter", str "openai/gpt-3.5-turbo") ].

Definition MAX_TOKENS : Z := 300.
Definition REQUEST_TIMEOUT : Z := 30000.

Definition SYSTEM_PROMPT : jsstring :=
  str "Summarize the following article in 3-5 concise sentences. Focus on the main points and key takeaways.".

(** *** The request and the response of [fetch] *)

Record Message : Type := mkMessage { role : jsstring; message_content : jsstring }.

Record RequestBody : Type := mkBody {
  model : option Member;
  messages : list Message;
  max_tokens : Z;
  temperature : Q
}.

Record Request : Type := mkRequest {
  request_url : option Member;
  method : jsstring;
  headers : list (jsstring * jsstring);
  request_body : RequestBody               (* before JSON.stringify *)
}.

(** A response: its status and what [response.json()] settles to. *)
Record Response : Type := mkResponse { status : Z; json : Exc JsValue }.

(** [response.ok]. *)
Definition ok (r : Response) : bool := (200 <=? status r) && (status r <=? 299).

(** [fetch] rejects (transport failure, or [AbortError] when the 30 s
    timer fires first) or resolves with a response. *)
Inductive FetchOutcome : Type :=
| Rejected (e : JsError)
| Resolved (r : Response).

(** *** Result objects *)

(** [{ summary, title?, url?, success, error? }]; an absent [error] is
    [JUndefined], an absent [title] or [url] is [None]. *)
Record SummaryResult : Type := mkResult {
  summary : jsstring;
  title : option jsstring;
  url : option jsstring;
  success : bool;
  error : JsValue
}.

Definition COULD_NOT_GENERATE : jsstring :=
  str "Could not generate summary. Please try again.".
Definition NOT_CONFIGURED : jsstring :=
  str "API key not configured. Please add your API key in settings.".
Definition INVALID_API_KEY : jsstring :=
  str "Invalid API key. Please check your settings.".
Definition RATE_LIMITED : jsstring :=
  str "Rate limited. Please try again in a moment.".
Definition SERVICE_UNAVAILABLE : jsstring :=
  str "OpenAI service is temporarily unavailable. Please try again.".
Definition GENERIC_ERROR : jsstring :=
  str "An error occurred. Please try again.".
Definition TIMED_OUT : jsstring :=
  str "Request timed out. Please try again.".
Definition NO_TEXT_SELECTED : jsstring :=
  str "No text selected. Please select some text on the page first.".
Definition NO_ACTIVE_TAB : jsstring := str "No active tab found.".

(** [{ summary: '', success: false, error: msg }]. *)
Definition failure (msg : JsValue) : SummaryResult :=
  mkResult [] None None false msg.

(** *** handleApiError *)

(** [errorData.error?.message]. *)
Definition errorMessageOf (errorData : JsValue) : Exc JsValue :=
  (e <- getProp errorData P_error ;;
   match e with
   | JUndefined | JNull => Ok JUndefined
   | _ => getProp e P_message
   end)%exc.

Definition handleApiError (status : Z) (errorData : JsValue) : Exc SummaryResult :=
  (errorMessage <-
     (if status =? 401 then Ok (JStr INVALID_API_KEY)
      else if status =? 429 then Ok (JStr RATE_LIMITED)
      else if (status =? 500) || (status =? 502) || (status =? 503)
      then Ok (JStr SERVICE_UNAVAILABLE)
      else
        (m <- errorMessageOf errorData ;;
         Ok (if Js.truthy m then m else JStr GENERIC_ERROR))) ;;
   Ok (failure errorMessage))%exc.

(** *** generateSummary *)

(** The default parameter [provider = 'openai']. *)
Definition providerOrDefault (provider : option jsstring) : jsstring :=
  match provider with Some p => p | None => str "openai" end.

Definition sanitizedTitle (title : jsstring) : jsstring := stripNonAscii title.

Definition userMessage (content : ExtractedContent) : jsstring :=
  str "Title: " ++ sanitizedTitle (ec_title content)
    ++ [10; 10] ++ str "Content:" ++ [10] ++ ec_text content.

Definition requestHeaders (apiKey provider : jsstring) : list (jsstring * jsstring) :=
  let headers :=
    [ (str "Content-Type", str "application/json");
      (str "Authorization", str "Bearer " ++ apiKey) ] in
  if JsString.eqb provider (str "openrouter")
  then headers ++
       [ (str "HTTP-Referer", str "https://github.com/ai-article-summarizer");
         (str "X-Title", str "AI-Article-Summarizer") ]
  else headers.

(** The arguments of the one [fetch] call. *)
Definition buildRequest (content : ExtractedContent) (apiKey : jsstring)
    (provider : option jsstring) : Request :=
  let provider := providerOrDefault provider in
  let apiUrl := readMemberOr API_ENDPOINTS provider (str "openai") in
  let model := readMemberOr DEFAULT_MODELS provider (str "openai") in
  let requestBody :=
    mkBody model
      [ mkMessage (str "system") SYSTEM_PROMPT;
        mkMessage (str "user") (userMessage content) ]
      MAX_TOKENS (Qmake 1 2) in
  mkRequest apiUrl (str "POST") (requestHeaders apiKey provider) requestBody.

(** The body of the [try] block once [fetch] has settled. *)
Definition interpretOutcome (outcome : FetchOutcome) : Exc SummaryResult :=
  match outcome with
  | Rejected e => Throw e
  | Resolved response =>
      if negb (ok response)
      then
        let errorData :=
          match json response with Ok v => v | Throw _ => JObj [] end in
        handleApiError (status response) errorData
      else
        (data <- json response ;;
         choices <- getProp data P_choices ;;
         if negb (Js.truthy choices) then Ok (failure (JStr COULD_NOT_GENERATE))
         else
           first <- getProp choices P_0 ;;
           if negb (Js.truthy first) then Ok (failure (JStr COULD_NOT_GENERATE))
           else
             message <- getProp first P_message ;;
             if negb (Js.truthy message) then Ok (failure (JStr COULD_NOT_GENERATE))
             else
               content <- getProp message P_content ;;
               summary <- callTrim "data.choices[0].message.content" content ;;
               if negb (JsString.truthy summary)
               then Ok (failure (JStr COULD_NOT_GENERATE))
               else Ok (mkResult summary None None true JUndefined))%exc
  end.

(** The [catch] block. *)
Definition onFetchError (err : JsError) : SummaryResult :=
  if JsString.eqb (err_name err) (str "AbortError")
  then failure (JStr TIMED_OUT)
  else failure (JStr (str "Network error: " ++ err_message err
                      ++ str ". Please reload the extension and try again.")).

(** *** The browser around the service worker

    The service worker talks to the browser through [chrome.storage],
    [chrome.tabs], [chrome.scripting] and [fetch].  A [Browser] fixes
    what each of these calls answers during one request; an [Event] is
    recorded for each call, in order. *)

Record Tab : Type := mkTab {
  tab_id : Z;
  tab_title : option jsstring;
  tab_url : option jsstring
}.

Record Browser : Type := mkBrowser {
  sync_apiKey : option jsstring;           (* chrome.storage.sync: apiKey *)
  sync_apiProvider : option jsstring;      (* chrome.storage.sync: apiProvider *)
  activeTabs : option (list Tab);          (* tabs.query({active, currentWindow}) *)
  injectContentScript : Z -> Exc unit;     (* scripting.executeScript({files}) *)
  contentScriptPage : Z -> Exc Document;   (* tabs.sendMessage reaches content.js
                                              running on this document *)
  selectionScript : Z -> Exc (list (option jsstring));
                                           (* scripting.executeScript({func}):
                                              the [result] of each frame *)
  tabsGet : Z -> Exc Tab;                  (* tabs.get *)
  fetch : Request -> FetchOutcome
}.

Inductive Event : Type :=
| EvStorageGet (key : jsstring)
| EvTabsQuery
| EvInjectContentScript (tabId : Z)
| EvSendExtractContent (tabId : Z)
| EvSelectionScript (tabId : Z)
| EvTabsGet (tabId : Z)
| EvFetch (request : Request).

(** Computations of the service worker: they read the browser and log
    the calls they make. *)
Definition M (A : Type) : Type := Browser -> A * list Event.

Definition ret {A} (a : A) : M A := fun _ => (a, []).

Definition bind {A B} (m : M A) (f : A -> M B) : M B :=
  fun br =>
    let (a, t1) := m br in
    let (b, t2) := f a br in
    (b, t1 ++ t2).

Definition call {A} (ev : Event) (answer : Browser -> A) : M A :=
  fun br => (answer br, [ev]).

Declare Scope browser_scope.
Delimit Scope browser_scope with browser.
Notation "x <- m ;; k" := (bind m (fun x => k))
  (at level 61, m at next level, right associativity) : browser_scope.
Local Open Scope browser_scope.

(** [x || null] on a stored string. *)
Definition orNull (x : option jsstring) : option jsstring :=
  match x with
  | Some s => if JsString.truthy s then Some s else None
  | None => None
  end.

(** [!apiKey]. *)
Definition absent (x : option jsstring) : bool := negb (present x).

Definition getApiKey : M (option jsstring) :=
  call (EvStorageGet (str "apiKey")) (fun br => orNull (sync_apiKey br)).

Definition getApiProvider : M jsstring :=
  call (EvStorageGet (str "apiProvider"))
       (fun br => orElse (sync_apiProvider br) (str "openai")).

Definition extractionFailure (err : JsError) : ExtractedContent :=
  mkExtracted [] [] [] false
    (Some (str "Failed to extract content: " ++ err_message err)).

Definition extractContentFromTab (tabId : Z) : M ExtractedContent :=
  injected <- call (EvInjectContentScript tabId) (fun br => injectContentScript br tabId) ;;
  match injected with
  | Throw err => ret (extractionFailure err)
  | Ok _ =>
      response <- call (EvSendExtractContent tabId) (fun br => contentScriptPage br tabId) ;;
      match response with
      | Throw err => ret (extractionFailure err)
      | Ok doc => ret (extractArticleContent doc)
      end
  end.

Definition generateSummary (content : ExtractedContent) (apiKey : jsstring)
    (provider : option jsstring) : M SummaryResult :=
  let request := buildRequest content apiKey provider in
  outcome <- call (EvFetch request) (fun br => fetch br request) ;;
  ret (tryCatch (interpretOutcome outcome) onFetchError).

Definition handleSummarizeRequest (tabId : Z) : M SummaryResult :=
  apiKey <- getApiKey ;;
  provider <- getApiProvider ;;
  match apiKey with
  | None => ret (mkResult [] (Some []) (Some []) false (JStr NOT_CONFIGURED))
  | Some key =>
      if negb (JsString.truthy key)
      then ret (mkResult [] (Some []) (Some []) false (JStr NOT_CONFIGURED))
      else
        content <- extractContentFromTab tabId ;;
        if negb (ec_success content)
        then ret (mkResult []
                    (Some (orElse (Some (ec_title content)) []))
                    (Some (orElse (Some (ec_url content)) []))
                    false
                    (JStr (orElse (ec_error content)
                             (str "Failed to extract content from page."))))
        else
          result <- generateSummary content key (Some provider) ;;
          ret (mkResult (summary result)
                 (Some (ec_title content)) (Some (ec_url content))
                 (success result) (error result))
  end.

Definition summarizeSelectedText (selectedText : jsstring) (tabId : Z) : M SummaryResult :=
  apiKey <- getApiKey ;;
  provider <- getApiProvider ;;
  match apiKey with
  | None => ret (failure (JStr NOT_CONFIGURED))
  | Some key =>
      if negb (JsString.truthy key)
      then ret (failure (JStr NOT_CONFIGURED))
      else
        got <- call (EvTabsGet tabId) (fun br => tabsGet br tabId) ;;
        let pageTitle :=
          match got with
          | Ok tab => orElse (tab_title tab) (str "Selected Text")
          | Throw _ => str "Selected Text"
          end in
        let content :=
          mkExtracted pageTitle (substring selectedText 0 10000) [] true None in
        generateSummary content key (Some provider)
  end.

(** *** The message listener *)

Inductive Scope : Type := PageScope | SelectionScope.

Definition requestType (scope : Scope) : jsstring :=
  match scope with
  | PageScope => str "GENERATE_SUMMARY"
  | SelectionScope => str "SUMMARIZE_SELECTION"
  end.

(** [const [result] = ...; result.result]. *)
Definition firstResult (frames : list (option jsstring)) : Exc (option jsstring) :=
  match frames with
  | r :: _ => Ok r
  | [] => Throw (TypeError (cannotRead "undefined" (str "result")))
  end.

(** [!selectedText || selectedText.trim().length === 0]. *)
Definition nothingSelected (selectedText : option jsstring) : bool :=
  absent selectedText || (jslength (trim (orElse selectedText [])) =? 0).

(** The listener of [chrome.runtime.onMessage]: the payload handed to
    [sendResponse], or [None] when the message type is not handled. *)
Definition onMessage (type : jsstring) : M (option SummaryResult) :=
  if JsString.eqb type (str "GENERATE_SUMMARY") then
    tabs <- call EvTabsQuery activeTabs ;;
    match tabs with
    | None | Some [] => ret (Some (failure (JStr NO_ACTIVE_TAB)))
    | Some (tab :: _) =>
        result <- handleSummarizeRequest (tab_id tab) ;;
        ret (Some result)
    end
  else if JsString.eqb type (str "SUMMARIZE_SELECTION") then
    tabs <- call EvTabsQuery activeTabs ;;
    match tabs with
    | None | Some [] => ret (Some (failure (JStr NO_ACTIVE_TAB)))
    | Some (tab :: _) =>
        frames <- call (EvSelectionScript (tab_id tab))
                       (fun br => selectionScript br (tab_id tab)) ;;
        match bindExc frames firstResult with
        | Throw err =>
            ret (Some (failure (JStr (str "Failed to get selection: "
                                      ++ err_message err))))
        | Ok selectedText =>
            if nothingSelected selectedText
            then ret (Some (failure (JStr NO_TEXT_SELECTED)))
            else
              summaryResult <- summarizeSelectedText (orElse selectedText []) (tab_id tab) ;;
              ret (Some (mkResult (summary summaryResult)
                           (Some (orElse (tab_title tab) (str "Selected Text")))
                           (tab_url tab)
                           (success summaryResult) (error summaryResult)))
        end
    end
  else ret None.

(** Observations on a run. *)
Definition isFetch (ev : Event) : bool :=
  match ev with EvFetch _ => true | _ => false end.

Definition isPageRead (ev : Event) : bool :=
  match ev with
  | EvInjectContentScript _ | EvSendExtractContent _ | EvSelectionScript _ => true
  | _ => false
  end.

Definition isConfigRead (ev : Event) : bool :=
  match ev with EvStorageGet _ => true | _ => false end.

Definition networkCalls (trace : list Event) : list Event := filter isFetch trace.

(** The position of the first event satisfying [p], if any. *)
Fixpoint firstIndex (p : Event -> bool) (trace : list Event) : option nat :=
  match trace with
  | [] => None
  | ev :: rest =>
      if p ev then Some 0%nat
      else match firstIndex p rest with Some i => Some (S i) | None => None end
  end.

(** The configuration is read before the page is touched (or the page is
    not touched at all). *)
Definition configCheckedFirst (trace : list Event) : Prop :=
  match firstIndex isPageRead trace with
  | None => True
  | Some i =>
      match firstIndex isConfigRead trace with
      | Some j => (j < i)%nat
      | None => False
      end
  end.

(** The requests sent during a run. *)
Definition requestsOf (trace : list Event) : list Request :=
  flat_map (fun ev => match ev with EvFetch r => [r] | _ => [] end) trace.

End Background.

(* ===================================================================== *)
(** ** storage.js and popup.js: the saved-summaries list                   *)
(* ===================================================================== *)

Module Storage.

Record SavedSummary : Type := mkSaved {
  id : jsstring;
  url : option jsstring;
  title : option jsstring;
  summary : jsstring;
  savedAt : Z
}.

(** What is to be saved: [{ url, title, summary }]. *)
Record Summary : Type := mkSummary {
  s_url : option jsstring;
  s_title : option jsstring;
  s_summary : jsstring
}.

(** [chrome.storage.local]: the value under the key [savedSummaries],
    if the key is there. *)
Definition LocalStorage : Type := option (list SavedSummary).

(** [result.savedSummaries || []]. *)
Definition readSummaries (st : LocalStorage) : list SavedSummary :=
  match st with Some l => l | None => [] end.

(** [v.toString(16)] for [0 <= v < 16]. *)
Definition hexDigit (v : Z) : Z := if v <? 10 then 48 + v else 87 + v.

(** [generateUUID()].  [random i] is the value of [Math.random() * 16 | 0]
    at the i-th call, an integer of [0, 15]. *)
Fixpoint fillTemplate (template : jsstring) (random : nat -> Z) (i : nat) : jsstring :=
  match template with
  | [] => []
  | c :: rest =>
      if c =? 120        (* 'x' *)
      then hexDigit (random i) :: fillTemplate rest random (S i)
      else if c =? 121   (* 'y' *)
      then hexDigit (Z.lor (Z.land (random i) 3) 8) :: fillTemplate rest random (S i)
      else c :: fillTemplate rest random i
  end.

Definition generateUUID (random : nat -> Z) : jsstring :=
  fillTemplate (str "xxxxxxxx-xxxx-4xxx-yxxx-xxxxxxxxxxxx") random 0.

(** [summaries.unshift(entry)] followed by
    [if (summaries.length > 100) summaries = summaries.slice(0, 100)]. *)
Definition unshiftAndCap (entry : SavedSummary) (summaries : list SavedSummary)
    : list SavedSummary :=
  let summaries := entry :: summaries in
  if 100 <? Z.of_nat (List.length summaries) then firstn 100 summaries else summaries.

(** [summaries.filter(s => s.id !== id)]. *)
Definition withoutId (i : jsstring) (summaries : list SavedSummary) : list SavedSummary :=
  filter (fun s => negb (JsString.eqb (id s) i)) summaries.

(** How a promise settles. *)
Inductive Settled (A : Type) : Type :=
| Fulfilled (a : A)
| RejectedWith (message : jsstring).
Arguments Fulfilled {A} a.
Arguments RejectedWith {A} message.

(** [chrome.runtime.lastError] as seen in the callback of the [get] and
    of the [set] of one operation. *)
Record Faults : Type := mkFaults {
  getError : option jsstring;
  setError : option jsstring
}.

Definition noFaults : Faults := mkFaults None None.

(** The entry built by a save: a fresh id and the current time. *)
Definition newEntry (random : nat -> Z) (now : Z) (s : Summary) : SavedSummary :=
  mkSaved (generateUUID random) (s_url s) (s_title s) (s_summary s) now.

(** storage.js, [saveSummary]. *)
Definition saveSummary (random : nat -> Z) (now : Z) (s : Summary)
    (faults : Faults) (st : LocalStorage) : Settled SavedSummary * LocalStorage :=
  let savedSummary := newEntry random now s in
  match getError faults with
  | Some message => (RejectedWith message, st)
  | None =>
      let summaries := unshiftAndCap savedSummary (readSummaries st) in
      match setError faults with
      | Some message => (RejectedWith message, st)
      | None => (Fulfilled savedSummary, Some summaries)
      end
  end.

(** storage.js, [getSavedSummaries]. *)
Definition getSavedSummaries (getFault : option jsstring) (st : LocalStorage)
    : Settled (list SavedSummary) :=
  match getFault with
  | Some message => RejectedWith message
  | None => Fulfilled (readSummaries st)
  end.

(** storage.js, [deleteSummary]. *)
Definition deleteSummary (i : jsstring) (faults : Faults) (st : LocalStorage)
    : Settled unit * LocalStorage :=
  match getError faults with
  | Some message => (RejectedWith message, st)
  | None =>
      let filteredSummaries := withoutId i (readSummaries st) in
      match setError faults with
      | Some message => (RejectedWith message, st)
      | None => (Fulfilled tt, Some filteredSummaries)
      end
  end.

(** popup.js, [saveCurrentSummary]: nothing happens without a current
    summary; the callbacks never look at [lastError], and the store is
    taken to answer. *)
Definition saveCurrentSummary (currentSummary : option Summary)
    (random : nat -> Z) (now : Z) (st : LocalStorage) : LocalStorage :=
  match currentSummary with
  | None => st
  | Some current =>
      Some (unshiftAndCap (newEntry random now current) (readSummaries st))
  end.

(** popup.js, [deleteCurrentSummary]. *)
Definition deleteCurrentSummary (currentDetailSummary : option SavedSummary)
    (st : LocalStorage) : LocalStorage :=
  match currentDetailSummary with
  | None => st
  | Some detail => Some (withoutId (id detail) (readSummaries st))
  end.

(** The operations that write the list, and runs of them. *)
Inductive Operation : Type :=
| SaveSummary (random : nat -> Z) (now : Z) (s : Summary) (faults : Faults)
| DeleteSummary (i : jsstring) (faults : Faults)
| SaveCurrentSummary (current : option Summary) (random : nat -> Z) (now : Z)
| DeleteCurrentSummary (detail : option SavedSummary).

Definition step (st : LocalStorage) (op : Operation) : LocalStorage :=
  match op with
  | SaveSummary random now s faults => snd (saveSummary random now s faults st)
  | DeleteSummary i faults => snd (deleteSummary i faults st)
  | SaveCurrentSummary current random now => saveCurrentSummary current random now st
  | DeleteCurrentSummary detail => deleteCurrentSummary detail st
  end.

Definition run (ops : list Operation) (st : LocalStorage) : LocalStorage :=
  fold_left step ops st.

(** The entry a save that goes through adds; [None] for every other
    operation. *)
Definition savedBy (op : Operation) : option SavedSummary :=
  match op with
  | SaveSummary random now s (mkFaults None None) => Some (newEntry random now s)
  | SaveCurrentSummary (Some current) random now => Some (newEntry random now current)
  | _ => None
  end.

(** The entries of a run of saves, oldest first; [None] if some
    operation of the run is not a save that goes through. *)
Fixpoint savedEntries (ops : list Operation) : option (list SavedSummary) :=
  match ops with
  | [] => Some []
  | op :: rest =>
      match savedBy op, savedEntries rest with
      | Some e, Some es => Some (e :: es)
      | _, _ => None
      end
  end.

End Storage.

(* ===================================================================== *)
(** ** Properties named by the specification                               *)
(* ===================================================================== *)

Module Properties.
Import Background.

(** [t'] is [t] with exactly the code units outside [\x00-\x7F] removed,
    the others kept in place and in order. *)
Inductive RemovesNonAscii : jsstring -> jsstring -> Prop :=
| rna_done : RemovesNonAscii [] []
| rna_keep (c : Z) (t t' : jsstring) :
    0 <= c <= 127 -> RemovesNonAscii t t' -> RemovesNonAscii (c :: t) (c :: t')
| rna_drop (c : Z) (t t' : jsstring) :
    ~ 0 <= c <= 127 -> RemovesNonAscii t t' -> RemovesNonAscii (c :: t) t'.

(** The provider's own error message, [errorData.error.message], read
    off the error body without going through the code: [undefined] when
    a level is missing. *)
Definition providerMessage (errorData : JsValue) : JsValue :=
  match errorData with
  | JObj fields =>
      match ownProperty fields (str "error") with
      | JObj inner => ownProperty inner (str "message")
      | _ => JUndefined
      end
  | _ => JUndefined
  end.


(** The two shapes a result takes. *)
Definition failed (r : SummaryResult) : Prop :=
  summary r = [] /\ success r = false /\ error r <> JUndefined.


(** The 5xx rule as the specification words it. *)
Definition every5xxIsServiceUnavailable : Prop :=
  forall (status : Z) (errorData : JsValue),
    500 <= status <= 599 ->
    handleApiError status errorData = Ok (failure (JStr SERVICE_UNAVAILABLE)).

(** The order of checks as the specification words it: without an API
    key, either kind of request ends in the not-configured error, makes no
    network call, and reads the configuration before it touches the page. *)
Definition configurationCheckedFirst : Prop :=
  forall (scope : Scope) (br : Browser),
    absent (sync_apiKey br) = true ->
    exists r,
      fst (onMessage (requestType scope) br) = Some r
      /\ success r = false
      /\ error r = JStr NOT_CONFIGURED
      /\ networkCalls (snd (onMessage (requestType scope) br)) = []
      /\ configCheckedFirst (snd (onMessage (requestType scope) br)).


(** The headers sent to every provider, and the two more that identify
    the extension. *)
Definition baseHeaders (apiKey : jsstring) : list (jsstring * jsstring) :=
  [ (str "Content-Type", str "application/json");
    (str "Authorization", str "Bearer " ++ apiKey) ].

Definition identificationHeaders : list (jsstring * jsstring) :=
  [ (str "HTTP-Referer", str "https://github.com/ai-article-summarizer");
    (str "X-Title", str "AI-Article-Summarizer") ].

End Properties.

(* ===================================================================== *)
(** ** Sample inputs                                                       *)
(* ===================================================================== *)

Module Examples.

(** A page whose body reads as [text], with nothing else on it. *)
Definition plainPage (text : jsstring) : Content.Document :=
  Content.mkDocument (fun _ => None) (str "Example")
    (Some (Content.mkElement None (Some text)
           (fun _ => Content.mkClone (Some text) (Some text))))
    (str "https://example.org/a").

(** [n + 1] letters [a]. *)
Definition letters (n : nat) : jsstring := 97 :: repeat 97 n.

Definition longText : jsstring := letters (Z.to_nat 10000).
Definition mediumText : jsstring := letters 59.
Definition shortText : jsstring := str "Too short to summarize.".

(** A browser for runs of [generateSummary] alone: no configuration, no
    tab, and [fetch] settling as [outcome] whatever the request. *)
Definition answering (outcome : Background.FetchOutcome) : Background.Browser :=
  Background.mkBrowser None None None
    (fun _ => Ok tt)
    (fun _ => Throw (mkError (str "Error") (str "Could not establish connection.")))
    (fun _ => Ok [])
    (fun _ => Throw (mkError (str "Error") (str "No tab with that id.")))
    (fun _ => outcome).

(** The body [{ choices: [ { message: {} } ] }] of a 200 response: the
    message is there, its [content] is not. *)
Definition missingContent : JsValue :=
  JObj [ (str "choices", JArr [ JObj [ (str "message", JObj []) ] ]) ].

(** A well-formed completion. *)
Definition completion (text : jsstring) : JsValue :=
  JObj [ (str "choices",
          JArr [ JObj [ (str "message", JObj [ (str "content", JStr text) ]) ] ]) ].

Definition http (status : Z) (body : JsValue) : Background.FetchOutcome :=
  Background.Resolved (Background.mkResponse status (Ok body)).

(** The title [Café news!]. *)
Definition cafeTitle : jsstring := [67; 97; 102; 233; 32; 110; 101; 119; 115; 33].

Definition someTab : Background.Tab :=
  Background.mkTab 7 (Some (str "Example")) (Some (str "https://example.org/a")).

(** A browser without an API key, one active tab, and [selection] as the
    text selected on its page. *)
Definition unconfigured (selection : jsstring) : Background.Browser :=
  Background.mkBrowser None None (Some [someTab])
    (fun _ => Ok tt)
    (fun _ => Ok (plainPage longText))
    (fun _ => Ok [Some selection])
    (fun _ => Ok someTab)
    (fun _ => http 200 (completion (str "A summary."))).

(** A browser with a key for openrouter, one active tab showing 60
    letters, and a completion that comes back padded with white space. *)
Definition configured : Background.Browser :=
  Background.mkBrowser (Some (str "sk-or-1")) (Some (str "openrouter")) (Some [someTab])
    (fun _ => Ok tt)
    (fun _ => Ok (plainPage mediumText))
    (fun _ => Ok [Some (str "Selected words")])
    (fun _ => Ok someTab)
    (fun _ => http 200 (completion ([32] ++ str "A summary." ++ [10]))).

(** 101 saves in a row, the i-th at time [i], and the entries they add. *)
Definition article (i : nat) : Storage.Summary :=
  Storage.mkSummary (Some (str "https://example.org/a")) (Some (str "Example"))
    (str "A summary.").

Definition manySaves : list Storage.Operation :=
  map (fun i => Storage.SaveSummary (fun k => Z.of_nat ((i + k) mod 16)) (Z.of_nat i)
                  (article i) Storage.noFaults)
      (seq 0 101).

Definition manyEntries : list Storage.SavedSummary :=
  map (fun i => Storage.newEntry (fun k => Z.of_nat ((i + k) mod 16)) (Z.of_nat i)
                  (article i))
      (seq 0 101).

(** Three saved summaries with the ids a, b and c. *)
Definition saved (name : string) : Storage.SavedSummary :=
  Storage.mkSaved (str name) None (Some (str "Example")) (str "A summary.") 0.

Definition threeSaved : Storage.LocalStorage :=
  Some [saved "a"; saved "b"; saved "c"].

End Examples.

(* ===================================================================== *)
(** ** Shapes of texts and of extraction results                           *)
(* ===================================================================== *)

Module Shapes.

(** No white space at either end. *)
Definition trimmed (t : jsstring) : Prop :=
  (forall c r, t = c :: r -> isWhiteSpace c = false)
  /\ (forall r c, t = r ++ [c] -> isWhiteSpace c = false).

(** The only white space is the space U+0020, and never two in a row. *)
Definition singleSpaced (t : jsstring) : Prop :=
  (forall c, In c t -> isWhiteSpace c = true -> c = 32)
  /\ (forall a b, t <> a ++ 32 :: 32 :: b).

(** The code units of a text that are not white space, in order. *)
Definition ink (t : jsstring) : jsstring :=
  filter (fun c => negb (isWhiteSpace c)) t.


End Shapes.

(* ===================================================================== *)
(** ** More sample inputs                                                  *)
(* ===================================================================== *)

Module Samples.

Definition noClone : list jsstring -> Content.Clone :=
  fun _ => Content.mkClone None None.

(** A page whose [og:title] is two blanks, with a first heading
    "Headline" and the document title "Site". *)
Definition blankOgPage : Content.Document :=
  Content.mkDocument
    (fun sel =>
       if JsString.eqb sel Content.OG_TITLE_SELECTOR
       then Some (Content.mkElement (Some (str "  ")) (Some []) noClone)
       else if JsString.eqb sel Content.ARTICLE_H1_SELECTOR
       then Some (Content.mkElement None (Some (str "Headline")) noClone)
       else None)
    (str "Site") None (str "https://example.org/b").

(** A browser with the key [sk-1] and one active tab; the rest is given. *)
Definition browser (provider : option jsstring) (injection : Exc unit)
    (page : Exc Content.Document) (selection : Exc (list (option jsstring)))
    (outcome : Background.FetchOutcome) : Background.Browser :=
  Background.mkBrowser (Some (str "sk-1")) provider (Some [Examples.someTab])
    (fun _ => injection) (fun _ => page) (fun _ => selection)
    (fun _ => Ok Examples.someTab) (fun _ => outcome).

(** The usual case: no provider stored, a page of 60 letters, two words
    selected, and a completion that comes back. *)
Definition openaiBrowser : Background.Browser :=
  browser None (Ok tt) (Ok (Examples.plainPage Examples.mediumText))
    (Ok [Some (str "Selected words")])
    (Examples.http 200 (Examples.completion (str "A summary."))).

(** The request of a page summary on [openaiBrowser]. *)
Definition openaiRequest : Background.Request :=
  Background.buildRequest
    (Content.extractArticleContent (Examples.plainPage Examples.mediumText))
    (str "sk-1") (Some (str "openai")).

(** The request of a page summary on [Examples.configured]. *)
Definition openrouterRequest : Background.Request :=
  Background.buildRequest
    (Content.extractArticleContent (Examples.plainPage Examples.mediumText))
    (str "sk-or-1") (Some (str "openrouter")).

Definition timeout : Background.FetchOutcome :=
  Background.Rejected (AbortError (str "signal is aborted without reason")).

Definition offline : Background.FetchOutcome :=
  Background.Rejected (TypeError (str "Failed to fetch")).

End Samples.

(* ===================================================================== *)
(** ** Completions, read off the JSON                                      *)
(* ===================================================================== *)

Module Replies.

(** [v[0]] as far as it can lead to a message: the first item of an
    array, or the member "0" of an object.  (The first character of a
    string is a string, which has no member [message].) *)
Definition firstItem (v : JsValue) : JsValue :=
  match v with
  | JArr (x :: _) => x
  | JObj fields => ownProperty fields (str "0")
  | _ => JUndefined
  end.

(** The member [k] of an object, [undefined] for anything else. *)
Definition member (v : JsValue) (k : string) : JsValue :=
  match v with
  | JObj fields => ownProperty fields (str k)
  | _ => JUndefined
  end.

(** The text of a completion: [data.choices[0].message.content] when
    every level is there and the last one is a string. *)
Definition completionText (data : JsValue) : option jsstring :=
  match member (member (firstItem (member data "choices")) "message") "content" with
  | JStr s => Some s
  | _ => None
  end.

(** The answer to one request, as [generateSummary] reads it: the [try]
    block on what [fetch] settles to, the [catch] block if it throws. *)
Definition answerTo (br : Background.Browser) (request : Background.Request)
    : Background.SummaryResult :=
  tryCatch (Background.interpretOutcome (Background.fetch br request))
    Background.onFetchError.

(** The title sent along with a selection: the title [chrome.tabs.get]
    reports, 'Selected Text' when it reports none or fails. *)
Definition selectionTitle (br : Background.Browser) (tabId : Z) : jsstring :=
  match Background.tabsGet br tabId with
  | Ok tab => Content.orElse (Background.tab_title tab) (str "Selected Text")
  | Throw _ => str "Selected Text"
  end.

End Replies.

(* ===================================================================== *)
(** ** background.js: the context menu and the keyboard shortcut           *)
(* ===================================================================== *)

Module Shortcuts.
Import Content Background.

(** The text handed to the popup that is injected into the page: the
    summary, or the template literal [`Error: ${v}`] with its value. *)
Inductive PopupText : Type :=
| Plain (s : jsstring)
| ErrorLine (v : JsValue).

(** The text as displayed, when the value of an error line is a string;
    how the engine prints any other value is not modelled. *)
Definition displayed (t : PopupText) : option jsstring :=
  match t with
  | Plain s => Some s
  | ErrorLine (JStr s) => Some (str "Error: " ++ s)
  | ErrorLine _ => None
  end.

(** Around the service worker: the two inline scripts that draw in the
    page, each of which [chrome.scripting.executeScript] may refuse. *)
Record Shell : Type := mkShell {
  worker : Browser;
  loadingScript : Z -> Exc unit;       (* the "Summarizing..." popup *)
  popupScript : Z -> Exc unit          (* the popup of showSelectionSummary *)
}.

Inductive UiEvent : Type :=
| Worker (ev : Event)
| ShowLoading (tabId : Z)
| ShowPopup (tabId : Z) (text : PopupText) (isError : bool).

Definition U (A : Type) : Type := Shell -> A * list UiEvent.

Definition retU {A} (a : A) : U A := fun _ => (a, []).

Definition bindU {A B} (m : U A) (f : A -> U B) : U B :=
  fun sh =>
    let (a, t1) := m sh in
    let (b, t2) := f a sh in
    (b, t1 ++ t2).

Definition callU {A} (ev : UiEvent) (answer : Shell -> A) : U A :=
  fun sh => (answer sh, [ev]).

(** A computation of the worker, run inside the shell. *)
Definition lift {A} (m : M A) : U A :=
  fun sh => let (a, t) := m (worker sh) in (a, map Worker t).

Declare Scope shell_scope.
Delimit Scope shell_scope with shell.
Notation "x <- m ;; k" := (bindU m (fun x => k))
  (at level 61, m at next level, right associativity) : shell_scope.
Local Open Scope shell_scope.

(** [showSelectionSummary(tabId, result)]. *)
Definition showSelectionSummary (tabId : Z) (result : SummaryResult) : U (Exc unit) :=
  let message :=
    if success result then Plain (summary result) else ErrorLine (error result) in
  callU (ShowPopup tabId message (negb (success result)))
        (fun sh => popupScript sh tabId).

(** The loading popup, the summary of the selection, the result popup:
    the three steps shared by the two handlers. *)
Definition summarizeAndShow (selectedText : jsstring) (tabId : Z) : U (Exc unit) :=
  loaded <- callU (ShowLoading tabId) (fun sh => loadingScript sh tabId) ;;
  match loaded with
  | Throw err => retU (Throw err)
  | Ok _ =>
      result <- lift (summarizeSelectedText selectedText tabId) ;;
      showSelectionSummary tabId result
  end.

(** What the context menu reports about a click. *)
Record ClickInfo : Type := mkClick {
  menuItemId : jsstring;
  selectionText : option jsstring
}.

(** The listener of [chrome.contextMenus.onClicked]. *)
Definition onClicked (info : ClickInfo) (tab : Tab) : U (Exc unit) :=
  if JsString.eqb (menuItemId info) (str "summarize-selection")
     && present (selectionText info)
  then summarizeAndShow (orElse (selectionText info) []) (tab_id tab)
  else retU (Ok tt).

Definition NO_SELECTION : jsstring :=
  str "No text selected. Please select some text first.".

(** The [try] block of the keyboard shortcut. *)
Definition shortcutBody (tabId : Z) : U (Exc unit) :=
  frames <- lift (call (EvSelectionScript tabId) (fun br => selectionScript br tabId)) ;;
  match bindExc frames firstResult with
  | Throw err => retU (Throw err)
  | Ok selectedText =>
      if nothingSelected selectedText
      then showSelectionSummary tabId (failure (JStr NO_SELECTION))
      else summarizeAndShow (orElse selectedText []) tabId
  end.

(** The listener of [chrome.commands.onCommand]. *)
Definition onCommand (command : jsstring) : U (Exc unit) :=
  if JsString.eqb command (str "summarize-selection")
  then
    tabs <- lift (call EvTabsQuery activeTabs) ;;
    match tabs with
    | None =>
        retU (Throw (TypeError
          (str "(intermediate value) is not iterable")))
    | Some [] => retU (Ok tt)
    | Some (tab :: _) =>
        attempt <- shortcutBody (tab_id tab) ;;
        match attempt with
        | Ok _ => retU (Ok tt)
        | Throw err =>
            showSelectionSummary (tab_id tab)
              (failure (JStr (str "Error: " ++ err_message err)))
        end
    end
  else retU (Ok tt).




(** The popup [showSelectionSummary] asks for. *)
Definition popupFor (result : SummaryResult) : PopupText * bool :=
  (if success result then Plain (summary result) else ErrorLine (error result),
   negb (success result)).

End Shortcuts.

Module ShellSamples.
(** A shell whose two scripts go through. *)
Definition shell (br : Background.Browser) : Shortcuts.Shell :=
  Shortcuts.mkShell br (fun _ => Ok tt) (fun _ => Ok tt).

End ShellSamples.

(* ===================================================================== *)
(** ** storage.js and popup.js: the stored settings                        *)
(* ===================================================================== *)

Module Settings.
Import Content.

(** [chrome.storage.sync]: the two keys the extension writes. *)
Record SyncStorage : Type := mkSync {
  stored_apiKey : option jsstring;
  stored_apiProvider : option jsstring
}.

(** storage.js, [saveApiKey]; [lastError] is [chrome.runtime.lastError]
    in the callback of [set]. *)
Definition saveApiKey (key : jsstring) (lastError : option jsstring)
    (st : SyncStorage) : Storage.Settled unit * SyncStorage :=
  match lastError with
  | Some message => (Storage.RejectedWith message, st)
  | None => (Storage.Fulfilled tt, mkSync (Some key) (stored_apiProvider st))
  end.

(** storage.js, [getApiKey]. *)
Definition getApiKey (lastError : option jsstring) (st : SyncStorage)
    : Storage.Settled (option jsstring) :=
  match lastError with
  | Some message => Storage.RejectedWith message
  | None => Storage.Fulfilled (Background.orNull (stored_apiKey st))
  end.

(** popup.js, [checkApiKey]: [!!result.apiKey]. *)
Definition checkApiKey (st : SyncStorage) : bool := present (stored_apiKey st).

(** popup.js, [saveApiSettings]. *)
Definition saveApiSettings (key provider : jsstring) (lastError : option jsstring)
    (st : SyncStorage) : Storage.Settled unit * SyncStorage :=
  match lastError with
  | Some message => (Storage.RejectedWith message, st)
  | None => (Storage.Fulfilled tt, mkSync (Some key) (Some provider))
  end.

(** popup.js, the click on the save-key button, as far as the store goes:
    the key typed is trimmed, and nothing is saved if nothing is left. *)
Definition saveKeyClick (apiKeyInput providerSelect : jsstring)
    (lastError : option jsstring) (st : SyncStorage) : SyncStorage :=
  let key := trim apiKeyInput in
  if JsString.truthy key
  then snd (saveApiSettings key providerSelect lastError st)
  else st.

(** The service worker's browser, reading these settings. *)
Definition reading (st : SyncStorage) (br : Background.Browser) : Background.Browser :=
  Background.mkBrowser (stored_apiKey st) (stored_apiProvider st)
    (Background.activeTabs br) (Background.injectContentScript br)
    (Background.contentScriptPage br) (Background.selectionScript br)
    (Background.tabsGet br) (Background.fetch br).

End Settings.

(* ===================================================================== *)
(** ** popup.js: what the popup shows                                      *)
(* ===================================================================== *)

Module Popup.
Import Content.

(** The parts of the popup the code drives: which blocks carry the class
    [hidden], the texts it sets, and its two variables. *)
Record State : Type := mkState {
  mainView_hidden : bool;
  settingsView_hidden : bool;
  detailView_hidden : bool;
  summarizeOptions_hidden : bool;
  loadingSection_hidden : bool;
  errorSection_hidden : bool;
  summarySection_hidden : bool;
  loadingText : jsstring;
  errorMessage : JsValue;            (* the value assigned to textContent *)
  summaryText : jsstring;
  detailTitle : jsstring;
  detailContent : jsstring;
  savedCount : Z;
  savedTitles : list jsstring;       (* one list item per saved summary *)
  currentSummary : option Storage.Summary;
  currentDetailSummary : option Storage.SavedSummary
}.

(** [showView(view)]. *)
Definition showView (view : jsstring) (p : State) : State :=
  mkState (negb (JsString.eqb view (str "main")))
    (negb (JsString.eqb view (str "settings")))
    (negb (JsString.eqb view (str "detail")))
    (summarizeOptions_hidden p) (loadingSection_hidden p) (errorSection_hidden p)
    (summarySection_hidden p) (loadingText p) (errorMessage p) (summaryText p)
    (detailTitle p) (detailContent p) (savedCount p) (savedTitles p)
    (currentSummary p) (currentDetailSummary p).

(** [showLoading(message)]. *)
Definition showLoading (message : jsstring) (p : State) : State :=
  mkState (mainView_hidden p) (settingsView_hidden p) (detailView_hidden p)
    true false true true
    message (errorMessage p) (summaryText p)
    (detailTitle p) (detailContent p) (savedCount p) (savedTitles p)
    (currentSummary p) (currentDetailSummary p).

(** [showError(message)]. *)
Definition showError (message : JsValue) (p : State) : State :=
  mkState (mainView_hidden p) (settingsView_hidden p) (detailView_hidden p)
    false true false true
    (loadingText p) message (summaryText p)
    (detailTitle p) (detailContent p) (savedCount p) (savedTitles p)
    (currentSummary p) (currentDetailSummary p).

(** [showSummary(summary, { title, url })]. *)
Definition showSummary (summary : jsstring) (title url : option jsstring)
    (p : State) : State :=
  mkState (mainView_hidden p) (settingsView_hidden p) (detailView_hidden p)
    true true true false
    (loadingText p) (errorMessage p) summary
    (detailTitle p) (detailContent p) (savedCount p) (savedTitles p)
    (Some (Storage.mkSummary url title summary)) (currentDetailSummary p).

(** [v || text] on a value. *)
Definition valueOr (v : JsValue) (text : string) : JsValue :=
  if Js.truthy v then v else JStr (str text).

(** What [chrome.runtime.sendMessage] gives the popup: it throws, or it
    resolves with the listener's answer, whose payload may be missing. *)
Definition Reply : Type := Exc (option Background.SummaryResult).

(** [triggerSummarization()], given the reply. *)
Definition triggerSummarization (reply : Reply) (p : State) : State :=
  let p := showLoading (str "Summarizing article...") p in
  match reply with
  | Throw _ => showError (JStr (str "Failed to communicate with extension.")) p
  | Ok None => showError (JStr (str "No response from background script.")) p
  | Ok (Some payload) =>
      if Background.success payload
      then showSummary (Background.summary payload)
             (Background.title payload) (Background.url payload) p
      else showError (valueOr (Background.error payload) "Failed to generate summary.") p
  end.

(** [triggerSelectionSummarization()], given the reply. *)
Definition triggerSelectionSummarization (reply : Reply) (p : State) : State :=
  let p := showLoading (str "Summarizing selection...") p in
  match reply with
  | Throw _ => showError (JStr (str "Failed to communicate with extension.")) p
  | Ok None => showError (JStr (str "No response from background script.")) p
  | Ok (Some payload) =>
      if Background.success payload
      then showSummary (Background.summary payload)
             (Some (orElse (Background.title payload) (str "Selected Text")))
             (Background.url payload) p
      else showError (valueOr (Background.error payload) "Failed to summarize selection.") p
  end.

(** [loadSavedSummaries()] with [renderSavedList]: the count, and one
    item per summary titled [summary.title || 'Untitled']. *)
Definition loadSavedSummaries (store : Storage.LocalStorage) (p : State) : State :=
  let summaries := Storage.readSummaries store in
  mkState (mainView_hidden p) (settingsView_hidden p) (detailView_hidden p)
    (summarizeOptions_hidden p) (loadingSection_hidden p) (errorSection_hidden p)
    (summarySection_hidden p) (loadingText p) (errorMessage p) (summaryText p)
    (detailTitle p) (detailContent p)
    (Z.of_nat (List.length summaries))
    (map (fun s => orElse (Storage.title s) (str "Untitled")) summaries)
    (currentSummary p) (currentDetailSummary p).

(** [showSummaryDetail(summary)]. *)
Definition showSummaryDetail (s : Storage.SavedSummary) (p : State) : State :=
  showView (str "detail")
    (mkState (mainView_hidden p) (settingsView_hidden p) (detailView_hidden p)
       (summarizeOptions_hidden p) (loadingSection_hidden p) (errorSection_hidden p)
       (summarySection_hidden p) (loadingText p) (errorMessage p) (summaryText p)
       (orElse (Storage.title s) (str "Untitled")) (Storage.summary s)
       (savedCount p) (savedTitles p)
       (currentSummary p) (Some s)).

(** [saveCurrentSummary()], store and popup together. *)
Definition saveCurrentSummary (random : nat -> Z) (now : Z)
    (store : Storage.LocalStorage) (p : State) : Storage.LocalStorage * State :=
  match currentSummary p with
  | None => (store, p)
  | Some _ =>
      let store := Storage.saveCurrentSummary (currentSummary p) random now store in
      (store, loadSavedSummaries store p)
  end.

(** [deleteCurrentSummary()], store and popup together. *)
Definition deleteCurrentSummary (store : Storage.LocalStorage) (p : State)
    : Storage.LocalStorage * State :=
  match currentDetailSummary p with
  | None => (store, p)
  | Some _ =>
      let store := Storage.deleteCurrentSummary (currentDetailSummary p) store in
      let p :=
        mkState (mainView_hidden p) (settingsView_hidden p) (detailView_hidden p)
          (summarizeOptions_hidden p) (loadingSection_hidden p) (errorSection_hidden p)
          (summarySection_hidden p) (loadingText p) (errorMessage p) (summaryText p)
          (detailTitle p) (detailContent p) (savedCount p) (savedTitles p)
          (currentSummary p) None in
      (store, loadSavedSummaries store (showView (str "main") p))
  end.

(** How many of the three result blocks (loading, error, summary) show. *)
Definition blocksShown (p : State) : nat :=
  (if loadingSection_hidden p then 0 else 1)
  + (if errorSection_hidden p then 0 else 1)
  + (if summarySection_hidden p then 0 else 1).

(** How many of the three views show. *)
Definition viewsShown (p : State) : nat :=
  (if mainView_hidden p then 0 else 1)
  + (if settingsView_hidden p then 0 else 1)
  + (if detailView_hidden p then 0 else 1).

(** The state [p'] a trigger leaves, from the state [p] and the reply.
    The two triggers differ in the loading text, the title kept for a
    success and the fallback error text only.  [errorMessage] is the
    value assigned to [errorMessage.textContent], before the browser
    turns it into the text shown. *)
Definition afterTrigger (loading fallback : string)
    (titleOf : option jsstring -> option jsstring) (reply : Reply) (p p' : State) : Prop :=
  blocksShown p' = 1%nat
  /\ loadingSection_hidden p' = true
  /\ loadingText p' = str loading
  /\ (summarySection_hidden p' = false <->
      exists payload, reply = Ok (Some payload) /\ Background.success payload = true)
  /\ (summarySection_hidden p' = true ->
      errorSection_hidden p' = false
      /\ summarizeOptions_hidden p' = false
      /\ Js.truthy (errorMessage p') = true
      /\ (forall text, errorMessage p' = JStr text -> text <> [])
      /\ currentSummary p' = currentSummary p)
  /\ (forall e,
        reply = Throw e ->
        errorMessage p' = JStr (str "Failed to communicate with extension."))
  /\ (reply = Ok None ->
      errorMessage p' = JStr (str "No response from background script."))
  /\ (forall payload,
        reply = Ok (Some payload) -> Background.success payload = true ->
        summarizeOptions_hidden p' = true
        /\ summaryText p' = Background.summary payload
        /\ currentSummary p'
           = Some (Storage.mkSummary (Background.url payload) (titleOf (Background.title payload))
                     (Background.summary payload)))
  /\ (forall payload,
        reply = Ok (Some payload) -> Background.success payload = false ->
        errorMessage p' = valueOr (Background.error payload) fallback).

End Popup.

(* ===================================================================== *)
(** ** Shapes of ids and of the saved list                                 *)
(* ===================================================================== *)

Module ListShapes.

(** A lower-case hexadecimal digit. *)
Definition isHexDigit (c : Z) : Prop := 48 <= c <= 57 \/ 97 <= c <= 102.

(** The layout of a version-4 UUID: 8-4-4-4-12 hexadecimal digits
    separated by hyphens, the third group starting with 4 and the fourth
    with 8, 9, a or b. *)
Definition isUuidV4 (u : jsstring) : Prop :=
  exists a b c v d e,
    u = a ++ [45] ++ b ++ [45; 52] ++ c ++ [45] ++ [v] ++ d ++ [45] ++ e
    /\ List.length a = 8%nat /\ List.length b = 4%nat /\ List.length c = 3%nat
    /\ List.length d = 3%nat /\ List.length e = 12%nat
    /\ (v = 56 \/ v = 57 \/ v = 97 \/ v = 98)
    /\ Forall isHexDigit (a ++ b ++ c ++ d ++ e).

(** The hexadecimal digits of the draws [from], [from + 1], ... *)
Definition digits (random : nat -> Z) (from count : nat) : jsstring :=
  map (fun k => Storage.hexDigit (random k)) (seq from count).

(** Entries in the order of their time stamps, the latest first. *)
Fixpoint newestFirst (l : list Storage.SavedSummary) : Prop :=
  match l with
  | [] => True
  | x :: rest =>
      (forall y, In y rest -> Storage.savedAt y <= Storage.savedAt x)
      /\ newestFirst rest
  end.

(** The entry a save builds, whether or not it gets stored. *)
Definition entryOf (op : Storage.Operation) : option Storage.SavedSummary :=
  match op with
  | Storage.SaveSummary random now s _ => Some (Storage.newEntry random now s)
  | Storage.SaveCurrentSummary (Some current) random now =>
      Some (Storage.newEntry random now current)
  | _ => None
  end.

End ListShapes.

(* ===================================================================== *)
(** ** Facts about strings                                                 *)
(* ===================================================================== *)

Section StringFacts.

Lemma eqb_refl (a : jsstring) : JsString.eqb a a = true.
Proof.
  induction a as [|x a IH]; simpl; [reflexivity|].
  now rewrite Z.eqb_refl, IH.
Qed.

Lemma eqb_eq (a b : jsstring) : JsString.eqb a b = true <-> a = b.
Proof.
  split.
  - revert b. induction a as [|x a IH]; intros [|y b] H; simpl in H;
      try discriminate; [reflexivity|].
    apply andb_true_iff in H as [Hx Hr].
    apply Z.eqb_eq in Hx. apply IH in Hr. congruence.
  - intros ->. apply eqb_refl.
Qed.

Lemma eqb_neq (a b : jsstring) : JsString.eqb a b = false <-> a <> b.
Proof.
  split.
  - intros H E. apply eqb_eq in E. congruence.
  - intros H. destruct (JsString.eqb a b) eqn:E; [|reflexivity].
    apply eqb_eq in E. contradiction.
Qed.

Lemma truthy_nonempty (s : jsstring) : JsString.truthy s = true <-> s <> [].
Proof. destruct s; simpl; split; congruence. Qed.

(** A line feed is white space. *)
Lemma newline_isWhiteSpace : isWhiteSpace 10 = true.
Proof. reflexivity. Qed.

(** After [replace(/\s+/g, ' ')] no line feed is left... *)
Lemma replaceWsRuns_no_newline (s : jsstring) (inRun : bool) :
  ~ In 10 (replaceWsRuns inRun s).
Proof.
  revert inRun. induction s as [|c r IH]; intros inRun; simpl; [tauto|].
  destruct (isWhiteSpace c) eqn:Hc.
  - destruct inRun; simpl; [apply IH|].
    intros [E|H]; [discriminate|]. now apply IH in H.
  - simpl. intros [E|H]; [|now apply IH in H].
    subst c. rewrite newline_isWhiteSpace in Hc. discriminate.
Qed.

(** ... so [replace(/\n\s*\n/g, '\n')] finds nothing to replace. *)
Lemma replaceBlankLines_id (s : jsstring) :
  ~ In 10 s -> replaceBlankLines 0 s = s.
Proof.
  induction s as [|c r IH]; simpl; intros H; [reflexivity|].
  destruct (c =? 10) eqn:E.
  - apply Z.eqb_eq in E. tauto.
  - f_equal. apply IH. tauto.
Qed.

Lemma cleanText_eq (raw : jsstring) :
  Content.cleanText raw = trim (replaceWsRuns false raw).
Proof.
  unfold Content.cleanText.
  now rewrite replaceBlankLines_id by apply replaceWsRuns_no_newline.
Qed.

(** [s.substring(0, n)] keeps the first [n] code units. *)
Lemma substring_from_0 (s : jsstring) (n : Z) :
  0 <= n -> substring s 0 n = firstn (Z.to_nat n) s.
Proof.
  intros Hn. unfold substring, clampIndex, jslength.
  set (len := Z.of_nat (List.length s)).
  assert (Hlen : 0 <= len) by (unfold len; lia).
  replace (Z.min (Z.max 0 0) len) with 0 by lia.
  replace (Z.min 0 (Z.min (Z.max n 0) len)) with 0 by lia.
  change (Z.to_nat 0) with 0%nat. rewrite skipn_O.
  destruct (Z.le_gt_cases n len) as [Hle|Hgt].
  - f_equal. lia.
  - replace (Z.max 0 (Z.min (Z.max n 0) len) - 0) with len by lia.
    unfold len. rewrite Nat2Z.id.
    rewrite firstn_all. symmetry. apply firstn_all2. lia.
Qed.

Lemma substring_length (s : jsstring) (n : Z) :
  0 <= n -> n <= jslength s -> jslength (substring s 0 n) = n.
Proof.
  intros H0 Hn. rewrite substring_from_0 by assumption.
  unfold jslength in *. rewrite length_firstn. lia.
Qed.

Lemma substring_strict_prefix (s : jsstring) (n : Z) :
  0 <= n -> n < jslength s -> isStrictPrefix (substring s 0 n) s.
Proof.
  intros H0 Hn. rewrite substring_from_0 by assumption.
  exists (skipn (Z.to_nat n) s). split.
  - symmetry. apply firstn_skipn.
  - intros E. apply (f_equal (@List.length Z)) in E.
    rewrite length_skipn in E. unfold jslength in Hn. simpl in E. lia.
Qed.

Lemma stripNonAscii_ascii (s : jsstring) :
  Forall (fun c => 0 <= c <= 127) (stripNonAscii s).
Proof.
  unfold stripNonAscii. apply Forall_forall. intros c H.
  apply filter_In in H as [_ H]. unfold isAscii in H.
  apply andb_true_iff in H as [H1 H2]. lia.
Qed.

Lemma stripNonAscii_In (s : jsstring) (c : Z) :
  In c (stripNonAscii s) <-> In c s /\ 0 <= c <= 127.
Proof.
  unfold stripNonAscii. rewrite filter_In. unfold isAscii.
  rewrite andb_true_iff, !Z.leb_le. tauto.
Qed.

Lemma stripNonAscii_fixed (s : jsstring) :
  Forall (fun c => 0 <= c <= 127) s -> stripNonAscii s = s.
Proof.
  unfold stripNonAscii. induction 1 as [|c r Hc Hr IH]; simpl; [reflexivity|].
  unfold isAscii at 1.
  replace ((0 <=? c) && (c <=? 127)) with true
    by (symmetry; apply andb_true_iff; lia).
  now rewrite IH.
Qed.

(** The clean-up on a small text: runs of blanks and line feeds collapse,
    both ends are trimmed. *)
Example cleanText_sample :
  Content.cleanText ([32; 9] ++ str "one" ++ [10; 10; 32] ++ str "two" ++ [160; 10])
    = str "one two".
Proof. reflexivity. Qed.

(** The second replacement alone, on a text that still has line feeds:
    [a\n \n\nb] becomes [a\nb]. *)
Example replaceBlankLines_sample :
  replaceBlankLines 0 ([97; 10; 32; 10; 10; 98]) = [97; 10; 98].
Proof. reflexivity. Qed.

Example substring_sample :
  substring (str "abcdef") 0 4 = str "abcd"
  /\ substring (str "abcdef") 4 1 = str "bcd"
  /\ substring (str "abc") (-2) 10 = str "abc".
Proof. repeat split. Qed.

End StringFacts.

(* ===================================================================== *)
(** ** The extractor (content.js)                                          *)
(* ===================================================================== *)

Section Extractor.
Import Content.

(** Once the DOM reads succeed, the extractor is a function of the
    cleaned text. *)
Lemma extractArticleContent_cleaned (doc : Document) (t : jsstring) :
  cleanedTextOf doc = Some t ->
  extractArticleContent doc =
    if negb (JsString.truthy t) || (jslength t <? 50)
    then mkExtracted (extractTitle doc) [] (location_href doc) false
           (Some (str "No content found to summarize"))
    else mkExtracted (extractTitle doc)
           (if MAX_CONTENT_LENGTH <? jslength t
            then substring t 0 MAX_CONTENT_LENGTH else t)
           (location_href doc) true None.
Proof.
  unfold cleanedTextOf, extractArticleContent.
  destruct (rawText doc) as [raw|e]; [|discriminate].
  intros [= <-]. unfold tryCatch, bindExc.
  destruct (negb (JsString.truthy (cleanText raw)) || (jslength (cleanText raw) <? 50));
    reflexivity.
Qed.

(** The extractor never returns more than MAX_CONTENT_LENGTH code units. *)
Lemma extractArticleContent_bounded (doc : Document) :
  jslength (ec_text (extractArticleContent doc)) <= MAX_CONTENT_LENGTH.
Proof.
  destruct (cleanedTextOf doc) as [t|] eqn:Ht.
  - rewrite (extractArticleContent_cleaned doc t Ht).
    destruct (negb (JsString.truthy t) || (jslength t <? 50)); simpl;
      [unfold MAX_CONTENT_LENGTH, jslength; simpl; lia|].
    destruct (Z.ltb_spec MAX_CONTENT_LENGTH (jslength t)) as [Hlt|Hle];
      [|assumption].
    rewrite substring_length; unfold MAX_CONTENT_LENGTH in *; lia.
  - unfold cleanedTextOf in Ht. unfold extractArticleContent.
    destruct (rawText doc); [discriminate|]. unfold tryCatch, bindExc.
    cbn [ec_text]. unfold MAX_CONTENT_LENGTH, jslength. simpl. lia.
Qed.

(** C5: a cleaned text of more than 10,000 code units is cut to exactly
    its first 10,000 code units, a strict prefix of it, and the
    extraction succeeds; a cleaned text of 50 to 10,000 code units is
    returned as it is; in every case the returned text has at most
    10,000 code units. *)
Theorem extractArticleContent_truncates (doc : Document) (t : jsstring) :
  cleanedTextOf doc = Some t ->
  (10000 < jslength t ->
     ec_success (extractArticleContent doc) = true
     /\ jslength (ec_text (extractArticleContent doc)) = 10000
     /\ isStrictPrefix (ec_text (extractArticleContent doc)) t)
  /\ (50 <= jslength t <= 10000 ->
     ec_success (extractArticleContent doc) = true
     /\ ec_text (extractArticleContent doc) = t)
  /\ jslength (ec_text (extractArticleContent doc)) <= 10000.
Proof.
  intros Ht. split; [|split].
  - intros Hlong. rewrite (extractArticleContent_cleaned doc t Ht).
    assert (Hne : JsString.truthy t = true).
    { apply truthy_nonempty. intros ->. unfold jslength in Hlong. simpl in Hlong. lia. }
    rewrite Hne. simpl negb. 
    replace (jslength t <? 50) with false by (symmetry; apply Z.ltb_ge; lia).
    unfold MAX_CONTENT_LENGTH.
    replace (10000 <? jslength t) with true by (symmetry; apply Z.ltb_lt; lia).
    cbn [orb ec_success ec_text]. split; [reflexivity|]. split.
    + apply substring_length; lia.
    + apply substring_strict_prefix; lia.
  - intros [Hlo Hhi]. rewrite (extractArticleContent_cleaned doc t Ht).
    assert (Hne : JsString.truthy t = true).
    { apply truthy_nonempty. intros ->. unfold jslength in Hlo. simpl in Hlo. lia. }
    rewrite Hne. simpl negb.
    replace (jslength t <? 50) with false by (symmetry; apply Z.ltb_ge; lia).
    unfold MAX_CONTENT_LENGTH.
    replace (10000 <? jslength t) with false by (symmetry; apply Z.ltb_ge; lia).
    cbn [orb ec_success ec_text]. split; reflexivity.
  - apply (extractArticleContent_bounded doc).
Qed.

(** C9: a page whose cleaned text has fewer than 50 code units gets the
    failure result with the "no content" error, an empty text, and the
    extracted title and the url of the page. *)
Theorem extractArticleContent_no_content (doc : Document) (t : jsstring) :
  cleanedTextOf doc = Some t ->
  jslength t < 50 ->
  extractArticleContent doc =
    mkExtracted (extractTitle doc) [] (location_href doc) false
      (Some (str "No content found to summarize")).
Proof.
  intros Ht Hshort. rewrite (extractArticleContent_cleaned doc t Ht).
  replace (jslength t <? 50) with true by (symmetry; apply Z.ltb_lt; lia).
  now rewrite orb_true_r.
Qed.

(** On a page without white space in its text, cleaning changes nothing. *)
Lemma trimStart_no_whitespace (t : jsstring) :
  Forall (fun c => isWhiteSpace c = false) t -> trimStart t = t.
Proof. destruct 1 as [|c r Hc _]; simpl; [reflexivity|now rewrite Hc]. Qed.

Lemma replaceWsRuns_no_whitespace (t : jsstring) :
  Forall (fun c => isWhiteSpace c = false) t -> replaceWsRuns false t = t.
Proof.
  induction 1 as [|c r Hc _ IH]; simpl; [reflexivity|].
  now rewrite Hc, IH.
Qed.

Lemma cleanText_no_whitespace (t : jsstring) :
  Forall (fun c => isWhiteSpace c = false) t -> cleanText t = t.
Proof.
  intros H. rewrite cleanText_eq, (replaceWsRuns_no_whitespace t H).
  unfold trim, trimEnd. rewrite (trimStart_no_whitespace t H).
  rewrite trimStart_no_whitespace, rev_involutive; [reflexivity|].
  apply Forall_forall. intros c Hc. apply in_rev in Hc.
  revert c Hc. now apply Forall_forall.
Qed.

Lemma plainPage_cleaned (c : Z) (t : jsstring) :
  Forall (fun c => isWhiteSpace c = false) (c :: t) ->
  cleanedTextOf (Examples.plainPage (c :: t)) = Some (c :: t).
Proof.
  intros H. unfold cleanedTextOf, rawText, Examples.plainPage.
  cbn [findArticleContainer firstMatch ARTICLE_SELECTORS querySelector doc_body
       cloneWithout innerText orElse JsString.truthy].
  now rewrite (cleanText_no_whitespace _ H).
Qed.

Lemma letters_no_whitespace (n : nat) :
  Forall (fun c => isWhiteSpace c = false) (Examples.letters n).
Proof.
  unfold Examples.letters. constructor; [reflexivity|].
  apply Forall_forall. intros c Hc. apply repeat_spec in Hc. now subst c.
Qed.

Lemma letters_length (n : nat) :
  jslength (Examples.letters n) = Z.of_nat n + 1.
Proof.
  unfold Examples.letters, jslength. cbn [List.length].
  rewrite repeat_length. lia.
Qed.

Lemma extractArticleContent_truncates_witness :
  (cleanedTextOf (Examples.plainPage Examples.longText) = Some Examples.longText
   /\ 10000 < jslength Examples.longText
   /\ ec_success (extractArticleContent (Examples.plainPage Examples.longText)) = true
   /\ jslength (ec_text (extractArticleContent (Examples.plainPage Examples.longText))) = 10000
   /\ isStrictPrefix (ec_text (extractArticleContent (Examples.plainPage Examples.longText)))
        Examples.longText)
  /\ (cleanedTextOf (Examples.plainPage Examples.mediumText) = Some Examples.mediumText
      /\ 50 <= jslength Examples.mediumText <= 10000
      /\ ec_text (extractArticleContent (Examples.plainPage Examples.mediumText))
         = Examples.mediumText).
Proof.
  assert (Hl : cleanedTextOf (Examples.plainPage Examples.longText) = Some Examples.longText)
    by (apply plainPage_cleaned, letters_no_whitespace).
  assert (Hm : cleanedTextOf (Examples.plainPage Examples.mediumText) = Some Examples.mediumText)
    by (apply plainPage_cleaned, letters_no_whitespace).
  assert (Hlen : 10000 < jslength Examples.longText)
    by (unfold Examples.longText; rewrite letters_length; lia).
  assert (Hmid : 50 <= jslength Examples.mediumText <= 10000)
    by (unfold Examples.mediumText; rewrite letters_length; lia).
  split.
  - split; [exact Hl|]. split; [exact Hlen|].
    exact (proj1 (extractArticleContent_truncates _ _ Hl) Hlen).
  - split; [exact Hm|]. split; [exact Hmid|].
    exact (proj2 (proj1 (proj2 (extractArticleContent_truncates _ _ Hm)) Hmid)).
Defined.

Lemma extractArticleContent_no_content_witness :
  cleanedTextOf (Examples.plainPage Examples.shortText) = Some Examples.shortText
  /\ jslength Examples.shortText < 50
  /\ extractArticleContent (Examples.plainPage Examples.shortText) =
       mkExtracted (str "Example") [] (str "https://example.org/a") false
         (Some (str "No content found to summarize")).
Proof.
  assert (Hs : cleanedTextOf (Examples.plainPage Examples.shortText) = Some Examples.shortText)
    by (vm_compute; reflexivity).
  assert (Hlen : jslength Examples.shortText < 50) by (vm_compute; reflexivity).
  split; [exact Hs|]. split; [exact Hlen|].
  exact (extractArticleContent_no_content _ _ Hs Hlen).
Defined.

End Extractor.

(* ===================================================================== *)
(** ** The summarizer (background.js)                                      *)
(* ===================================================================== *)

Section Summarizer.
Import Content Background Properties.

(** *** handleApiError *)

(** The code's [errorData.error?.message] reads the provider's message. *)
Lemma errorMessageOf_providerMessage (errorData : JsValue) :
  errorData <> JUndefined -> errorData <> JNull ->
  errorMessageOf errorData = Ok (providerMessage errorData).
Proof.
  intros H1 H2. unfold errorMessageOf, providerMessage.
  destruct errorData as [| |b|n|s|items|fields]; try congruence; try reflexivity.
  simpl. change (propText P_error) with (str "error").
  destruct (ownProperty fields (str "error")) as [| |b|n|s|items|inner];
    reflexivity.
Qed.

(** C2, the 5xx rule fails: 504 is a 5xx status and gets the generic
    message. *)
Lemma handleApiError_504_generic :
  handleApiError 504 (JObj []) = Ok (failure (JStr GENERIC_ERROR))
  /\ ~ every5xxIsServiceUnavailable.
Proof.
  split; [reflexivity|].
  intros H. specialize (H 504 (JObj []) ltac:(lia)). vm_compute in H. discriminate.
Qed.

(** C2, as the code has it: 401, 429 and the three statuses 500, 502 and
    503 have fixed messages; every other status, the other 5xx ones
    included, gets the provider's message [errorData.error.message] when
    the error body is an object (anything but [null] or [undefined]) and
    that message is truthy, and the generic message otherwise. *)
Theorem handleApiError_mapping (status : Z) (errorData : JsValue) :
  (status = 401 ->
     handleApiError status errorData = Ok (failure (JStr INVALID_API_KEY)))
  /\ (status = 429 ->
     handleApiError status errorData = Ok (failure (JStr RATE_LIMITED)))
  /\ (status = 500 \/ status = 502 \/ status = 503 ->
     handleApiError status errorData = Ok (failure (JStr SERVICE_UNAVAILABLE)))
  /\ (status <> 401 -> status <> 429 ->
      status <> 500 -> status <> 502 -> status <> 503 ->
      errorData <> JUndefined -> errorData <> JNull ->
      handleApiError status errorData =
        Ok (failure (if Js.truthy (providerMessage errorData)
                     then providerMessage errorData
                     else JStr GENERIC_ERROR))).
Proof.
  repeat split.
  - intros ->. reflexivity.
  - intros ->. reflexivity.
  - intros [-> | [-> | ->]]; reflexivity.
  - intros H401 H429 H500 H502 H503 Hu Hn. unfold handleApiError.
    apply Z.eqb_neq in H401, H429, H500, H502, H503.
    rewrite H401, H429, H500, H502, H503. cbn [orb].
    rewrite (errorMessageOf_providerMessage errorData Hu Hn). reflexivity.
Qed.

Lemma handleApiError_mapping_witness :
  handleApiError 401 (JObj []) = Ok (failure (JStr INVALID_API_KEY))
  /\ handleApiError 429 (JObj []) = Ok (failure (JStr RATE_LIMITED))
  /\ handleApiError 503 (JObj []) = Ok (failure (JStr SERVICE_UNAVAILABLE))
  /\ handleApiError 504
       (JObj [ (str "error", JObj [ (str "message", JStr (str "Gateway timeout")) ]) ])
     = Ok (failure (JStr (str "Gateway timeout"))).
Proof.
  split; [exact (proj1 (handleApiError_mapping 401 (JObj [])) eq_refl)|].
  split; [exact (proj1 (proj2 (handleApiError_mapping 429 (JObj []))) eq_refl)|].
  split; [exact (proj1 (proj2 (proj2 (handleApiError_mapping 503 (JObj []))))
                   (or_intror (or_intror eq_refl)))|].
  refine (proj2 (proj2 (proj2 (handleApiError_mapping 504 _))) _ _ _ _ _ _ _);
    discriminate.
Defined.

(** *** generateSummary: the request *)

(** One run of [generateSummary] makes one call, the [fetch] of the
    request it built, and answers from what that call settles to. *)
Lemma generateSummary_run (content : ExtractedContent) (apiKey : jsstring)
    (provider : option jsstring) (br : Browser) :
  generateSummary content apiKey provider br =
    (tryCatch (interpretOutcome (fetch br (buildRequest content apiKey provider)))
       onFetchError,
     [EvFetch (buildRequest content apiKey provider)]).
Proof. reflexivity. Qed.

(** An error body that is the JSON value [null]: reading [errorData.error]
    throws, and [generateSummary] reports it through its [catch] block. *)
Example handleApiError_null_body :
  handleApiError 400 JNull
    = Throw (TypeError (str "Cannot read properties of null (reading 'error')"))
  /\ forall content apiKey provider,
       fst (generateSummary content apiKey provider (Examples.answering (Examples.http 400 JNull)))
       = failure (JStr (str "Network error: Cannot read properties of null (reading 'error'). Please reload the extension and try again.")).
Proof. split; [reflexivity|]. intros. rewrite generateSummary_run. reflexivity. Qed.

Lemma sanitizedTitle_removes (t : jsstring) : RemovesNonAscii t (sanitizedTitle t).
Proof.
  unfold sanitizedTitle, stripNonAscii.
  induction t as [|c t IH]; simpl; [constructor|].
  destruct (isAscii c) eqn:Hc; unfold isAscii in Hc.
  - apply rna_keep; [|exact IH].
    apply andb_true_iff in Hc as [H1 H2]. lia.
  - apply rna_drop; [|exact IH].
    apply andb_false_iff in Hc as [H|H]; [apply Z.leb_gt in H|apply Z.leb_gt in H]; lia.
Qed.

(** The relation determines its result: there is one way to remove the
    non-ASCII code units. *)
Lemma RemovesNonAscii_unique (t a b : jsstring) :
  RemovesNonAscii t a -> RemovesNonAscii t b -> a = b.
Proof.
  intros Ha. revert b.
  induction Ha as [|c t a Hc _ IH|c t a Hc _ IH]; intros b Hb;
    inversion Hb; subst; try contradiction; try reflexivity.
  - f_equal. now apply IH.
  - now apply IH.
Qed.

(** C8: the one request of [generateSummary] carries, after the system
    prompt, the user message [Title: <t>\n\nContent:\n<body>] where [<t>]
    is the title without its non-ASCII code units, all of [<t>] is ASCII,
    and [<body>] is the text as it came.  For the title "Café news!" and
    the provider openrouter the message starts [Title: Caf news!] and
    ends with the unchanged text. *)
Theorem generateSummary_user_message (content : ExtractedContent)
    (apiKey : jsstring) (provider : option jsstring) (br : Browser) :
  requestsOf (snd (generateSummary content apiKey provider br))
    = [buildRequest content apiKey provider]
  /\ (exists t,
        RemovesNonAscii (ec_title content) t
        /\ Forall (fun c => 0 <= c <= 127) t
        /\ messages (request_body (buildRequest content apiKey provider)) =
             [ mkMessage (str "system") SYSTEM_PROMPT;
               mkMessage (str "user")
                 (str "Title: " ++ t ++ [10; 10] ++ str "Content:" ++ [10]
                    ++ ec_text content) ])
  /\ (forall body u,
        messages (request_body
                    (buildRequest (mkExtracted Examples.cafeTitle body u true None)
                       apiKey (Some (str "openrouter")))) =
          [ mkMessage (str "system") SYSTEM_PROMPT;
            mkMessage (str "user")
              (str "Title: Caf news!" ++ [10; 10] ++ str "Content:" ++ [10] ++ body) ]).
Proof.
  split; [reflexivity|]. split.
  - exists (sanitizedTitle (ec_title content)). split; [|split].
    + apply sanitizedTitle_removes.
    + apply stripNonAscii_ascii.
    + reflexivity.
  - intros body u. reflexivity.
Qed.

(** *** generateSummary: the provider *)

Lemma eqb_sym (a b : jsstring) : JsString.eqb a b = JsString.eqb b a.
Proof.
  destruct (JsString.eqb b a) eqn:E.
  - apply eqb_eq in E. subst. apply eqb_refl.
  - apply eqb_neq in E. apply eqb_neq. congruence.
Qed.

(** A key that is neither a provider nor inherited reads as the entry of
    [openai]. *)
Lemma readMemberOr_fallback (v1 v2 : jsstring) (k : jsstring) :
  k <> str "openai" -> k <> str "openrouter" -> inheritedKey k = false ->
  readMemberOr [ (str "openai", v1); (str "openrouter", v2) ] k (str "openai")
    = Some (MString v1).
Proof.
  intros H1 H2 Hi. unfold readMemberOr, readMember. cbn [ownString].
  apply eqb_neq in H1, H2. rewrite eqb_sym in H1. rewrite eqb_sym in H2.
  rewrite H1, H2, Hi. reflexivity.
Qed.


(** Where the fallback works: a provider that is not 'openai', not
    'openrouter' and not the name of a member of [Object.prototype]
    ([undefined] included) gets the endpoint and the model of 'openai';
    the two identification headers are sent exactly for 'openrouter'. *)
Theorem buildRequest_provider_fallback (content : ExtractedContent)
    (apiKey : jsstring) (provider : option jsstring) :
  (provider <> Some (str "openai") ->
   provider <> Some (str "openrouter") ->
   inheritedKey (providerOrDefault provider) = false ->
     request_url (buildRequest content apiKey provider)
       = Some (MString (str "https://api.openai.com/v1/chat/completions"))
     /\ model (request_body (buildRequest content apiKey provider))
       = Some (MString (str "gpt-3.5-turbo")))
  /\ (provider = Some (str "openrouter") ->
        headers (buildRequest content apiKey provider)
          = baseHeaders apiKey ++ identificationHeaders)
  /\ (provider <> Some (str "openrouter") ->
        headers (buildRequest content apiKey provider) = baseHeaders apiKey).
Proof.
  split; [|split].
  - intros H1 H2 Hi. destruct provider as [p|]; [|split; reflexivity].
    assert (p <> str "openai") by congruence.
    assert (p <> str "openrouter") by congruence.
    cbn [providerOrDefault] in Hi. unfold buildRequest.
    cbn [request_url request_body model providerOrDefault].
    unfold API_ENDPOINTS, DEFAULT_MODELS.
    rewrite !readMemberOr_fallback by assumption. split; reflexivity.
  - intros ->. reflexivity.
  - intros H. unfold buildRequest. cbn [headers]. unfold requestHeaders.
    destruct provider as [p|]; [|reflexivity].
    cbn [providerOrDefault].
    replace (JsString.eqb p (str "openrouter")) with false; [reflexivity|].
    symmetry. apply eqb_neq. congruence.
Qed.

Lemma buildRequest_provider_fallback_witness :
  (request_url (buildRequest (mkExtracted [] [] [] true None) (str "sk-1") (Some (str "azure")))
     = Some (MString (str "https://api.openai.com/v1/chat/completions"))
   /\ model (request_body
               (buildRequest (mkExtracted [] [] [] true None) (str "sk-1") (Some (str "azure"))))
     = Some (MString (str "gpt-3.5-turbo")))
  /\ headers (buildRequest (mkExtracted [] [] [] true None) (str "sk-1")
                (Some (str "openrouter")))
     = baseHeaders (str "sk-1") ++ identificationHeaders
  /\ headers (buildRequest (mkExtracted [] [] [] true None) (str "sk-1") None)
     = baseHeaders (str "sk-1").
Proof.
  split; [|split].
  - refine (proj1 (buildRequest_provider_fallback _ _ (Some (str "azure"))) _ _ _);
      [discriminate | discriminate | reflexivity].
  - exact (proj1 (proj2 (buildRequest_provider_fallback _ _ (Some (str "openrouter"))))
             eq_refl).
  - refine (proj2 (proj2 (buildRequest_provider_fallback _ _ None)) _). discriminate.
Defined.

(** *** generateSummary: the response *)

(** A 2xx response whose first choice has a message without [content]
    ends in the [catch] block: [undefined.trim()] throws. *)
Lemma interpretOutcome_absent_content (r : Response)
    (data choices first message : JsValue) :
  ok r = true ->
  json r = Ok data ->
  getProp data P_choices = Ok choices -> Js.truthy choices = true ->
  getProp choices P_0 = Ok first -> Js.truthy first = true ->
  getProp first P_message = Ok message -> Js.truthy message = true ->
  getProp message P_content = Ok JUndefined ->
  tryCatch (interpretOutcome (Resolved r)) onFetchError =
    failure (JStr (str "Network error: "
                   ++ cannotRead "undefined" (str "trim")
                   ++ str ". Please reload the extension and try again.")).
Proof.
  intros Hok Hj Hc Htc Hf Htf Hm Htm Hcontent.
  unfold interpretOutcome. rewrite Hok, Hj. cbn [negb bindExc].
  rewrite Hc. cbn [bindExc]. rewrite Htc. cbn [negb].
  rewrite Hf. cbn [bindExc]. rewrite Htf. cbn [negb].
  rewrite Hm. cbn [bindExc]. rewrite Htm. cbn [negb].
  rewrite Hcontent. reflexivity.
Qed.

(** C1, where the code departs from it: for the 200 response
    [{ choices: [ { message: {} } ] }] the result is a failure with an
    empty summary, but its error is the network-error text built from the
    [TypeError] of [undefined.trim()], not the could-not-generate text. *)
Theorem generateSummary_missing_content (content : ExtractedContent)
    (apiKey : jsstring) (provider : option jsstring) :
  fst (generateSummary content apiKey provider
         (Examples.answering (Examples.http 200 Examples.missingContent)))
    = mkResult [] None None false
        (JStr (str "Network error: Cannot read properties of undefined (reading 'trim'). Please reload the extension and try again."))
  /\ error (fst (generateSummary content apiKey provider
                   (Examples.answering (Examples.http 200 Examples.missingContent))))
     <> JStr COULD_NOT_GENERATE.
Proof.
  rewrite generateSummary_run. cbn [fst].
  replace (fetch _ _) with (Examples.http 200 Examples.missingContent) by reflexivity.
  split; [vm_compute; reflexivity|vm_compute; discriminate].
Qed.

(** *** The shape of results *)


Lemma failure_failed (msg : JsValue) : msg <> JUndefined -> failed (failure msg).
Proof. intros H. repeat split; assumption. Qed.

Lemma truthy_defined (v : JsValue) : Js.truthy v = true -> v <> JUndefined.
Proof. intros H ->. discriminate. Qed.

Lemma handleApiError_failed (status : Z) (errorData : JsValue) (r : SummaryResult) :
  handleApiError status errorData = Ok r -> failed r.
Proof.
  unfold handleApiError.
  destruct (status =? 401); [intros [= <-]; apply failure_failed; discriminate|].
  destruct (status =? 429); [intros [= <-]; apply failure_failed; discriminate|].
  destruct ((status =? 500) || (status =? 502) || (status =? 503));
    [intros [= <-]; apply failure_failed; discriminate|].
  destruct (errorMessageOf errorData) as [m|e]; cbn [bindExc]; [|discriminate].
  destruct (Js.truthy m) eqn:Hm; intros [= <-]; apply failure_failed.
  - now apply truthy_defined.
  - discriminate.
Qed.

Lemma onFetchError_failed (err : JsError) : failed (onFetchError err).
Proof.
  unfold onFetchError.
  destruct (JsString.eqb (err_name err) (str "AbortError"));
    apply failure_failed; discriminate.
Qed.





Lemma bind_snd {A B} (m : M A) (f : A -> M B) (br : Browser) :
  snd (bind m f br) = snd (m br) ++ snd (f (fst (m br)) br).
Proof. unfold bind. destruct (m br) as [a t1]. cbn [fst snd]. now destruct (f a br). Qed.






(** A whole run that succeeds: configuration, injection, extraction, one
    request to openrouter with the four headers, and the trimmed summary. *)
Example onMessage_page_success :
  fst (onMessage (requestType PageScope) Examples.configured)
    = Some (mkResult (str "A summary.") (Some (str "Example"))
              (Some (str "https://example.org/a")) true JUndefined)
  /\ map (fun r => (request_url r, List.length (headers r)))
         (requestsOf (snd (onMessage (requestType PageScope) Examples.configured)))
     = [ (Some (MString (str "https://openrouter.ai/api/v1/chat/completions")), 4%nat) ]
  /\ configCheckedFirst (snd (onMessage (requestType PageScope) Examples.configured)).
Proof.
  split; [vm_compute; reflexivity|]. split; [vm_compute; reflexivity|].
  vm_compute. lia.
Qed.

(** *** The order of checks *)

Lemma absent_orNull (x : option jsstring) : absent x = true -> orNull x = None.
Proof.
  unfold absent, present, orNull. destruct x as [s|]; [|reflexivity].
  destruct (JsString.truthy s); [discriminate|reflexivity].
Qed.

Lemma handleSummarizeRequest_unconfigured (tabId : Z) (br : Browser) :
  absent (sync_apiKey br) = true ->
  handleSummarizeRequest tabId br =
    (mkResult [] (Some []) (Some []) false (JStr NOT_CONFIGURED),
     [EvStorageGet (str "apiKey"); EvStorageGet (str "apiProvider")]).
Proof.
  intros H. unfold handleSummarizeRequest, bind, getApiKey, getApiProvider, call.
  rewrite (absent_orNull _ H). reflexivity.
Qed.

Lemma summarizeSelectedText_unconfigured (selectedText : jsstring) (tabId : Z)
    (br : Browser) :
  absent (sync_apiKey br) = true ->
  summarizeSelectedText selectedText tabId br =
    (failure (JStr NOT_CONFIGURED),
     [EvStorageGet (str "apiKey"); EvStorageGet (str "apiProvider")]).
Proof.
  intros H. unfold summarizeSelectedText, bind, getApiKey, getApiProvider, call.
  rewrite (absent_orNull _ H). reflexivity.
Qed.

Lemma onMessage_page (br : Browser) :
  onMessage (requestType PageScope) br =
    match activeTabs br with
    | Some (tab :: _) =>
        (Some (fst (handleSummarizeRequest (tab_id tab) br)),
         EvTabsQuery :: snd (handleSummarizeRequest (tab_id tab) br) ++ [])
    | _ => (Some (failure (JStr NO_ACTIVE_TAB)), [EvTabsQuery])
    end.
Proof.
  unfold onMessage, requestType.
  replace (JsString.eqb (str "GENERATE_SUMMARY") (str "GENERATE_SUMMARY"))
    with true by reflexivity.
  unfold bind at 1. cbn [call].
  destruct (activeTabs br) as [[|tab rest]|]; try reflexivity.
  unfold bind. destruct (handleSummarizeRequest (tab_id tab) br) as [r t].
  reflexivity.
Qed.

Lemma onMessage_selection (br : Browser) :
  onMessage (requestType SelectionScope) br =
    match activeTabs br with
    | Some (tab :: _) =>
        match bindExc (selectionScript br (tab_id tab)) firstResult with
        | Throw err =>
            (Some (failure (JStr (str "Failed to get selection: " ++ err_message err))),
             [EvTabsQuery; EvSelectionScript (tab_id tab)])
        | Ok selectedText =>
            if nothingSelected selectedText
            then (Some (failure (JStr NO_TEXT_SELECTED)),
                  [EvTabsQuery; EvSelectionScript (tab_id tab)])
            else
              let run := summarizeSelectedText (orElse selectedText []) (tab_id tab) br in
              (Some (mkResult (summary (fst run))
                       (Some (orElse (tab_title tab) (str "Selected Text")))
                       (tab_url tab) (success (fst run)) (error (fst run))),
               EvTabsQuery :: EvSelectionScript (tab_id tab) :: snd run ++ [])
        end
    | _ => (Some (failure (JStr NO_ACTIVE_TAB)), [EvTabsQuery])
    end.
Proof.
  unfold onMessage, requestType.
  replace (JsString.eqb (str "SUMMARIZE_SELECTION") (str "GENERATE_SUMMARY"))
    with false by reflexivity.
  replace (JsString.eqb (str "SUMMARIZE_SELECTION") (str "SUMMARIZE_SELECTION"))
    with true by reflexivity.
  unfold bind at 1. cbn [call].
  destruct (activeTabs br) as [[|tab rest]|]; try reflexivity.
  unfold bind at 1. cbn [call].
  destruct (bindExc (selectionScript br (tab_id tab)) firstResult) as [sel|e];
    [|reflexivity].
  destruct (nothingSelected sel); [reflexivity|].
  unfold bind. cbv zeta.
  destruct (summarizeSelectedText (orElse sel []) (tab_id tab) br) as [r t].
  reflexivity.
Qed.

(** The listener answers two message types. *)
Lemma onMessage_cases (type : jsstring) (br : Browser) :
  type = requestType PageScope
  \/ type = requestType SelectionScope
  \/ onMessage type br = (None, []).
Proof.
  destruct (JsString.eqb type (str "GENERATE_SUMMARY")) eqn:E1;
    [left; now apply eqb_eq in E1|].
  destruct (JsString.eqb type (str "SUMMARIZE_SELECTION")) eqn:E2;
    [right; left; now apply eqb_eq in E2|].
  right; right. unfold onMessage. now rewrite E1, E2.
Qed.

(** Without an API key no request reaches the network, whatever the
    message and whatever else fails. *)
Lemma onMessage_unconfigured_no_fetch (type : jsstring) (br : Browser) :
  absent (sync_apiKey br) = true ->
  networkCalls (snd (onMessage type br)) = [].
Proof.
  intros H.
  destruct (onMessage_cases type br) as [-> | [-> | ->]]; [| |reflexivity].
  - rewrite onMessage_page.
    destruct (activeTabs br) as [[|tab rest]|]; try reflexivity.
    rewrite (handleSummarizeRequest_unconfigured _ _ H). reflexivity.
  - rewrite onMessage_selection.
    destruct (activeTabs br) as [[|tab rest]|]; try reflexivity.
    destruct (bindExc (selectionScript br (tab_id tab)) firstResult) as [sel|e];
      [|reflexivity].
    destruct (nothingSelected sel); [reflexivity|].
    rewrite (summarizeSelectedText_unconfigured _ _ _ H). reflexivity.
Qed.

(** C3, the order fails for a selection: with no API key and a blank
    selection the listener reads the selection first and reports that
    nothing is selected; the configuration is never read. *)
Lemma onMessage_blank_selection_first :
  absent (sync_apiKey (Examples.unconfigured (str "  "))) = true
  /\ onMessage (requestType SelectionScope) (Examples.unconfigured (str "  "))
     = (Some (failure (JStr NO_TEXT_SELECTED)), [EvTabsQuery; EvSelectionScript 7])
  /\ ~ configurationCheckedFirst.
Proof.
  split; [reflexivity|]. split; [vm_compute; reflexivity|].
  intros H.
  destruct (H SelectionScope (Examples.unconfigured (str "  ")) eq_refl)
    as (r & Hr & _ & He & _).
  vm_compute in Hr. injection Hr as <-. vm_compute in He. discriminate.
Qed.

(** C3, as the code has it.  Without an API key: no message makes a
    network call; a page request with an active tab reads the
    configuration right after the tab query and ends in the
    not-configured error without touching the page; a selection request
    with an active tab reads the selection first, and ends in the
    not-configured error when something is selected, in the
    nothing-selected error (the configuration unread) otherwise. *)
Theorem onMessage_without_api_key (br : Browser) :
  absent (sync_apiKey br) = true ->
  (forall type, networkCalls (snd (onMessage type br)) = [])
  /\ (forall tab rest,
        activeTabs br = Some (tab :: rest) ->
        onMessage (requestType PageScope) br =
          (Some (mkResult [] (Some []) (Some []) false (JStr NOT_CONFIGURED)),
           [EvTabsQuery; EvStorageGet (str "apiKey"); EvStorageGet (str "apiProvider")])
        /\ configCheckedFirst (snd (onMessage (requestType PageScope) br)))
  /\ (forall tab rest selectedText,
        activeTabs br = Some (tab :: rest) ->
        bindExc (selectionScript br (tab_id tab)) firstResult = Ok selectedText ->
        (nothingSelected selectedText = false ->
         onMessage (requestType SelectionScope) br =
           (Some (mkResult []
                    (Some (orElse (tab_title tab) (str "Selected Text")))
                    (tab_url tab) false (JStr NOT_CONFIGURED)),
            [EvTabsQuery; EvSelectionScript (tab_id tab);
             EvStorageGet (str "apiKey"); EvStorageGet (str "apiProvider")]))
        /\ (nothingSelected selectedText = true ->
         onMessage (requestType SelectionScope) br =
           (Some (failure (JStr NO_TEXT_SELECTED)),
            [EvTabsQuery; EvSelectionScript (tab_id tab)]))).
Proof.
  intros H. split; [|split].
  - intros type. now apply onMessage_unconfigured_no_fetch.
  - intros tab rest Htabs.
    assert (E : onMessage (requestType PageScope) br =
      (Some (mkResult [] (Some []) (Some []) false (JStr NOT_CONFIGURED)),
       [EvTabsQuery; EvStorageGet (str "apiKey"); EvStorageGet (str "apiProvider")])).
    { rewrite onMessage_page, Htabs.
      now rewrite (handleSummarizeRequest_unconfigured _ _ H). }
    split; [exact E|]. rewrite E. cbn. lia.
  - intros tab rest selectedText Htabs Hsel.
    rewrite onMessage_selection, Htabs, Hsel. split; intros ->; [|reflexivity].
    cbv zeta. now rewrite (summarizeSelectedText_unconfigured _ _ _ H).
Qed.

Lemma onMessage_without_api_key_witness :
  absent (sync_apiKey (Examples.unconfigured (str "Selected words"))) = true
  /\ networkCalls (snd (onMessage (requestType SelectionScope)
                          (Examples.unconfigured (str "Selected words")))) = []
  /\ onMessage (requestType PageScope) (Examples.unconfigured (str "Selected words")) =
       (Some (mkResult [] (Some []) (Some []) false (JStr NOT_CONFIGURED)),
        [EvTabsQuery; EvStorageGet (str "apiKey"); EvStorageGet (str "apiProvider")])
  /\ onMessage (requestType SelectionScope) (Examples.unconfigured (str "Selected words")) =
       (Some (mkResult [] (Some (str "Example")) (Some (str "https://example.org/a"))
                false (JStr NOT_CONFIGURED)),
        [EvTabsQuery; EvSelectionScript 7;
         EvStorageGet (str "apiKey"); EvStorageGet (str "apiProvider")])
  /\ onMessage (requestType SelectionScope) (Examples.unconfigured (str "  ")) =
       (Some (failure (JStr NO_TEXT_SELECTED)), [EvTabsQuery; EvSelectionScript 7]).
Proof.
  pose proof (onMessage_without_api_key (Examples.unconfigured (str "Selected words")) eq_refl)
    as (Hnet & Hpage & Hsel).
  pose proof (onMessage_without_api_key (Examples.unconfigured (str "  ")) eq_refl)
    as (_ & _ & Hblank).
  split; [reflexivity|]. split; [apply Hnet|].
  split; [exact (proj1 (Hpage Examples.someTab [] eq_refl))|].
  split.
  - exact (proj1 (Hsel Examples.someTab [] (Some (str "Selected words")) eq_refl eq_refl)
             eq_refl).
  - exact (proj2 (Hblank Examples.someTab [] (Some (str "  ")) eq_refl eq_refl) eq_refl).
Defined.

End Summarizer.

(* ===================================================================== *)
(** ** The saved-summaries list (storage.js, popup.js)                     *)
(* ===================================================================== *)

Section SavedSummaries.
Import Storage.

Lemma unshiftAndCap_firstn (entry : SavedSummary) (summaries : list SavedSummary) :
  unshiftAndCap entry summaries = firstn 100 (entry :: summaries).
Proof.
  unfold unshiftAndCap. cbv zeta.
  destruct (Z.ltb_spec 100 (Z.of_nat (List.length (entry :: summaries)))) as [H|H];
    [reflexivity|].
  symmetry. apply firstn_all2. lia.
Qed.

Lemma unshiftAndCap_length (entry : SavedSummary) (summaries : list SavedSummary) :
  (List.length (unshiftAndCap entry summaries) <= 100)%nat.
Proof. rewrite unshiftAndCap_firstn. apply firstn_le_length. Qed.

Lemma withoutId_length (i : jsstring) (summaries : list SavedSummary) :
  (List.length (withoutId i summaries) <= List.length summaries)%nat.
Proof. apply filter_length_le. Qed.

(** A save that goes through stores the capped list. *)
Lemma step_save (st : LocalStorage) (op : Operation) (e : SavedSummary) :
  savedBy op = Some e ->
  step st op = Some (unshiftAndCap e (readSummaries st)).
Proof.
  destruct op as [random now s [[g|] [w|]] | i faults | [current|] random now | detail];
    cbn [savedBy]; try discriminate; intros [= <-]; reflexivity.
Qed.

(** No operation takes the list beyond 100 entries. *)
Lemma step_bounded (st : LocalStorage) (op : Operation) :
  (List.length (readSummaries st) <= 100)%nat ->
  (List.length (readSummaries (step st op)) <= 100)%nat.
Proof.
  intros H.
  destruct op as [random now s [g w] | i [g w] | [current|] random now | [detail|]];
    cbn [step saveSummary deleteSummary saveCurrentSummary deleteCurrentSummary
         getError setError]; try assumption.
  - destruct g, w; cbn [snd readSummaries]; try assumption.
    apply unshiftAndCap_length.
  - destruct g, w; cbn [snd readSummaries]; try assumption.
    etransitivity; [apply withoutId_length|assumption].
  - cbn [readSummaries]. apply unshiftAndCap_length.
  - cbn [readSummaries]. etransitivity; [apply withoutId_length|assumption].
Qed.

Lemma run_bounded (ops : list Operation) (st : LocalStorage) :
  (List.length (readSummaries st) <= 100)%nat ->
  (List.length (readSummaries (run ops st)) <= 100)%nat.
Proof.
  revert st. induction ops as [|op ops IH]; intros st H; [exact H|].
  cbn [run fold_left]. apply IH, step_bounded, H.
Qed.

(** Cutting twice at the same length is cutting once. *)
Lemma firstn_app_firstn {A} (n : nat) (a b : list A) :
  firstn n (a ++ firstn n b) = firstn n (a ++ b).
Proof.
  rewrite !firstn_app, firstn_firstn. do 2 f_equal. lia.
Qed.

(** A run of saves leaves the newest entries first, cut at 100. *)
Lemma run_saves (ops : list Operation) (es : list SavedSummary) (st : LocalStorage) :
  (List.length (readSummaries st) <= 100)%nat ->
  savedEntries ops = Some es ->
  readSummaries (run ops st) = firstn 100 (rev es ++ readSummaries st).
Proof.
  revert es st. induction ops as [|op ops IH]; intros es st Hst H.
  - injection H as <-. cbn [run fold_left rev app].
    symmetry. now apply firstn_all2.
  - cbn [savedEntries] in H.
    destruct (savedBy op) as [e|] eqn:He; [|discriminate].
    destruct (savedEntries ops) as [es'|] eqn:Hes; [|discriminate].
    injection H as <-.
    cbn [run fold_left]. fold (run ops (step st op)).
    rewrite (IH es' (step st op) (step_bounded st op Hst) eq_refl).
    rewrite (step_save st op e He). cbn [readSummaries].
    rewrite unshiftAndCap_firstn, firstn_app_firstn.
    cbn [rev]. now rewrite <- app_assoc.
Qed.

Lemma withoutId_absent (i : jsstring) (summaries : list SavedSummary) :
  ~ In i (map id summaries) -> withoutId i summaries = summaries.
Proof.
  unfold withoutId. induction summaries as [|x rest IH]; intros H; [reflexivity|].
  cbn [filter]. cbn [map In] in H.
  replace (JsString.eqb (id x) i) with false
    by (symmetry; apply eqb_neq; tauto).
  cbn [negb]. f_equal. apply IH. tauto.
Qed.

Lemma withoutId_present (before after : list SavedSummary) (x : SavedSummary) :
  NoDup (map id (before ++ x :: after)) ->
  withoutId (id x) (before ++ x :: after) = before ++ after.
Proof.
  intros Hnd. rewrite map_app in Hnd. cbn [map] in Hnd.
  apply NoDup_remove_2 in Hnd.
  assert (Hb : ~ In (id x) (map id before)) by (intros H; apply Hnd, in_or_app; tauto).
  assert (Ha : ~ In (id x) (map id after)) by (intros H; apply Hnd, in_or_app; tauto).
  unfold withoutId. rewrite filter_app. cbn [filter].
  rewrite eqb_refl. cbn [negb].
  fold (withoutId (id x) before). fold (withoutId (id x) after).
  now rewrite !withoutId_absent.
Qed.

Example generateUUID_sample :
  generateUUID (fun _ => 10) = str "aaaaaaaa-aaaa-4aaa-aaaa-aaaaaaaaaaaa"
  /\ generateUUID (fun i => Z.of_nat (i mod 16))
     = str "01234567-89ab-4cde-b012-3456789abcde".
Proof. split; reflexivity. Qed.

(** C4: starting from a list of at most 100 entries, a save puts the new
    entry first and keeps the first 100; after more than 100 saves the
    list is the 100 newest entries, newest first, and has exactly 100
    entries; after any run of operations the list has at most 100
    entries.  ([es] lists the saved entries oldest first.) *)
Theorem saved_summaries_capped (st : LocalStorage) :
  (List.length (readSummaries st) <= 100)%nat ->
  (forall op e,
     savedBy op = Some e ->
     readSummaries (step st op) = firstn 100 (e :: readSummaries st))
  /\ (forall ops es,
        savedEntries ops = Some es ->
        (100 < List.length es)%nat ->
        readSummaries (run ops st) = firstn 100 (rev es)
        /\ readSummaries (run ops st) = rev (skipn (List.length es - 100) es)
        /\ List.length (readSummaries (run ops st)) = 100%nat)
  /\ (forall ops, (List.length (readSummaries (run ops st)) <= 100)%nat).
Proof.
  intros Hst. split; [|split].
  - intros op e He. rewrite (step_save st op e He). cbn [readSummaries].
    apply unshiftAndCap_firstn.
  - intros ops es Hes Hlen.
    assert (E : readSummaries (run ops st) = firstn 100 (rev es)).
    { rewrite (run_saves ops es st Hst Hes), firstn_app, length_rev.
      replace (100 - List.length es)%nat with 0%nat by lia.
      cbn [firstn]. apply app_nil_r. }
    split; [exact E|]. split.
    + rewrite E. apply firstn_rev.
    + rewrite E, length_firstn, length_rev. lia.
  - intros ops. now apply run_bounded.
Qed.

Lemma saved_summaries_capped_witness :
  (List.length (readSummaries None) <= 100)%nat
  /\ savedEntries Examples.manySaves = Some Examples.manyEntries
  /\ (100 < List.length Examples.manyEntries)%nat
  /\ readSummaries (run Examples.manySaves None) = firstn 100 (rev Examples.manyEntries)
  /\ List.length (readSummaries (run Examples.manySaves None)) = 100%nat.
Proof.
  assert (H0 : (List.length (readSummaries None) <= 100)%nat) by (cbn; lia).
  assert (Hes : savedEntries Examples.manySaves = Some Examples.manyEntries)
    by (vm_compute; reflexivity).
  assert (Hlen : (100 < List.length Examples.manyEntries)%nat)
    by (unfold Examples.manyEntries; rewrite length_map, length_seq; lia).
  split; [exact H0|]. split; [exact Hes|]. split; [exact Hlen|].
  destruct (proj1 (proj2 (saved_summaries_capped None H0)) _ _ Hes Hlen)
    as (Hlist & _ & Hcount).
  split; [exact Hlist|exact Hcount].
Defined.

(** C7: on a list with unique ids, deleting the id of an entry removes
    that entry and nothing else, the others keeping their order; deleting
    an id that is not in the list leaves the list as it was.  Both
    [deleteSummary] of storage.js and [deleteCurrentSummary] of popup.js
    do so. *)
Theorem deleteSummary_removes_one (st : LocalStorage) :
  NoDup (map id (readSummaries st)) ->
  (forall before x after,
     readSummaries st = before ++ x :: after ->
     deleteSummary (id x) noFaults st = (Fulfilled tt, Some (before ++ after))
     /\ deleteCurrentSummary (Some x) st = Some (before ++ after))
  /\ (forall i,
        ~ In i (map id (readSummaries st)) ->
        readSummaries (snd (deleteSummary i noFaults st)) = readSummaries st)
  /\ (forall detail,
        ~ In (id detail) (map id (readSummaries st)) ->
        readSummaries (deleteCurrentSummary (Some detail) st) = readSummaries st).
Proof.
  intros Hnd. split; [|split].
  - intros before x after E. rewrite E in Hnd.
    unfold deleteSummary, deleteCurrentSummary. cbn [noFaults getError setError].
    rewrite E, (withoutId_present before after x Hnd). split; reflexivity.
  - intros i Hout. unfold deleteSummary. cbn [noFaults getError setError snd].
    cbn [readSummaries]. now rewrite (withoutId_absent _ _ Hout).
  - intros detail Hout. unfold deleteCurrentSummary.
    cbn [readSummaries]. now rewrite (withoutId_absent _ _ Hout).
Qed.

Lemma deleteSummary_removes_one_witness :
  NoDup (map id (readSummaries Examples.threeSaved))
  /\ deleteSummary (str "b") noFaults Examples.threeSaved
     = (Fulfilled tt, Some [Examples.saved "a"; Examples.saved "c"])
  /\ readSummaries (snd (deleteSummary (str "z") noFaults Examples.threeSaved))
     = [Examples.saved "a"; Examples.saved "b"; Examples.saved "c"]
  /\ readSummaries (deleteCurrentSummary (Some (Examples.saved "z")) Examples.threeSaved)
     = [Examples.saved "a"; Examples.saved "b"; Examples.saved "c"].
Proof.
  assert (Hnd : NoDup (map id (readSummaries Examples.threeSaved))).
  { cbn. repeat constructor; cbn; intuition discriminate. }
  assert (Hz : ~ In (str "z") (map id (readSummaries Examples.threeSaved))).
  { cbn. intuition discriminate. }
  split; [exact Hnd|]. split; [|split].
  - exact (proj1 (proj1 (deleteSummary_removes_one _ Hnd)
                    [Examples.saved "a"] (Examples.saved "b") [Examples.saved "c"]
                    eq_refl)).
  - exact (proj1 (proj2 (deleteSummary_removes_one _ Hnd)) (str "z") Hz).
  - exact (proj2 (proj2 (deleteSummary_removes_one _ Hnd)) (Examples.saved "z") Hz).
Defined.

End SavedSummaries.

(* ===================================================================== *)
(** ** More on the clean-up of extracted text (content.js)                 *)
(* ===================================================================== *)

Section CleanUp.
Import Content Shapes.

Lemma trimStart_suffix (s : jsstring) :
  exists pre, s = pre ++ trimStart s.
Proof.
  induction s as [|c r [pre IH]]; [now exists []|].
  cbn [trimStart]. destruct (isWhiteSpace c).
  - exists (c :: pre). cbn. now rewrite <- IH.
  - now exists [].
Qed.

Lemma trimStart_head (s : jsstring) (c : Z) (r : jsstring) :
  trimStart s = c :: r -> isWhiteSpace c = false.
Proof.
  induction s as [|x s IH]; cbn [trimStart]; [discriminate|].
  destruct (isWhiteSpace x) eqn:Hx; [exact IH|].
  intros [= <- _]. exact Hx.
Qed.

Lemma trimEnd_prefix (s : jsstring) :
  exists post, s = trimEnd s ++ post.
Proof.
  unfold trimEnd. destruct (trimStart_suffix (rev s)) as [pre H].
  exists (rev pre). rewrite <- rev_app_distr, <- H. symmetry. apply rev_involutive.
Qed.

(** Trimming cuts a piece out of the middle. *)
Lemma trim_infix (s : jsstring) :
  exists pre post, s = pre ++ trim s ++ post.
Proof.
  unfold trim. destruct (trimStart_suffix s) as [pre Hpre].
  destruct (trimEnd_prefix (trimStart s)) as [post Hpost].
  exists pre, post. now rewrite <- Hpost.
Qed.

Lemma trim_trimmed (s : jsstring) : trimmed (trim s).
Proof.
  unfold trim. split.
  - intros c r E. destruct (trimEnd_prefix (trimStart s)) as [post Hpost].
    rewrite E in Hpost. cbn in Hpost. eapply trimStart_head. exact Hpost.
  - intros r c E. unfold trimEnd in E.
    apply (f_equal (@rev Z)) in E. rewrite rev_involutive, rev_app_distr in E.
    cbn in E. eapply trimStart_head. exact E.
Qed.

Lemma trimStart_fixed (t : jsstring) :
  (forall c r, t = c :: r -> isWhiteSpace c = false) -> trimStart t = t.
Proof.
  destruct t as [|c r]; [reflexivity|]. intros H. cbn [trimStart].
  now rewrite (H c r eq_refl).
Qed.

Lemma trim_fixed (t : jsstring) : trimmed t -> trim t = t.
Proof.
  intros [Hhead Hlast]. unfold trim, trimEnd.
  rewrite (trimStart_fixed t Hhead).
  rewrite trimStart_fixed; [apply rev_involutive|].
  intros c r E. apply (Hlast (rev r) c).
  rewrite <- (rev_involutive t), E. reflexivity.
Qed.

Lemma replaceWsRuns_space_only (s : jsstring) (inRun : bool) (c : Z) :
  In c (replaceWsRuns inRun s) -> isWhiteSpace c = true -> c = 32.
Proof.
  revert inRun. induction s as [|x s IH]; intros inRun; cbn [replaceWsRuns];
    [intros []|].
  destruct (isWhiteSpace x) eqn:Hx.
  - destruct inRun; [apply IH|]. intros [E|H]; [now intros _|now apply IH with true].
  - intros [E|H] Hc; [congruence|now apply IH with false].
Qed.

Lemma replaceWsRuns_inRun_head (s : jsstring) (c : Z) (r : jsstring) :
  replaceWsRuns true s = c :: r -> isWhiteSpace c = false.
Proof.
  induction s as [|x s IH]; cbn [replaceWsRuns]; [discriminate|].
  destruct (isWhiteSpace x) eqn:Hx; [exact IH|].
  intros [= <- _]. exact Hx.
Qed.

Lemma replaceWsRuns_no_double (s : jsstring) (inRun : bool) (a b : jsstring) :
  replaceWsRuns inRun s <> a ++ 32 :: 32 :: b.
Proof.
  revert inRun a. induction s as [|x s IH]; intros inRun a; cbn [replaceWsRuns].
  - destruct a; discriminate.
  - destruct (isWhiteSpace x) eqn:Hx.
    + destruct inRun; [apply IH|].
      destruct a as [|y a]; cbn.
      * intros [= E]. apply replaceWsRuns_inRun_head in E. discriminate.
      * intros [= _ E]. now apply IH in E.
    + destruct a as [|y a]; cbn.
      * intros [= -> _]. discriminate.
      * intros [= _ E]. now apply IH in E.
Qed.

Lemma singleSpaced_infix (s pre t post : jsstring) :
  s = pre ++ t ++ post -> singleSpaced s -> singleSpaced t.
Proof.
  intros -> [Hsp Hdb]. split.
  - intros c Hc. apply Hsp. apply in_or_app. right. apply in_or_app. now left.
  - intros a b ->. apply (Hdb (pre ++ a) (b ++ post)).
    now rewrite <- !app_assoc.
Qed.

Lemma replaceWsRuns_fixed (t : jsstring) (inRun : bool) :
  singleSpaced t ->
  (inRun = true -> forall c r, t = c :: r -> isWhiteSpace c = false) ->
  replaceWsRuns inRun t = t.
Proof.
  revert inRun. induction t as [|c r IH]; intros inRun Hss Hhead; [reflexivity|].
  assert (Hr : singleSpaced r)
    by (apply (singleSpaced_infix (c :: r) [c] r []); [now rewrite app_nil_r|exact Hss]).
  destruct Hss as [Hsp Hdb]. cbn [replaceWsRuns].
  destruct (isWhiteSpace c) eqn:Hc.
  - destruct inRun; [now rewrite (Hhead eq_refl c r eq_refl) in Hc|].
    assert (c = 32) by (apply Hsp; [now left|exact Hc]). subst c.
    f_equal. apply IH; [exact Hr|].
    intros _ d r' ->. destruct (isWhiteSpace d) eqn:Hd; [|reflexivity].
    assert (d = 32) by (apply Hsp; [right; now left|exact Hd]). subst d.
    now destruct (Hdb [] r').
  - f_equal. apply IH; [exact Hr|discriminate].
Qed.

(** X1: whatever the page text, the cleaned text has a single space
    U+0020 wherever white space separated two words, and no white space at
    all at its ends: no other white-space character (tab, line feed,
    no-break space, ...) and no two spaces in a row survive. *)
Theorem cleanText_normal_form (raw : jsstring) :
  singleSpaced (cleanText raw) /\ trimmed (cleanText raw).
Proof.
  rewrite cleanText_eq. split; [|apply trim_trimmed].
  destruct (trim_infix (replaceWsRuns false raw)) as (pre & post & E).
  apply (singleSpaced_infix _ _ _ _ E). split.
  - intros c. apply replaceWsRuns_space_only.
  - intros a b. apply replaceWsRuns_no_double.
Qed.

Lemma cleanText_fixed (t : jsstring) :
  singleSpaced t -> trimmed t -> cleanText t = t.
Proof.
  intros Hss Htr. rewrite cleanText_eq, replaceWsRuns_fixed; [|exact Hss|discriminate].
  now apply trim_fixed.
Qed.

(** X2: cleaning is idempotent: a text that went through the clean-up
    comes out of a second clean-up unchanged. *)
Theorem cleanText_idempotent (raw : jsstring) :
  cleanText (cleanText raw) = cleanText raw.
Proof.
  apply cleanText_fixed.
  - destruct (trim_infix (replaceWsRuns false raw)) as (pre & post & E).
    rewrite cleanText_eq. apply (singleSpaced_infix _ _ _ _ E). split.
    + intros c. apply replaceWsRuns_space_only.
    + intros a b. apply replaceWsRuns_no_double.
  - rewrite cleanText_eq. apply trim_trimmed.
Qed.

Lemma ink_trimStart (s : jsstring) : ink (trimStart s) = ink s.
Proof.
  unfold ink. induction s as [|c r IH]; [reflexivity|].
  cbn [trimStart filter]. destruct (isWhiteSpace c) eqn:Hc; [exact IH|].
  cbn [filter]. now rewrite Hc.
Qed.

Lemma ink_trim (s : jsstring) : ink (trim s) = ink s.
Proof.
  unfold trim, trimEnd. rewrite <- (ink_trimStart s).
  unfold ink at 1. rewrite filter_rev. fold (ink (trimStart (rev (trimStart s)))).
  rewrite ink_trimStart. unfold ink. now rewrite filter_rev, rev_involutive.
Qed.

Lemma ink_replaceWsRuns (s : jsstring) (inRun : bool) :
  ink (replaceWsRuns inRun s) = ink s.
Proof.
  unfold ink. revert inRun. induction s as [|c r IH]; intros inRun; [reflexivity|].
  cbn [replaceWsRuns filter]. destruct (isWhiteSpace c) eqn:Hc; cbn [negb].
  - destruct inRun; [apply IH|]. cbn [filter].
    change (isWhiteSpace 32) with true. cbn [negb]. apply IH.
  - cbn [filter]. rewrite Hc. cbn [negb]. f_equal. apply IH.
Qed.

(** X3: the clean-up touches white space only: the code units that are
    not white space come out all there and in their order. *)
Theorem cleanText_keeps_ink (raw : jsstring) :
  ink (cleanText raw) = ink raw.
Proof. now rewrite cleanText_eq, ink_trim, ink_replaceWsRuns. Qed.

End CleanUp.

(* ===================================================================== *)
(** ** More on the extractor (content.js)                                  *)
(* ===================================================================== *)

Section ExtractorShape.
Import Content Shapes.

Lemma truthyField_some (el : option Element) (field : Element -> option jsstring)
    (s : jsstring) :
  truthyField el field = Some s <->
  exists e, el = Some e /\ field e = Some s /\ s <> [].
Proof.
  unfold truthyField, present. split.
  - destruct el as [e|]; [|discriminate].
    destruct (field e) as [x|] eqn:Hf; [|discriminate].
    destruct (JsString.truthy x) eqn:Hx; [|discriminate].
    intros [= <-]. exists e. repeat split; [exact Hf|now apply truthy_nonempty].
  - intros (e & -> & Hf & Hs). rewrite Hf.
    apply truthy_nonempty in Hs. now rewrite Hs.
Qed.

(** X4: the extracted title never begins or ends with white space; it is
    the trimmed [og:title] content when that is a non-empty string (a
    blank one included, which gives the empty title), else the trimmed
    text of the first heading of the article when that is non-empty, else
    the trimmed document title. *)
Theorem extractTitle_sources (doc : Document) :
  trimmed (extractTitle doc)
  /\ (forall og c,
        querySelector doc OG_TITLE_SELECTOR = Some og ->
        content og = Some c -> c <> [] ->
        extractTitle doc = trim c)
  /\ (truthyField (querySelector doc OG_TITLE_SELECTOR) content = None ->
      forall h1 t,
        querySelector doc ARTICLE_H1_SELECTOR = Some h1 ->
        textContent h1 = Some t -> t <> [] ->
        extractTitle doc = trim t)
  /\ (truthyField (querySelector doc OG_TITLE_SELECTOR) content = None ->
      truthyField (querySelector doc ARTICLE_H1_SELECTOR) textContent = None ->
      extractTitle doc = trim (doc_title doc)).
Proof.
  split; [|split; [|split]].
  - unfold extractTitle.
    destruct (truthyField _ content); [apply trim_trimmed|].
    destruct (truthyField _ textContent); apply trim_trimmed.
  - intros og c Hq Hc Hne. unfold extractTitle.
    replace (truthyField (querySelector doc OG_TITLE_SELECTOR) content) with (Some c);
      [reflexivity|].
    symmetry. apply truthyField_some. now exists og.
  - intros Hog h1 t Hq Ht Hne. unfold extractTitle. rewrite Hog.
    replace (truthyField (querySelector doc ARTICLE_H1_SELECTOR) textContent)
      with (Some t); [reflexivity|].
    symmetry. apply truthyField_some. now exists h1.
  - intros Hog Hh1. unfold extractTitle. now rewrite Hog, Hh1.
Qed.

Lemma extractTitle_sources_witness :
  extractTitle Samples.blankOgPage = []
  /\ extractTitle (Examples.plainPage Examples.shortText) = str "Example".
Proof.
  split.
  - refine (proj1 (proj2 (extractTitle_sources Samples.blankOgPage))
              (mkElement (Some (str "  ")) (Some []) Samples.noClone) (str "  ") _ _ _);
      [reflexivity|reflexivity|discriminate].
  - exact (proj2 (proj2 (proj2 (extractTitle_sources (Examples.plainPage Examples.shortText))))
             eq_refl eq_refl).
Defined.

Lemma firstMatch_spec (doc : Document) (selectors : list jsstring) :
  match firstMatch doc selectors with
  | Some el =>
      exists before sel after,
        selectors = before ++ sel :: after
        /\ querySelector doc sel = Some el
        /\ Forall (fun s => querySelector doc s = None) before
  | None => Forall (fun s => querySelector doc s = None) selectors
  end.
Proof.
  induction selectors as [|sel rest IH]; cbn [firstMatch]; [constructor|].
  destruct (querySelector doc sel) as [el|] eqn:Hq.
  - exists [], sel, rest. repeat split; [exact Hq|constructor].
  - destruct (firstMatch doc rest) as [el|].
    + destruct IH as (before & s & after & -> & Hs & Hb).
      exists (sel :: before), s, after. repeat split; [exact Hs|now constructor].
    + now constructor.
Qed.

(** X5: the article container is the element of the first selector of
    ARTICLE_SELECTORS that matches anything, every selector before it
    matching nothing; there is no container exactly when no selector of
    the list matches. *)
Theorem findArticleContainer_first_match (doc : Document) :
  match findArticleContainer doc with
  | Some el =>
      exists before sel after,
        ARTICLE_SELECTORS = before ++ sel :: after
        /\ querySelector doc sel = Some el
        /\ Forall (fun s => querySelector doc s = None) before
  | None => Forall (fun s => querySelector doc s = None) ARTICLE_SELECTORS
  end.
Proof. apply firstMatch_spec. Qed.


Lemma substring_bounded (s : jsstring) (n : Z) :
  0 <= n -> jslength (substring s 0 n) <= n.
Proof.
  intros Hn. rewrite substring_from_0 by assumption.
  unfold jslength. pose proof (firstn_le_length (Z.to_nat n) s). 
  rewrite length_firstn. lia.
Qed.

Lemma orElse_self (t : jsstring) : orElse (Some t) [] = t.
Proof. destruct t; reflexivity. Qed.


End ExtractorShape.

(* ===================================================================== *)
(** ** More on the summarizer (background.js)                              *)
(* ===================================================================== *)

Section SummarizerRuns.
Import Content Background Properties Shapes Replies.

Lemma orNull_some (x : option jsstring) (key : jsstring) :
  orNull x = Some key -> x = Some key /\ key <> [] /\ JsString.truthy key = true.
Proof.
  unfold orNull. destruct x as [s|]; [|discriminate].
  destruct (JsString.truthy s) eqn:E; [|discriminate].
  intros [= <-]. repeat split; [now apply truthy_nonempty|exact E].
Qed.

(** The two calls of [extractContentFromTab]: the injection, and the
    message to the content script if the injection went through. *)
Lemma extractContentFromTab_run (tabId : Z) (br : Browser) :
  extractContentFromTab tabId br =
    match injectContentScript br tabId with
    | Throw err => (extractionFailure err, [EvInjectContentScript tabId])
    | Ok _ =>
        match contentScriptPage br tabId with
        | Throw err =>
            (extractionFailure err,
             [EvInjectContentScript tabId; EvSendExtractContent tabId])
        | Ok doc =>
            (extractArticleContent doc,
             [EvInjectContentScript tabId; EvSendExtractContent tabId])
        end
    end.
Proof.
  unfold extractContentFromTab, bind, call.
  destruct (injectContentScript br tabId); [|reflexivity].
  destruct (contentScriptPage br tabId); reflexivity.
Qed.

Lemma extractContentFromTab_no_fetch (tabId : Z) (br : Browser) :
  requestsOf (snd (extractContentFromTab tabId br)) = [].
Proof.
  rewrite extractContentFromTab_run.
  destruct (injectContentScript br tabId); [|reflexivity].
  destruct (contentScriptPage br tabId); reflexivity.
Qed.

Lemma extractContentFromTab_bounded (tabId : Z) (br : Browser) :
  jslength (ec_text (fst (extractContentFromTab tabId br))) <= 10000.
Proof.
  rewrite extractContentFromTab_run.
  destruct (injectContentScript br tabId); [|cbn; unfold jslength; cbn; lia].
  destruct (contentScriptPage br tabId); [|cbn; unfold jslength; cbn; lia].
  apply extractArticleContent_bounded.
Qed.

(** A page request once a key is stored. *)
Lemma handleSummarizeRequest_configured (tabId : Z) (br : Browser) (key : jsstring) :
  orNull (sync_apiKey br) = Some key ->
  handleSummarizeRequest tabId br =
    let content := fst (extractContentFromTab tabId br) in
    let reads :=
      EvStorageGet (str "apiKey") :: EvStorageGet (str "apiProvider")
        :: snd (extractContentFromTab tabId br) in
    if ec_success content
    then
      let request :=
        buildRequest content key (Some (orElse (sync_apiProvider br) (str "openai"))) in
      (mkResult (summary (answerTo br request))
         (Some (ec_title content)) (Some (ec_url content))
         (success (answerTo br request)) (error (answerTo br request)),
       reads ++ [EvFetch request])
    else
      (mkResult [] (Some (orElse (Some (ec_title content)) []))
         (Some (orElse (Some (ec_url content)) [])) false
         (JStr (orElse (ec_error content) (str "Failed to extract content from page."))),
       reads).
Proof.
  intros Hkey. destruct (orNull_some _ _ Hkey) as (_ & _ & Ht).
  unfold handleSummarizeRequest, bind, getApiKey, getApiProvider, call.
  rewrite Hkey, Ht. cbn [negb].
  destruct (extractContentFromTab tabId br) as [content t]. cbn [fst snd].
  destruct (ec_success content); cbn [negb]; [|cbn; rewrite ?app_nil_r; reflexivity].
  unfold generateSummary, bind, call, ret, answerTo. cbn. rewrite ?app_nil_r. reflexivity.
Qed.

(** A selection request once a key is stored. *)
Lemma summarizeSelectedText_configured (selectedText : jsstring) (tabId : Z)
    (br : Browser) (key : jsstring) :
  orNull (sync_apiKey br) = Some key ->
  summarizeSelectedText selectedText tabId br =
    let request :=
      buildRequest
        (mkExtracted (selectionTitle br tabId) (substring selectedText 0 10000) [] true None)
        key (Some (orElse (sync_apiProvider br) (str "openai"))) in
    (answerTo br request,
     [EvStorageGet (str "apiKey"); EvStorageGet (str "apiProvider");
      EvTabsGet tabId; EvFetch request]).
Proof.
  intros Hkey. destruct (orNull_some _ _ Hkey) as (_ & _ & Ht).
  unfold summarizeSelectedText, bind, getApiKey, getApiProvider, call.
  rewrite Hkey, Ht. cbn [negb].
  unfold generateSummary, bind, call, ret, answerTo, selectionTitle.
  reflexivity.
Qed.

Lemma requestsOf_app (t1 t2 : list Event) :
  requestsOf (t1 ++ t2) = requestsOf t1 ++ requestsOf t2.
Proof. unfold requestsOf. apply flat_map_app. Qed.

Lemma requestsOf_skip (ev : Event) (t : list Event) :
  isFetch ev = false -> requestsOf (ev :: t) = requestsOf t.
Proof. destruct ev; [reflexivity..|discriminate]. Qed.

Lemma networkCalls_requestsOf (t : list Event) :
  List.length (networkCalls t) = List.length (requestsOf t).
Proof.
  unfold networkCalls, requestsOf.
  induction t as [|ev t IH]; [reflexivity|].
  destruct ev; cbn; try exact IH. now rewrite IH.
Qed.

(** The requests of a run of the listener: none, or one, built for the
    stored key and provider from a text of at most 10,000 code units. *)
Lemma onMessage_requests (type : jsstring) (br : Browser) :
  requestsOf (snd (onMessage type br)) = []
  \/ exists key content,
       orNull (sync_apiKey br) = Some key
       /\ jslength (ec_text content) <= 10000
       /\ requestsOf (snd (onMessage type br)) =
            [buildRequest content key
               (Some (orElse (sync_apiProvider br) (str "openai")))].
Proof.
  destruct (onMessage_cases type br) as [-> | [-> | ->]]; [| |now left].
  - rewrite onMessage_page.
    destruct (activeTabs br) as [[|tab rest]|]; try (now left).
    destruct (orNull (sync_apiKey br)) as [key|] eqn:Hkey.
    + rewrite (handleSummarizeRequest_configured _ _ _ Hkey). cbv zeta.
      destruct (ec_success (fst (extractContentFromTab (tab_id tab) br))).
      * right. exists key, (fst (extractContentFromTab (tab_id tab) br)).
        split; [reflexivity|]. split; [apply extractContentFromTab_bounded|].
        cbn [snd]. rewrite app_nil_r, requestsOf_skip, requestsOf_app by reflexivity.
        rewrite !requestsOf_skip by reflexivity.
        rewrite extractContentFromTab_no_fetch. reflexivity.
      * left. cbn [snd]. rewrite app_nil_r, !requestsOf_skip by reflexivity.
        apply extractContentFromTab_no_fetch.
    + left. rewrite handleSummarizeRequest_unconfigured; [reflexivity|].
      unfold absent, present. unfold orNull in Hkey.
      destruct (sync_apiKey br) as [s|]; [|reflexivity].
      destruct (JsString.truthy s); [discriminate|reflexivity].
  - rewrite onMessage_selection.
    destruct (activeTabs br) as [[|tab rest]|]; try (now left).
    destruct (bindExc (selectionScript br (tab_id tab)) firstResult) as [sel|e];
      [|now left].
    destruct (nothingSelected sel); [now left|]. cbv zeta.
    destruct (orNull (sync_apiKey br)) as [key|] eqn:Hkey.
    + rewrite (summarizeSelectedText_configured _ _ _ _ Hkey). cbv zeta.
      right. exists key.
      exists (mkExtracted (selectionTitle br (tab_id tab))
                (substring (orElse sel []) 0 10000) [] true None).
      split; [reflexivity|]. split; [|reflexivity].
      cbn [ec_text]. apply substring_bounded. lia.
    + left. rewrite summarizeSelectedText_unconfigured; [reflexivity|].
      unfold absent, present. unfold orNull in Hkey.
      destruct (sync_apiKey br) as [s|]; [|reflexivity].
      destruct (JsString.truthy s); [discriminate|reflexivity].
Qed.

(** X7: no message makes the listener call the network more than once:
    there is no retry on any path. *)
Theorem onMessage_at_most_one_fetch (type : jsstring) (br : Browser) :
  (List.length (networkCalls (snd (onMessage type br))) <= 1)%nat.
Proof.
  rewrite networkCalls_requestsOf.
  destruct (onMessage_requests type br) as [-> | (key & content & _ & _ & ->)];
    cbn; lia.
Qed.

Lemma buildRequest_base_headers (content : ExtractedContent) (key : jsstring)
    (provider : option jsstring) :
  firstn 2 (headers (buildRequest content key provider)) = baseHeaders key.
Proof.
  unfold buildRequest. cbn [headers]. unfold requestHeaders.
  destruct (JsString.eqb (providerOrDefault provider) (str "openrouter")); reflexivity.
Qed.

(** X8: every request the listener sends is a POST that carries the
    stored API key, which is not empty, as [Authorization: Bearer <key>]
    right after the content type, asks for at most 300 tokens, and opens
    with the system prompt. *)
Theorem onMessage_requests_authenticated (type : jsstring) (br : Browser)
    (req : Request) :
  In req (requestsOf (snd (onMessage type br))) ->
  exists key,
    sync_apiKey br = Some key
    /\ key <> []
    /\ method req = str "POST"
    /\ firstn 2 (headers req) =
         [ (str "Content-Type", str "application/json");
           (str "Authorization", str "Bearer " ++ key) ]
    /\ max_tokens (request_body req) = 300
    /\ hd_error (messages (request_body req))
       = Some (mkMessage (str "system") SYSTEM_PROMPT).
Proof.
  intros Hin.
  destruct (onMessage_requests type br) as [E | (key & content & Hkey & _ & E)];
    rewrite E in Hin; [destruct Hin|].
  destruct Hin as [<- | []]. destruct (orNull_some _ _ Hkey) as (Hs & Hne & _).
  exists key. repeat split; try assumption.
  apply buildRequest_base_headers.
Qed.

Lemma onMessage_requests_authenticated_witness :
  In Samples.openrouterRequest
     (requestsOf (snd (onMessage (requestType PageScope) Examples.configured)))
  /\ exists key,
       sync_apiKey Examples.configured = Some key
       /\ key <> []
       /\ method Samples.openrouterRequest = str "POST"
       /\ firstn 2 (headers Samples.openrouterRequest) =
            [ (str "Content-Type", str "application/json");
              (str "Authorization", str "Bearer " ++ key) ]
       /\ max_tokens (request_body Samples.openrouterRequest) = 300
       /\ hd_error (messages (request_body Samples.openrouterRequest))
          = Some (mkMessage (str "system") SYSTEM_PROMPT).
Proof.
  assert (Hin : In Samples.openrouterRequest
                  (requestsOf (snd (onMessage (requestType PageScope) Examples.configured))))
    by (left; vm_compute; reflexivity).
  split; [exact Hin|].
  exact (onMessage_requests_authenticated _ _ _ Hin).
Defined.

(** X9: the user message of every request the listener sends is
    [Title: <t>\n\nContent:\n<body>] with an all-ASCII [<t>] and a
    [<body>] of at most 10,000 code units, for a page and for a selection
    alike. *)
Theorem onMessage_requests_bounded (type : jsstring) (br : Browser) (req : Request) :
  In req (requestsOf (snd (onMessage type br))) ->
  exists t body,
    Forall (fun c => 0 <= c <= 127) t
    /\ jslength body <= 10000
    /\ messages (request_body req) =
         [ mkMessage (str "system") SYSTEM_PROMPT;
           mkMessage (str "user")
             (str "Title: " ++ t ++ [10; 10] ++ str "Content:" ++ [10] ++ body) ].
Proof.
  intros Hin.
  destruct (onMessage_requests type br) as [E | (key & content & _ & Hlen & E)];
    rewrite E in Hin; [destruct Hin|].
  destruct Hin as [<- | []].
  exists (sanitizedTitle (ec_title content)), (ec_text content).
  split; [apply stripNonAscii_ascii|]. split; [exact Hlen|reflexivity].
Qed.

Lemma onMessage_requests_bounded_witness :
  In Samples.openaiRequest
     (requestsOf (snd (onMessage (requestType PageScope) Samples.openaiBrowser)))
  /\ exists t body,
       Forall (fun c => 0 <= c <= 127) t
       /\ jslength body <= 10000
       /\ messages (request_body Samples.openaiRequest) =
            [ mkMessage (str "system") SYSTEM_PROMPT;
              mkMessage (str "user")
                (str "Title: " ++ t ++ [10; 10] ++ str "Content:" ++ [10] ++ body) ].
Proof.
  assert (Hin : In Samples.openaiRequest
                  (requestsOf (snd (onMessage (requestType PageScope) Samples.openaiBrowser))))
    by (left; vm_compute; reflexivity).
  split; [exact Hin|].
  exact (onMessage_requests_bounded _ _ _ Hin).
Defined.

(** X10: which provider a run talks to.  With no provider stored, an
    empty one, or 'openai', every request goes to the OpenAI endpoint with
    the model gpt-3.5-turbo and the two base headers only; with
    'openrouter' stored it goes to the OpenRouter endpoint with the model
    openai/gpt-3.5-turbo and the two identification headers added. *)
Theorem onMessage_provider_routing (type : jsstring) (br : Browser) (req : Request) :
  In req (requestsOf (snd (onMessage type br))) ->
  (sync_apiProvider br = None \/ sync_apiProvider br = Some []
   \/ sync_apiProvider br = Some (str "openai") ->
     request_url req = Some (MString (str "https://api.openai.com/v1/chat/completions"))
     /\ model (request_body req) = Some (MString (str "gpt-3.5-turbo"))
     /\ List.length (headers req) = 2%nat)
  /\ (sync_apiProvider br = Some (str "openrouter") ->
     request_url req = Some (MString (str "https://openrouter.ai/api/v1/chat/completions"))
     /\ model (request_body req) = Some (MString (str "openai/gpt-3.5-turbo"))
     /\ skipn 2 (headers req) = identificationHeaders).
Proof.
  intros Hin.
  destruct (onMessage_requests type br) as [E | (key & content & _ & _ & E)];
    rewrite E in Hin; [destruct Hin|].
  destruct Hin as [<- | []]. split.
  - intros [-> | [-> | ->]]; repeat split.
  - intros ->. repeat split.
Qed.

Lemma onMessage_provider_routing_witness :
  (In Samples.openaiRequest
      (requestsOf (snd (onMessage (requestType PageScope) Samples.openaiBrowser)))
   /\ sync_apiProvider Samples.openaiBrowser = None
   /\ request_url Samples.openaiRequest
      = Some (MString (str "https://api.openai.com/v1/chat/completions"))
   /\ List.length (headers Samples.openaiRequest) = 2%nat)
  /\ (In Samples.openrouterRequest
         (requestsOf (snd (onMessage (requestType PageScope) Examples.configured)))
      /\ sync_apiProvider Examples.configured = Some (str "openrouter")
      /\ request_url Samples.openrouterRequest
         = Some (MString (str "https://openrouter.ai/api/v1/chat/completions"))
      /\ skipn 2 (headers Samples.openrouterRequest) = identificationHeaders).
Proof.
  assert (H1 : In Samples.openaiRequest
                 (requestsOf (snd (onMessage (requestType PageScope) Samples.openaiBrowser))))
    by (left; vm_compute; reflexivity).
  assert (H2 : In Samples.openrouterRequest
                 (requestsOf (snd (onMessage (requestType PageScope) Examples.configured))))
    by (left; vm_compute; reflexivity).
  split.
  - split; [exact H1|]. split; [reflexivity|].
    destruct (proj1 (onMessage_provider_routing _ _ _ H1) (or_introl eq_refl))
      as (Hu & _ & Hh).
    split; [exact Hu|exact Hh].
  - split; [exact H2|]. split; [reflexivity|].
    destruct (proj2 (onMessage_provider_routing _ _ _ H2) eq_refl) as (Hu & _ & Hh).
    split; [exact Hu|exact Hh].
Defined.

(** *** What the provider's answer becomes *)

(** X11: when [fetch] rejects, [generateSummary] has made that one call
    and no other, and answers with a failure and an empty summary: the
    timed-out message if the rejection is an [AbortError] (the 30 s timer),
    otherwise the network-error message quoting the rejection's text. *)
Theorem generateSummary_rejected (content : ExtractedContent) (key : jsstring)
    (provider : option jsstring) (br : Browser) (e : JsError) :
  fetch br (buildRequest content key provider) = Rejected e ->
  snd (generateSummary content key provider br)
    = [EvFetch (buildRequest content key provider)]
  /\ (err_name e = str "AbortError" ->
      fst (generateSummary content key provider br) = failure (JStr TIMED_OUT))
  /\ (err_name e <> str "AbortError" ->
      fst (generateSummary content key provider br) =
        failure (JStr (str "Network error: " ++ err_message e
                       ++ str ". Please reload the extension and try again."))).
Proof.
  intros H. rewrite generateSummary_run, H. cbn [fst snd interpretOutcome tryCatch].
  unfold onFetchError. split; [reflexivity|]. split.
  - intros ->. reflexivity.
  - intros Hn. apply eqb_neq in Hn. now rewrite Hn.
Qed.

Lemma generateSummary_rejected_witness :
  fst (generateSummary (mkExtracted [] [] [] true None) (str "sk-1") None
         (Examples.answering Samples.timeout))
    = failure (JStr (str "Request timed out. Please try again."))
  /\ fst (generateSummary (mkExtracted [] [] [] true None) (str "sk-1") None
            (Examples.answering Samples.offline))
    = failure (JStr (str "Network error: Failed to fetch. Please reload the extension and try again.")).
Proof.
  split.
  - exact (proj1 (proj2 (generateSummary_rejected (mkExtracted [] [] [] true None)
                           (str "sk-1") None (Examples.answering Samples.timeout)
                           _ eq_refl)) eq_refl).
  - refine (proj2 (proj2 (generateSummary_rejected (mkExtracted [] [] [] true None)
                            (str "sk-1") None (Examples.answering Samples.offline)
                            _ eq_refl)) _).
    discriminate.
Defined.

(** The [try] block on a 2xx response whose body parsed. *)
Lemma interpretOutcome_ok (r : Response) (data : JsValue) :
  ok r = true -> json r = Ok data ->
  interpretOutcome (Resolved r) =
    (choices <- getProp data P_choices ;;
     if negb (Js.truthy choices) then Ok (failure (JStr COULD_NOT_GENERATE))
     else
       first <- getProp choices P_0 ;;
       if negb (Js.truthy first) then Ok (failure (JStr COULD_NOT_GENERATE))
       else
         message <- getProp first P_message ;;
         if negb (Js.truthy message) then Ok (failure (JStr COULD_NOT_GENERATE))
         else
           content <- getProp message P_content ;;
           summary <- callTrim "data.choices[0].message.content" content ;;
           if negb (JsString.truthy summary)
           then Ok (failure (JStr COULD_NOT_GENERATE))
           else Ok (mkResult summary None None true JUndefined))%exc.
Proof. intros Hok Hj. unfold interpretOutcome. now rewrite Hok, Hj. Qed.

(** Case analysis on a parsed body, one level of the JSON at a time. *)
Ltac split_reply :=
  repeat (cbv beta iota delta
            [getProp bindExc Js.truthy JsString.truthy negb firstItem member
             callTrim tryCatch propText];
          match goal with
          | |- context [match ?x with _ => _ end] =>
              first [ is_var x
                    | match x with ownProperty _ _ => idtac end
                    | match x with (_ =? _) => idtac end
                    | match x with trim _ => idtac end ];
              destruct x
          end).

(** On a parsed 2xx body, the result is decided by the completion text. *)
Lemma answer_of_completion (r : Response) (data : JsValue) :
  ok r = true -> json r = Ok data ->
  match completionText data with
  | Some s =>
      tryCatch (interpretOutcome (Resolved r)) onFetchError =
        if JsString.truthy (trim s)
        then mkResult (trim s) None None true JUndefined
        else failure (JStr COULD_NOT_GENERATE)
  | None =>
      success (tryCatch (interpretOutcome (Resolved r)) onFetchError) = false
  end.
Proof.
  intros Hok Hj. rewrite (interpretOutcome_ok r data Hok Hj).
  clear Hok Hj r. unfold completionText.
  split_reply; reflexivity.
Qed.

(** X12: [generateSummary] succeeds exactly when [fetch] resolves with a
    2xx status and a JSON body in which [choices[0].message.content] is a
    string with something other than white space in it; the summary is
    then that string trimmed, and a string of white space alone gives the
    could-not-generate failure. *)
Theorem generateSummary_success_iff (content : ExtractedContent) (key : jsstring)
    (provider : option jsstring) (br : Browser) :
  (success (fst (generateSummary content key provider br)) = true <->
   exists response data s,
     fetch br (buildRequest content key provider) = Resolved response
     /\ ok response = true
     /\ json response = Ok data
     /\ completionText data = Some s
     /\ trim s <> [])
  /\ (forall response data s,
        fetch br (buildRequest content key provider) = Resolved response ->
        ok response = true ->
        json response = Ok data ->
        completionText data = Some s ->
        fst (generateSummary content key provider br) =
          if JsString.truthy (trim s)
          then mkResult (trim s) None None true JUndefined
          else failure (JStr COULD_NOT_GENERATE)).
Proof.
  assert (Hcomp : forall response data s,
             fetch br (buildRequest content key provider) = Resolved response ->
             ok response = true -> json response = Ok data ->
             completionText data = Some s ->
             fst (generateSummary content key provider br) =
               if JsString.truthy (trim s)
               then mkResult (trim s) None None true JUndefined
               else failure (JStr COULD_NOT_GENERATE)).
  { intros response data s Hf Hok Hj Hc. rewrite generateSummary_run, Hf. cbn [fst].
    pose proof (answer_of_completion response data Hok Hj) as H.
    now rewrite Hc in H. }
  split; [|exact Hcomp]. split.
  - intros Hs. rewrite generateSummary_run in Hs. cbn [fst] in Hs.
    destruct (fetch br (buildRequest content key provider)) as [e|response] eqn:Hf.
    + cbn in Hs. destruct (onFetchError_failed e) as (_ & H & _). congruence.
    + destruct (ok response) eqn:Hok.
      * destruct (json response) as [data|e] eqn:Hj.
        -- pose proof (answer_of_completion response data Hok Hj) as H.
           destruct (completionText data) as [s|] eqn:Hc; [|congruence].
           exists response, data, s.
           split; [reflexivity|]. split; [exact Hok|]. split; [exact Hj|].
           split; [exact Hc|].
           rewrite H in Hs. destruct (JsString.truthy (trim s)) eqn:Ht;
             [now apply truthy_nonempty|discriminate].
        -- unfold interpretOutcome in Hs. rewrite Hok, Hj in Hs. cbn in Hs.
           destruct (onFetchError_failed e) as (_ & H & _). congruence.
      * unfold interpretOutcome in Hs. rewrite Hok in Hs. cbn [negb] in Hs.
        destruct (handleApiError (status response) _) as [r|e] eqn:Hh; cbn in Hs.
        -- destruct (handleApiError_failed _ _ _ Hh) as (_ & H & _). congruence.
        -- destruct (onFetchError_failed e) as (_ & H & _). congruence.
  - intros (response & data & s & Hf & Hok & Hj & Hc & Hne).
    rewrite (Hcomp response data s Hf Hok Hj Hc).
    apply truthy_nonempty in Hne. now rewrite Hne.
Qed.

Lemma generateSummary_success_iff_witness :
  fst (generateSummary (mkExtracted [] [] [] true None) (str "sk-1") None
         (Examples.answering
            (Examples.http 200 (Examples.completion ([32] ++ str "Done." ++ [10])))))
    = mkResult (str "Done.") None None true JUndefined
  /\ fst (generateSummary (mkExtracted [] [] [] true None) (str "sk-1") None
            (Examples.answering (Examples.http 200 (Examples.completion [32; 10]))))
    = failure (JStr COULD_NOT_GENERATE).
Proof.
  split.
  - exact (proj2 (generateSummary_success_iff (mkExtracted [] [] [] true None)
                    (str "sk-1") None
                    (Examples.answering
                       (Examples.http 200
                          (Examples.completion ([32] ++ str "Done." ++ [10])))))
             (mkResponse 200 (Ok (Examples.completion ([32] ++ str "Done." ++ [10]))))
             (Examples.completion ([32] ++ str "Done." ++ [10]))
             ([32] ++ str "Done." ++ [10])
             eq_refl eq_refl eq_refl eq_refl).
  - exact (proj2 (generateSummary_success_iff (mkExtracted [] [] [] true None)
                    (str "sk-1") None
                    (Examples.answering
                       (Examples.http 200 (Examples.completion [32; 10]))))
             (mkResponse 200 (Ok (Examples.completion [32; 10])))
             (Examples.completion [32; 10]) [32; 10]
             eq_refl eq_refl eq_refl eq_refl).
Defined.

(** *** Failures before the provider is asked *)

(** X13: the listener gives up early in three cases, each time without
    reading the configuration: with no active tab (no list, or an empty
    one) either request is answered 'No active tab found.' after the tab
    query alone; when the selection cannot be read, a selection request is
    answered 'Failed to get selection: ' followed by the reason; and a
    message of any other type gets no answer and causes no call. *)
Theorem onMessage_early_failures (br : Browser) :
  (activeTabs br = None \/ activeTabs br = Some [] ->
   forall scope,
     onMessage (requestType scope) br
       = (Some (failure (JStr NO_ACTIVE_TAB)), [EvTabsQuery]))
  /\ (forall tab rest e,
        activeTabs br = Some (tab :: rest) ->
        bindExc (selectionScript br (tab_id tab)) firstResult = Throw e ->
        onMessage (requestType SelectionScope) br =
          (Some (failure (JStr (str "Failed to get selection: " ++ err_message e))),
           [EvTabsQuery; EvSelectionScript (tab_id tab)]))
  /\ (forall type,
        type <> str "GENERATE_SUMMARY" -> type <> str "SUMMARIZE_SELECTION" ->
        onMessage type br = (None, [])).
Proof.
  split; [|split].
  - intros H [|]; [rewrite onMessage_page|rewrite onMessage_selection];
      destruct H as [-> | ->]; reflexivity.
  - intros tab rest e Htabs Hsel. now rewrite onMessage_selection, Htabs, Hsel.
  - intros type H1 H2. apply eqb_neq in H1, H2. unfold onMessage. now rewrite H1, H2.
Qed.

Lemma onMessage_early_failures_witness :
  onMessage (requestType PageScope)
    (Examples.answering (Examples.http 200 (Examples.completion (str "Done."))))
    = (Some (failure (JStr NO_ACTIVE_TAB)), [EvTabsQuery])
  /\ onMessage (requestType SelectionScope)
       (Samples.browser None (Ok tt) (Ok (Examples.plainPage Examples.mediumText))
          (Ok []) Samples.offline)
     = (Some (failure (JStr (str "Failed to get selection: Cannot read properties of undefined (reading 'result')"))),
        [EvTabsQuery; EvSelectionScript 7])
  /\ onMessage (str "EXTRACT_CONTENT") Samples.openaiBrowser = (None, []).
Proof.
  split; [|split].
  - exact (proj1 (onMessage_early_failures
                    (Examples.answering
                       (Examples.http 200 (Examples.completion (str "Done.")))))
             (or_introl eq_refl) PageScope).
  - exact (proj1 (proj2 (onMessage_early_failures
                           (Samples.browser None (Ok tt)
                              (Ok (Examples.plainPage Examples.mediumText))
                              (Ok []) Samples.offline)))
             Examples.someTab []
             (TypeError (cannotRead "undefined" (str "result"))) eq_refl eq_refl).
  - refine (proj2 (proj2 (onMessage_early_failures Samples.openaiBrowser))
              (str "EXTRACT_CONTENT") _ _);
      discriminate.
Defined.

(** *** Page and selection requests, end to end *)

Lemma extractArticleContent_url (doc : Document) :
  ec_url (extractArticleContent doc) = location_href doc.
Proof.
  unfold extractArticleContent. destruct (rawText doc) as [raw|e]; [|reflexivity].
  unfold tryCatch, bindExc.
  destruct (negb (JsString.truthy (cleanText raw)) || (jslength (cleanText raw) <? 50));
    reflexivity.
Qed.

Lemma extractArticleContent_success_title (doc : Document) :
  ec_success (extractArticleContent doc) = true ->
  ec_title (extractArticleContent doc) = extractTitle doc.
Proof.
  unfold extractArticleContent. destruct (rawText doc) as [raw|e]; [|discriminate].
  unfold tryCatch, bindExc.
  destruct (negb (JsString.truthy (cleanText raw)) || (jslength (cleanText raw) <? 50));
    [discriminate|reflexivity].
Qed.

(** A failed extraction always names its reason. *)
Lemma extractArticleContent_failure_error (doc : Document) :
  ec_success (extractArticleContent doc) = false ->
  exists err,
    ec_error (extractArticleContent doc) = Some err /\ JsString.truthy err = true.
Proof.
  unfold extractArticleContent. destruct (rawText doc) as [raw|e].
  - unfold tryCatch, bindExc.
    destruct (negb (JsString.truthy (cleanText raw)) || (jslength (cleanText raw) <? 50));
      [|discriminate].
    intros _. eexists. split; reflexivity.
  - intros _. eexists. split; reflexivity.
Qed.

Lemma orElse_truthy (err d : jsstring) :
  JsString.truthy err = true -> orElse (Some err) d = err.
Proof. unfold orElse. now intros ->. Qed.

(** X14: a page request with a key stored, when the extraction fails.
    If the content script cannot be injected, or does not answer, the
    reply is 'Failed to extract content: ' followed by the reason, with an
    empty title and url; if the extractor itself reports a failure, the
    reply carries the extractor's title, url and error as they are (the
    fallback text 'Failed to extract content from page.' is never used).
    In all three cases the provider is not called. *)
Theorem page_request_extraction_failure (br : Browser) (tab : Tab)
    (rest : list Tab) (key : jsstring) :
  activeTabs br = Some (tab :: rest) ->
  orNull (sync_apiKey br) = Some key ->
  (forall e,
     injectContentScript br (tab_id tab) = Throw e ->
     onMessage (requestType PageScope) br =
       (Some (mkResult [] (Some []) (Some []) false
                (JStr (str "Failed to extract content: " ++ err_message e))),
        [EvTabsQuery; EvStorageGet (str "apiKey"); EvStorageGet (str "apiProvider");
         EvInjectContentScript (tab_id tab)]))
  /\ (forall e,
        injectContentScript br (tab_id tab) = Ok tt ->
        contentScriptPage br (tab_id tab) = Throw e ->
        onMessage (requestType PageScope) br =
          (Some (mkResult [] (Some []) (Some []) false
                   (JStr (str "Failed to extract content: " ++ err_message e))),
           [EvTabsQuery; EvStorageGet (str "apiKey"); EvStorageGet (str "apiProvider");
            EvInjectContentScript (tab_id tab); EvSendExtractContent (tab_id tab)]))
  /\ (forall doc,
        injectContentScript br (tab_id tab) = Ok tt ->
        contentScriptPage br (tab_id tab) = Ok doc ->
        ec_success (extractArticleContent doc) = false ->
        exists err,
          ec_error (extractArticleContent doc) = Some err
          /\ onMessage (requestType PageScope) br =
               (Some (mkResult [] (Some (ec_title (extractArticleContent doc)))
                        (Some (location_href doc)) false (JStr err)),
                [EvTabsQuery; EvStorageGet (str "apiKey");
                 EvStorageGet (str "apiProvider");
                 EvInjectContentScript (tab_id tab);
                 EvSendExtractContent (tab_id tab)])).
Proof.
  intros Htabs Hkey.
  assert (Hrun := handleSummarizeRequest_configured (tab_id tab) br key Hkey).
  rewrite extractContentFromTab_run in Hrun.
  split; [|split].
  - intros e Hi. rewrite onMessage_page, Htabs, Hrun, Hi. reflexivity.
  - intros e Hi Hp. rewrite onMessage_page, Htabs, Hrun, Hi, Hp. reflexivity.
  - intros doc Hi Hp Hfail.
    destruct (extractArticleContent_failure_error doc Hfail) as (err & Herr & Ht).
    exists err. split; [exact Herr|].
    rewrite onMessage_page, Htabs, Hrun, Hi, Hp. cbv zeta. cbn [fst snd].
    rewrite Hfail, Herr, (orElse_truthy err _ Ht), !orElse_self.
    now rewrite extractArticleContent_url.
Qed.

Lemma page_request_extraction_failure_witness :
  onMessage (requestType PageScope)
    (Samples.browser None
       (Throw (mkError (str "Error") (str "Cannot access a chrome:// URL")))
       (Ok (Examples.plainPage Examples.shortText)) (Ok []) Samples.offline)
    = (Some (mkResult [] (Some []) (Some []) false
               (JStr (str "Failed to extract content: Cannot access a chrome:// URL"))),
       [EvTabsQuery; EvStorageGet (str "apiKey"); EvStorageGet (str "apiProvider");
        EvInjectContentScript 7])
  /\ exists err,
       ec_error (extractArticleContent (Examples.plainPage Examples.shortText)) = Some err
       /\ onMessage (requestType PageScope)
            (Samples.browser None (Ok tt) (Ok (Examples.plainPage Examples.shortText))
               (Ok []) Samples.offline)
          = (Some (mkResult []
                     (Some (ec_title (extractArticleContent
                                        (Examples.plainPage Examples.shortText))))
                     (Some (location_href (Examples.plainPage Examples.shortText)))
                     false (JStr err)),
             [EvTabsQuery; EvStorageGet (str "apiKey"); EvStorageGet (str "apiProvider");
              EvInjectContentScript 7; EvSendExtractContent 7]).
Proof.
  split.
  - exact (proj1 (page_request_extraction_failure
                    (Samples.browser None
                       (Throw (mkError (str "Error") (str "Cannot access a chrome:// URL")))
                       (Ok (Examples.plainPage Examples.shortText)) (Ok []) Samples.offline)
                    Examples.someTab [] (str "sk-1") eq_refl eq_refl)
             (mkError (str "Error") (str "Cannot access a chrome:// URL")) eq_refl).
  - exact (proj2 (proj2 (page_request_extraction_failure
                           (Samples.browser None (Ok tt)
                              (Ok (Examples.plainPage Examples.shortText))
                              (Ok []) Samples.offline)
                           Examples.someTab [] (str "sk-1") eq_refl eq_refl))
             (Examples.plainPage Examples.shortText) eq_refl eq_refl eq_refl).
Defined.

(** X15: a page request with a key stored and an extraction that
    succeeds makes six calls in this order: tab query, the two
    configuration reads, injection, extraction, and one [fetch] of the
    request built from the extracted content, the stored key and the
    stored provider ('openai' if none).  The reply joins the provider's
    answer (summary, success, error) with the extracted title and the
    address of the page, whether the provider's answer is a success or
    not. *)
Theorem page_request_composition (br : Browser) (tab : Tab) (rest : list Tab)
    (key : jsstring) (doc : Document) :
  activeTabs br = Some (tab :: rest) ->
  orNull (sync_apiKey br) = Some key ->
  injectContentScript br (tab_id tab) = Ok tt ->
  contentScriptPage br (tab_id tab) = Ok doc ->
  ec_success (extractArticleContent doc) = true ->
  onMessage (requestType PageScope) br =
    (Some (mkResult
             (summary (answerTo br
                (buildRequest (extractArticleContent doc) key
                   (Some (orElse (sync_apiProvider br) (str "openai"))))))
             (Some (extractTitle doc)) (Some (location_href doc))
             (success (answerTo br
                (buildRequest (extractArticleContent doc) key
                   (Some (orElse (sync_apiProvider br) (str "openai"))))))
             (error (answerTo br
                (buildRequest (extractArticleContent doc) key
                   (Some (orElse (sync_apiProvider br) (str "openai"))))))),
     [EvTabsQuery; EvStorageGet (str "apiKey"); EvStorageGet (str "apiProvider");
      EvInjectContentScript (tab_id tab); EvSendExtractContent (tab_id tab);
      EvFetch (buildRequest (extractArticleContent doc) key
                 (Some (orElse (sync_apiProvider br) (str "openai"))))]).
Proof.
  intros Htabs Hkey Hi Hp Hok.
  rewrite onMessage_page, Htabs.
  rewrite (handleSummarizeRequest_configured (tab_id tab) br key Hkey).
  rewrite extractContentFromTab_run, Hi, Hp. cbv zeta. cbn [fst snd].
  rewrite Hok, (extractArticleContent_success_title doc Hok), extractArticleContent_url.
  reflexivity.
Qed.

Lemma page_request_composition_witness :
  onMessage (requestType PageScope) Samples.openaiBrowser =
    (Some (mkResult (str "A summary.") (Some (str "Example"))
             (Some (str "https://example.org/a")) true JUndefined),
     [EvTabsQuery; EvStorageGet (str "apiKey"); EvStorageGet (str "apiProvider");
      EvInjectContentScript 7; EvSendExtractContent 7; EvFetch Samples.openaiRequest]).
Proof.
  assert (Hok : ec_success (extractArticleContent (Examples.plainPage Examples.mediumText))
                = true) by (vm_compute; reflexivity).
  exact (page_request_composition Samples.openaiBrowser Examples.someTab []
           (str "sk-1") (Examples.plainPage Examples.mediumText)
           eq_refl eq_refl eq_refl eq_refl Hok).
Defined.

(** X16: a selection request with a key stored and something selected
    makes six calls in this order: tab query, selection script, the two
    configuration reads, [tabs.get] and one [fetch].  The text sent is the
    selection cut at 10,000 code units; the title sent is the one
    [tabs.get] reports, 'Selected Text' if it fails or reports none.  The
    reply joins the provider's answer with the title of the active tab
    ('Selected Text' if it has none) and its url. *)
Theorem selection_request_composition (br : Browser) (tab : Tab) (rest : list Tab)
    (key selectedText : jsstring) :
  activeTabs br = Some (tab :: rest) ->
  orNull (sync_apiKey br) = Some key ->
  bindExc (selectionScript br (tab_id tab)) firstResult = Ok (Some selectedText) ->
  trim selectedText <> [] ->
  onMessage (requestType SelectionScope) br =
    (Some (mkResult
             (summary (answerTo br
                (buildRequest
                   (mkExtracted (selectionTitle br (tab_id tab))
                      (substring selectedText 0 10000) [] true None)
                   key (Some (orElse (sync_apiProvider br) (str "openai"))))))
             (Some (orElse (tab_title tab) (str "Selected Text")))
             (tab_url tab)
             (success (answerTo br
                (buildRequest
                   (mkExtracted (selectionTitle br (tab_id tab))
                      (substring selectedText 0 10000) [] true None)
                   key (Some (orElse (sync_apiProvider br) (str "openai"))))))
             (error (answerTo br
                (buildRequest
                   (mkExtracted (selectionTitle br (tab_id tab))
                      (substring selectedText 0 10000) [] true None)
                   key (Some (orElse (sync_apiProvider br) (str "openai"))))))),
     [EvTabsQuery; EvSelectionScript (tab_id tab);
      EvStorageGet (str "apiKey"); EvStorageGet (str "apiProvider");
      EvTabsGet (tab_id tab);
      EvFetch (buildRequest
                 (mkExtracted (selectionTitle br (tab_id tab))
                    (substring selectedText 0 10000) [] true None)
                 key (Some (orElse (sync_apiProvider br) (str "openai"))))]).
Proof.
  intros Htabs Hkey Hsel Hne.
  assert (Hs : selectedText <> []) by (intros ->; now apply Hne).
  assert (Hsome : nothingSelected (Some selectedText) = false).
  { unfold nothingSelected, absent, present. rewrite orElse_self.
    apply truthy_nonempty in Hs. rewrite Hs. cbn [negb orb].
    apply Z.eqb_neq. unfold jslength. destruct (trim selectedText); [contradiction|].
    cbn. lia. }
  rewrite onMessage_selection, Htabs, Hsel, Hsome. cbv zeta.
  rewrite orElse_self, (summarizeSelectedText_configured _ _ _ _ Hkey).
  reflexivity.
Qed.

Lemma selection_request_composition_witness :
  fst (onMessage (requestType SelectionScope) Samples.openaiBrowser) =
    Some (mkResult (str "A summary.") (Some (str "Example"))
            (Some (str "https://example.org/a")) true JUndefined)
  /\ map (fun r => messages (request_body r))
         (requestsOf (snd (onMessage (requestType SelectionScope) Samples.openaiBrowser)))
     = [ [ mkMessage (str "system") SYSTEM_PROMPT;
           mkMessage (str "user")
             (str "Title: Example" ++ [10; 10] ++ str "Content:" ++ [10]
                ++ str "Selected words") ] ].
Proof.
  assert (Hne : trim (str "Selected words") <> []) by (vm_compute; discriminate).
  rewrite (selection_request_composition Samples.openaiBrowser Examples.someTab []
             (str "sk-1") (str "Selected words") eq_refl eq_refl eq_refl Hne).
  split; vm_compute; reflexivity.
Defined.

End SummarizerRuns.

(* ===================================================================== *)
(** ** The context menu and the keyboard shortcut (background.js)          *)
(* ===================================================================== *)

Section ShortcutRuns.
Import Content Background Properties Shortcuts.

Lemma summarizeAndShow_run (selectedText : jsstring) (tabId : Z) (sh : Shell) :
  summarizeAndShow selectedText tabId sh =
    match loadingScript sh tabId with
    | Throw err => (Throw err, [ShowLoading tabId])
    | Ok _ =>
        (popupScript sh tabId,
         ShowLoading tabId
           :: map Worker (snd (summarizeSelectedText selectedText tabId (worker sh)))
           ++ [ShowPopup tabId
                 (fst (popupFor (fst (summarizeSelectedText selectedText tabId (worker sh)))))
                 (snd (popupFor (fst (summarizeSelectedText selectedText tabId (worker sh)))))])
    end.
Proof.
  unfold summarizeAndShow, bindU, callU, retU, lift, showSelectionSummary, popupFor.
  destruct (loadingScript sh tabId); [|reflexivity].
  destruct (summarizeSelectedText selectedText tabId (worker sh)) as [r t].
  reflexivity.
Qed.

(** X17: the context-menu listener.  A click on another menu item, or
    one without selected text, does nothing at all.  Otherwise the
    loading popup is asked for first; if that script is refused the
    handler stops there, before the configuration is read; if it goes
    through, the selection is summarized and one popup is asked for: the
    summary, not flagged, when the summary succeeded, and the error line,
    flagged, when it did not. *)
Theorem onClicked_run (info : ClickInfo) (tab : Tab) (sh : Shell) :
  (menuItemId info <> str "summarize-selection"
   \/ selectionText info = None \/ selectionText info = Some [] ->
   onClicked info tab sh = (Ok tt, []))
  /\ (forall selected,
        menuItemId info = str "summarize-selection" ->
        selectionText info = Some selected -> selected <> [] ->
        (forall err,
           loadingScript sh (tab_id tab) = Throw err ->
           onClicked info tab sh = (Throw err, [ShowLoading (tab_id tab)]))
        /\ (loadingScript sh (tab_id tab) = Ok tt ->
            onClicked info tab sh =
              (popupScript sh (tab_id tab),
               ShowLoading (tab_id tab)
                 :: map Worker
                      (snd (summarizeSelectedText selected (tab_id tab) (worker sh)))
                 ++ [ShowPopup (tab_id tab)
                       (if success (fst (summarizeSelectedText selected (tab_id tab)
                                           (worker sh)))
                        then Plain (summary (fst (summarizeSelectedText selected
                                                    (tab_id tab) (worker sh))))
                        else ErrorLine (error (fst (summarizeSelectedText selected
                                                      (tab_id tab) (worker sh)))))
                       (negb (success (fst (summarizeSelectedText selected (tab_id tab)
                                              (worker sh)))))]))).
Proof.
  split.
  - intros H. unfold onClicked.
    destruct H as [H | [H | H]].
    + apply eqb_neq in H. now rewrite H.
    + rewrite H. now rewrite andb_false_r.
    + rewrite H. now rewrite andb_false_r.
  - intros selected Hid Hsel Hne. unfold onClicked.
    rewrite Hid, Hsel, eqb_refl. cbn [andb present].
    apply truthy_nonempty in Hne. rewrite Hne, (orElse_truthy selected [] Hne).
    rewrite summarizeAndShow_run. split.
    + intros err ->. reflexivity.
    + intros ->. reflexivity.
Qed.

Lemma onClicked_run_witness :
  onClicked (mkClick (str "other-item") (Some (str "Selected words"))) Examples.someTab
    (ShellSamples.shell Samples.openaiBrowser) = (Ok tt, [])
  /\ onClicked (mkClick (str "summarize-selection") (Some (str "Selected words")))
       Examples.someTab (ShellSamples.shell (Examples.unconfigured (str "Selected words")))
     = (Ok tt,
        [ShowLoading 7;
         Worker (EvStorageGet (str "apiKey")); Worker (EvStorageGet (str "apiProvider"));
         ShowPopup 7 (ErrorLine (JStr NOT_CONFIGURED)) true]).
Proof.
  split.
  - refine (proj1 (onClicked_run _ _ _) (or_introl _)). discriminate.
  - refine (proj2 (proj2 (onClicked_run
                            (mkClick (str "summarize-selection") (Some (str "Selected words")))
                            Examples.someTab
                            (ShellSamples.shell (Examples.unconfigured (str "Selected words"))))
                     (str "Selected words") eq_refl eq_refl _) eq_refl).
    discriminate.
Defined.

Lemma onCommand_run (sh : Shell) :
  onCommand (str "summarize-selection") sh =
    match activeTabs (worker sh) with
    | None =>
        (Throw (TypeError
           (str "(intermediate value) is not iterable")),
         [Worker EvTabsQuery])
    | Some [] => (Ok tt, [Worker EvTabsQuery])
    | Some (tab :: _) =>
        match fst (shortcutBody (tab_id tab) sh) with
        | Ok _ => (Ok tt, Worker EvTabsQuery :: snd (shortcutBody (tab_id tab) sh) ++ [])
        | Throw err =>
            (popupScript sh (tab_id tab),
             Worker EvTabsQuery :: snd (shortcutBody (tab_id tab) sh)
               ++ [ShowPopup (tab_id tab)
                     (ErrorLine (JStr (str "Error: " ++ err_message err))) true])
        end
    end.
Proof.
  unfold onCommand. rewrite eqb_refl.
  unfold bindU at 1. unfold lift at 1. cbn [call map].
  destruct (activeTabs (worker sh)) as [[|tab rest]|]; try reflexivity.
  unfold bindU. destruct (shortcutBody (tab_id tab) sh) as [[u|err] t]; reflexivity.
Qed.

Lemma shortcutBody_run (tabId : Z) (sh : Shell) :
  shortcutBody tabId sh =
    match bindExc (selectionScript (worker sh) tabId) firstResult with
    | Throw err => (Throw err, [Worker (EvSelectionScript tabId)])
    | Ok selectedText =>
        if nothingSelected selectedText
        then (popupScript sh tabId,
              [Worker (EvSelectionScript tabId);
               ShowPopup tabId (ErrorLine (JStr NO_SELECTION)) true])
        else (fst (summarizeAndShow (orElse selectedText []) tabId sh),
              Worker (EvSelectionScript tabId)
                :: snd (summarizeAndShow (orElse selectedText []) tabId sh))
    end.
Proof.
  unfold shortcutBody, bindU. unfold lift at 1. cbn [call map].
  destruct (bindExc (selectionScript (worker sh) tabId) firstResult) as [sel|err];
    [|reflexivity].
  destruct (nothingSelected sel); [reflexivity|].
  now destruct (summarizeAndShow (orElse sel []) tabId sh).
Qed.

(** X18: the keyboard shortcut, when nothing gets summarized.  Another
    command does nothing; with no active tab the handler stops after the
    tab query.  With nothing selected it asks for one flagged popup
    reading 'Error: No text selected. Please select some text first.',
    and when the selection cannot be read, for one flagged popup whose
    text repeats the prefix: 'Error: Error: ' and the reason.  In neither
    case is the configuration read or the loading popup shown. *)
Theorem onCommand_without_summary (sh : Shell) :
  (forall command,
     command <> str "summarize-selection" -> onCommand command sh = (Ok tt, []))
  /\ (activeTabs (worker sh) = Some [] ->
      onCommand (str "summarize-selection") sh = (Ok tt, [Worker EvTabsQuery]))
  /\ (forall tab rest,
        activeTabs (worker sh) = Some (tab :: rest) ->
        popupScript sh (tab_id tab) = Ok tt ->
        (forall selectedText,
           bindExc (selectionScript (worker sh) (tab_id tab)) firstResult
             = Ok selectedText ->
           nothingSelected selectedText = true ->
           onCommand (str "summarize-selection") sh =
             (Ok tt,
              [Worker EvTabsQuery; Worker (EvSelectionScript (tab_id tab));
               ShowPopup (tab_id tab) (ErrorLine (JStr NO_SELECTION)) true])
           /\ displayed (ErrorLine (JStr NO_SELECTION))
              = Some (str "Error: No text selected. Please select some text first."))
        /\ (forall err,
              bindExc (selectionScript (worker sh) (tab_id tab)) firstResult
                = Throw err ->
              onCommand (str "summarize-selection") sh =
                (Ok tt,
                 [Worker EvTabsQuery; Worker (EvSelectionScript (tab_id tab));
                  ShowPopup (tab_id tab)
                    (ErrorLine (JStr (str "Error: " ++ err_message err))) true])
              /\ displayed (ErrorLine (JStr (str "Error: " ++ err_message err)))
                 = Some (str "Error: Error: " ++ err_message err))).
Proof.
  split; [|split].
  - intros command H. apply eqb_neq in H. unfold onCommand. now rewrite H.
  - intros H. now rewrite onCommand_run, H.
  - intros tab rest Htabs Hpop. split.
    + intros sel Hsel Hblank. split; [|reflexivity].
      rewrite onCommand_run, Htabs, shortcutBody_run, Hsel, Hblank. cbn [fst snd].
      rewrite Hpop. reflexivity.
    + intros err Hsel. split; [|reflexivity].
      rewrite onCommand_run, Htabs, shortcutBody_run, Hsel. cbn [fst snd].
      rewrite Hpop. reflexivity.
Qed.

Lemma onCommand_without_summary_witness :
  onCommand (str "open-popup") (ShellSamples.shell Samples.openaiBrowser) = (Ok tt, [])
  /\ onCommand (str "summarize-selection")
       (ShellSamples.shell (Examples.unconfigured (str "  ")))
     = (Ok tt,
        [Worker EvTabsQuery; Worker (EvSelectionScript 7);
         ShowPopup 7 (ErrorLine (JStr NO_SELECTION)) true])
  /\ onCommand (str "summarize-selection")
       (ShellSamples.shell
          (Samples.browser None (Ok tt) (Ok (Examples.plainPage Examples.mediumText))
             (Throw (mkError (str "Error") (str "Cannot access contents of the page")))
             Samples.offline))
     = (Ok tt,
        [Worker EvTabsQuery; Worker (EvSelectionScript 7);
         ShowPopup 7
           (ErrorLine (JStr (str "Error: Cannot access contents of the page"))) true]).
Proof.
  split; [|split].
  - refine (proj1 (onCommand_without_summary _) (str "open-popup") _). discriminate.
  - exact (proj1 (proj1 (proj2 (proj2 (onCommand_without_summary
                     (ShellSamples.shell (Examples.unconfigured (str "  ")))))
                   Examples.someTab [] eq_refl eq_refl)
                   (Some (str "  ")) eq_refl eq_refl)).
  - exact (proj1 (proj2 (proj2 (proj2 (onCommand_without_summary
                     (ShellSamples.shell
                        (Samples.browser None (Ok tt)
                           (Ok (Examples.plainPage Examples.mediumText))
                           (Throw (mkError (str "Error")
                                     (str "Cannot access contents of the page")))
                           Samples.offline))))
                   Examples.someTab [] eq_refl eq_refl)
                   (mkError (str "Error") (str "Cannot access contents of the page"))
                   eq_refl)).
Defined.









End ShortcutRuns.

(* ===================================================================== *)
(** ** More on the saved-summaries list (storage.js, popup.js)             *)
(* ===================================================================== *)

Section SavedList.
Import Storage ListShapes.

Lemma hexDigit_hex (v : Z) : 0 <= v <= 15 -> isHexDigit (hexDigit v).
Proof.
  intros H. unfold hexDigit, isHexDigit.
  destruct (Z.ltb_spec v 10); lia.
Qed.

Lemma variant_digit (r : Z) :
  hexDigit (Z.lor (Z.land r 3) 8) = 56 \/ hexDigit (Z.lor (Z.land r 3) 8) = 57
  \/ hexDigit (Z.lor (Z.land r 3) 8) = 97 \/ hexDigit (Z.lor (Z.land r 3) 8) = 98.
Proof.
  change 3 with (Z.ones 2). rewrite Z.land_ones by lia.
  pose proof (Z.mod_pos_bound r (2 ^ 2) ltac:(lia)) as H.
  change (2 ^ 2) with 4 in *.
  assert (E : r mod 4 = 0 \/ r mod 4 = 1 \/ r mod 4 = 2 \/ r mod 4 = 3) by lia.
  destruct E as [-> | [-> | [-> | ->]]]; cbn; tauto.
Qed.

(** X20: when every draw [Math.random() * 16 | 0] is in 0..15, the id
    that [generateUUID] builds has the layout of a version-4 UUID: 36
    code units, lower-case hexadecimal digits in groups of 8, 4, 4, 4 and
    12 separated by hyphens, a 4 opening the third group and one of 8, 9,
    a, b opening the fourth. *)
Theorem generateUUID_layout (random : nat -> Z) :
  (forall i, 0 <= random i <= 15) ->
  isUuidV4 (generateUUID random) /\ List.length (generateUUID random) = 36%nat.
Proof.
  intros Hr. split; [|reflexivity].
  exists (digits random 0 8), (digits random 8 4), (digits random 12 3),
         (hexDigit (Z.lor (Z.land (random 15%nat) 3) 8)),
         (digits random 16 3), (digits random 19 12).
  split; [reflexivity|]. repeat (split; [reflexivity|]).
  split; [apply variant_digit|].
  repeat (apply Forall_app; split);
    apply Forall_forall; intros c Hc; unfold digits in Hc;
    apply in_map_iff in Hc as (k & <- & _); apply hexDigit_hex, Hr.
Qed.

Lemma generateUUID_layout_witness :
  (forall i, 0 <= Z.of_nat (i mod 16) <= 15)
  /\ isUuidV4 (str "01234567-89ab-4cde-b012-3456789abcde").
Proof.
  assert (H : forall i, 0 <= Z.of_nat (i mod 16) <= 15).
  { intros i. pose proof (Nat.mod_upper_bound i 16 ltac:(discriminate)). lia. }
  split; [exact H|].
  exact (proj1 (generateUUID_layout (fun i => Z.of_nat (i mod 16)) H)).
Defined.

Lemma firstn_100_cons {A} (x : A) (l : list A) :
  firstn 100 (x :: l) = x :: firstn 99 l.
Proof. reflexivity. Qed.

(** X21: a save and the next read.  When neither storage call fails,
    [saveSummary] resolves with the entry it built (a generated id, the
    url, title and summary it was given, the time of the call), and
    [getSavedSummaries] then returns that entry followed by the first 99
    entries of the old list.  When the read or the write fails, it rejects
    with the storage error and the stored list is what it was. *)
Theorem saveSummary_then_read (random : nat -> Z) (now : Z) (s : Summary)
    (st : LocalStorage) :
  (saveSummary random now s noFaults st =
     (Fulfilled (mkSaved (generateUUID random) (s_url s) (s_title s) (s_summary s) now),
      Some (mkSaved (generateUUID random) (s_url s) (s_title s) (s_summary s) now
              :: firstn 99 (readSummaries st)))
   /\ getSavedSummaries None (snd (saveSummary random now s noFaults st)) =
        Fulfilled (mkSaved (generateUUID random) (s_url s) (s_title s) (s_summary s) now
                     :: firstn 99 (readSummaries st)))
  /\ (forall faults message,
        getError faults = Some message
        \/ (getError faults = None /\ setError faults = Some message) ->
        saveSummary random now s faults st = (RejectedWith message, st)).
Proof.
  split.
  - unfold saveSummary, getSavedSummaries. cbn [noFaults getError setError snd readSummaries].
    rewrite unshiftAndCap_firstn, firstn_100_cons. split; reflexivity.
  - intros faults message [Hg | [Hg Hs]]; unfold saveSummary.
    + now rewrite Hg.
    + now rewrite Hg, Hs.
Qed.

Lemma saveSummary_then_read_witness :
  saveSummary (fun _ => 10) 5 (Examples.article 0) (mkFaults None (Some (str "QUOTA_BYTES")))
    Examples.threeSaved
  = (RejectedWith (str "QUOTA_BYTES"), Examples.threeSaved).
Proof.
  exact (proj2 (saveSummary_then_read (fun _ => 10) 5 (Examples.article 0)
                  Examples.threeSaved)
           (mkFaults None (Some (str "QUOTA_BYTES"))) (str "QUOTA_BYTES")
           (or_intror (conj eq_refl eq_refl))).
Defined.

Lemma map_id_firstn (n : nat) (l : list SavedSummary) :
  map id (firstn n l) = firstn n (map id l).
Proof. symmetry. apply firstn_map. Qed.

Lemma In_firstn {A} (n : nat) (l : list A) (x : A) : In x (firstn n l) -> In x l.
Proof.
  intros H. rewrite <- (firstn_skipn n l). apply in_or_app. now left.
Qed.

(** X22: saving and then deleting the saved id.  If the new id is not
    yet in the list, the list comes back as its first 99 entries: as it
    was when it had fewer than 100 entries, and without its last entry
    when it was full, since the save had pushed that one out. *)
Theorem save_then_delete (random : nat -> Z) (now : Z) (s : Summary)
    (st : LocalStorage) :
  ~ In (generateUUID random) (map id (readSummaries st)) ->
  readSummaries
    (snd (deleteSummary (generateUUID random) noFaults
            (snd (saveSummary random now s noFaults st))))
    = firstn 99 (readSummaries st)
  /\ ((List.length (readSummaries st) < 100)%nat ->
      readSummaries
        (snd (deleteSummary (generateUUID random) noFaults
                (snd (saveSummary random now s noFaults st))))
        = readSummaries st).
Proof.
  intros Hfresh.
  assert (E : readSummaries
                (snd (deleteSummary (generateUUID random) noFaults
                        (snd (saveSummary random now s noFaults st))))
              = firstn 99 (readSummaries st)).
  { unfold deleteSummary, saveSummary.
    cbn [noFaults getError setError snd readSummaries].
    rewrite unshiftAndCap_firstn, firstn_100_cons.
    unfold withoutId. cbn [filter newEntry id]. rewrite eqb_refl. cbn [negb].
    apply withoutId_absent. intros H. apply Hfresh.
    rewrite map_id_firstn in H. now apply In_firstn in H. }
  split; [exact E|]. intros Hlen. rewrite E. apply firstn_all2. lia.
Qed.

Lemma save_then_delete_witness :
  ~ In (generateUUID (fun _ => 10)) (map id (readSummaries Examples.threeSaved))
  /\ readSummaries
       (snd (deleteSummary (generateUUID (fun _ => 10)) noFaults
               (snd (saveSummary (fun _ => 10) 5 (Examples.article 0) noFaults
                       Examples.threeSaved))))
     = readSummaries Examples.threeSaved.
Proof.
  assert (H : ~ In (generateUUID (fun _ => 10)) (map id (readSummaries Examples.threeSaved))).
  { cbn. intuition discriminate. }
  split; [exact H|].
  refine (proj2 (save_then_delete _ _ _ _ H) _). cbn. lia.
Defined.

(** X23: a delete removes every entry that carries the id, and only
    those: afterwards the id is not in the list, an entry is in the list
    exactly if it was there with another id, and deleting the same id once
    more changes nothing. *)
Theorem deleteSummary_complete (i : jsstring) (st : LocalStorage) :
  ~ In i (map id (readSummaries (snd (deleteSummary i noFaults st))))
  /\ (forall x,
        In x (readSummaries (snd (deleteSummary i noFaults st)))
        <-> In x (readSummaries st) /\ id x <> i)
  /\ snd (deleteSummary i noFaults (snd (deleteSummary i noFaults st)))
     = snd (deleteSummary i noFaults st).
Proof.
  unfold deleteSummary. cbn [noFaults getError setError snd readSummaries].
  assert (Hin : forall x, In x (withoutId i (readSummaries st))
                          <-> In x (readSummaries st) /\ id x <> i).
  { intros x. unfold withoutId. rewrite filter_In.
    rewrite negb_true_iff, eqb_neq. tauto. }
  assert (Hout : ~ In i (map id (withoutId i (readSummaries st)))).
  { intros H. apply in_map_iff in H as (x & Hx & Hxin).
    apply Hin in Hxin. tauto. }
  split; [exact Hout|]. split; [exact Hin|].
  f_equal. now apply withoutId_absent.
Qed.

Lemma NoDup_map_firstn (n : nat) (l : list SavedSummary) :
  NoDup (map id l) -> NoDup (map id (firstn n l)).
Proof.
  intros H. rewrite <- (firstn_skipn n l), map_app in H.
  now apply NoDup_app_remove_r in H.
Qed.

Lemma NoDup_map_withoutId (i : jsstring) (l : list SavedSummary) :
  NoDup (map id l) -> NoDup (map id (withoutId i l)).
Proof.
  unfold withoutId. induction l as [|x l IH]; cbn [map filter]; intros H; [constructor|].
  inversion H as [|? ? Hx Hl]; subst.
  destruct (negb (JsString.eqb (id x) i)); [|now apply IH].
  cbn [map]. constructor; [|now apply IH].
  intros Hin. apply Hx. apply in_map_iff in Hin as (y & Hy & Hyin).
  apply filter_In in Hyin as [Hyin _]. apply in_map_iff. now exists y.
Qed.

(** What one operation leaves in the store. *)
Lemma step_cases (st : LocalStorage) (op : Operation) :
  step st op = st
  \/ (exists e, entryOf op = Some e
                /\ readSummaries (step st op) = firstn 100 (e :: readSummaries st))
  \/ (exists i, readSummaries (step st op) = withoutId i (readSummaries st)).
Proof.
  destruct op as [random now s [g w] | i [g w] | [current|] random now | [detail|]];
    cbn [step saveSummary deleteSummary saveCurrentSummary deleteCurrentSummary
         getError setError entryOf].
  - destruct g; [now left|]. destruct w; [now left|].
    right; left. eexists. split; [reflexivity|].
    cbn [snd readSummaries]. apply unshiftAndCap_firstn.
  - destruct g; [now left|]. destruct w; [now left|].
    right; right. now exists i.
  - right; left. eexists. split; [reflexivity|].
    cbn [readSummaries]. apply unshiftAndCap_firstn.
  - now left.
  - right; right. now exists (id detail).
  - now left.
Qed.

(** X24: ids stay unique.  If no two entries of the list share an id and
    the id a save generates is not in the list yet, then after any one
    operation of storage.js or popup.js (a save, a delete, with or without
    a storage failure) no two entries share an id. *)
Theorem step_keeps_ids_unique (st : LocalStorage) (op : Operation) :
  NoDup (map id (readSummaries st)) ->
  (forall e, entryOf op = Some e -> ~ In (id e) (map id (readSummaries st))) ->
  NoDup (map id (readSummaries (step st op))).
Proof.
  intros Hnd Hfresh.
  destruct (step_cases st op) as [-> | [(e & He & ->) | (i & ->)]].
  - exact Hnd.
  - apply NoDup_map_firstn. cbn [map]. constructor; [now apply Hfresh|exact Hnd].
  - now apply NoDup_map_withoutId.
Qed.

Lemma step_keeps_ids_unique_witness :
  NoDup (map id (readSummaries Examples.threeSaved))
  /\ NoDup (map id (readSummaries
                      (step Examples.threeSaved
                         (SaveSummary (fun _ => 10) 5 (Examples.article 0) noFaults)))).
Proof.
  assert (Hnd : NoDup (map id (readSummaries Examples.threeSaved))).
  { cbn. repeat constructor; cbn; intuition discriminate. }
  split; [exact Hnd|].
  apply (step_keeps_ids_unique _ _ Hnd).
  intros e [= <-]. cbn. intuition discriminate.
Defined.

Lemma newestFirst_firstn (n : nat) (l : list SavedSummary) :
  newestFirst l -> newestFirst (firstn n l).
Proof.
  revert n. induction l as [|x l IH]; intros [|n]; cbn; try tauto.
  intros [Hx Hl]. split; [|now apply IH].
  intros y Hy. apply Hx. now apply In_firstn in Hy.
Qed.

Lemma newestFirst_withoutId (i : jsstring) (l : list SavedSummary) :
  newestFirst l -> newestFirst (withoutId i l).
Proof.
  unfold withoutId. induction l as [|x l IH]; cbn [filter newestFirst]; [tauto|].
  intros [Hx Hl]. destruct (negb (JsString.eqb (id x) i)); [|now apply IH].
  cbn [newestFirst]. split; [|now apply IH].
  intros y Hy. apply Hx. now apply filter_In in Hy as [Hy _].
Qed.

(** X25: the list stays in time order.  If the entries are ordered by
    their time stamps, latest first, and the clock has not gone back since
    the latest of them, then after any one operation they are still
    ordered latest first. *)
Theorem step_keeps_newest_first (st : LocalStorage) (op : Operation) :
  newestFirst (readSummaries st) ->
  (forall e, entryOf op = Some e ->
             forall y, In y (readSummaries st) -> savedAt y <= savedAt e) ->
  newestFirst (readSummaries (step st op)).
Proof.
  intros Hs Hclock.
  destruct (step_cases st op) as [-> | [(e & He & ->) | (i & ->)]].
  - exact Hs.
  - apply newestFirst_firstn. cbn [newestFirst]. split; [now apply Hclock|exact Hs].
  - now apply newestFirst_withoutId.
Qed.

Lemma step_keeps_newest_first_witness :
  newestFirst (readSummaries Examples.threeSaved)
  /\ newestFirst (readSummaries
                    (step Examples.threeSaved
                       (SaveCurrentSummary (Some (Examples.article 0)) (fun _ => 10) 5))).
Proof.
  assert (Hs : newestFirst (readSummaries Examples.threeSaved)).
  { cbn. intuition (subst; cbn; lia). }
  split; [exact Hs|].
  apply (step_keeps_newest_first _ _ Hs).
  intros e [= <-] y Hy. cbn in Hy. intuition (subst; cbn; lia).
Defined.

(** X26: saved summaries are never rewritten.  After any one operation,
    every entry of the list is an entry that was there before, unchanged,
    or the one entry the operation built. *)
Theorem step_never_rewrites (st : LocalStorage) (op : Operation) (x : SavedSummary) :
  In x (readSummaries (step st op)) ->
  In x (readSummaries st) \/ entryOf op = Some x.
Proof.
  intros H.
  destruct (step_cases st op) as [E | [(e & He & E) | (i & E)]]; rewrite E in H.
  - now left.
  - apply In_firstn in H. destruct H as [<- | H]; [now right|now left].
  - left. unfold withoutId in H. now apply filter_In in H as [H _].
Qed.

Lemma step_never_rewrites_witness :
  In (Examples.saved "c")
     (readSummaries (step Examples.threeSaved (DeleteSummary (str "a") noFaults)))
  /\ (In (Examples.saved "c") (readSummaries Examples.threeSaved)
      \/ entryOf (DeleteSummary (str "a") noFaults) = Some (Examples.saved "c")).
Proof.
  assert (H : In (Examples.saved "c")
                (readSummaries (step Examples.threeSaved (DeleteSummary (str "a") noFaults))))
    by (cbn; tauto).
  split; [exact H|].
  exact (step_never_rewrites _ _ _ H).
Defined.

End SavedList.

(* ===================================================================== *)
(** ** Settings and the popup (storage.js, popup.js)                       *)
(* ===================================================================== *)

Section PopupFlows.
Import Content Background Shapes Settings Popup.

Lemma orNull_truthy (key : jsstring) :
  key <> [] -> orNull (Some key) = Some key.
Proof. intros H. apply truthy_nonempty in H. unfold orNull. now rewrite H. Qed.

(** X27: the API key, from the popup to the worker.  A click on the
    save-key button stores the key typed without the white space around
    it, together with the provider chosen, and nothing at all when only
    white space was typed or when the store reports an error.  Once
    stored, the popup's own check finds the key, the worker reads back
    that same trimmed key, and every request the worker then sends
    carries it after 'Bearer '.  [saveApiKey] and [getApiKey] of
    storage.js round-trip in the same way, an empty key reading back as
    no key. *)
Theorem apiKey_round_trip (apiKeyInput providerSelect : jsstring)
    (st : SyncStorage) (br : Browser) :
  (trim apiKeyInput <> [] ->
   saveKeyClick apiKeyInput providerSelect None st
     = mkSync (Some (trim apiKeyInput)) (Some providerSelect)
   /\ checkApiKey (saveKeyClick apiKeyInput providerSelect None st) = true
   /\ fst (Background.getApiKey
             (reading (saveKeyClick apiKeyInput providerSelect None st) br))
      = Some (trim apiKeyInput)
   /\ forall type req,
        In req (requestsOf
                  (snd (onMessage type
                          (reading (saveKeyClick apiKeyInput providerSelect None st) br)))) ->
        nth_error (headers req) 1
          = Some (str "Authorization", str "Bearer " ++ trim apiKeyInput))
  /\ (trim apiKeyInput = [] ->
      forall lastError, saveKeyClick apiKeyInput providerSelect lastError st = st)
  /\ (forall message, saveKeyClick apiKeyInput providerSelect (Some message) st = st)
  /\ (forall key,
        Settings.getApiKey None (snd (saveApiKey key None st))
          = Storage.Fulfilled (if JsString.truthy key then Some key else None)
        /\ stored_apiProvider (snd (saveApiKey key None st)) = stored_apiProvider st).
Proof.
  split; [|split; [|split]].
  - intros Hne.
    assert (E : saveKeyClick apiKeyInput providerSelect None st
                = mkSync (Some (trim apiKeyInput)) (Some providerSelect)).
    { unfold saveKeyClick. cbv zeta. apply truthy_nonempty in Hne. now rewrite Hne. }
    rewrite E. split; [reflexivity|]. split.
    { unfold checkApiKey, present. cbn. now apply truthy_nonempty. }
    split.
    { unfold Background.getApiKey, call, reading. cbn. now apply orNull_truthy. }
    intros type req Hin.
    destruct (onMessage_requests type (reading (mkSync (Some (trim apiKeyInput))
                                                  (Some providerSelect)) br))
      as [E0 | (key & content & Hkey & _ & E1)].
    + rewrite E0 in Hin. destruct Hin.
    + rewrite E1 in Hin. destruct Hin as [<- | []].
      cbn [reading sync_apiKey stored_apiKey] in Hkey.
      rewrite (orNull_truthy _ Hne) in Hkey. injection Hkey as <-.
      unfold buildRequest. cbn [headers]. unfold requestHeaders.
      destruct (JsString.eqb _ (str "openrouter")); reflexivity.
  - intros E lastError. unfold saveKeyClick. cbv zeta. now rewrite E.
  - intros message. unfold saveKeyClick. cbv zeta.
    destruct (JsString.truthy (trim apiKeyInput)); reflexivity.
  - intros key. split; [|reflexivity].
    unfold Settings.getApiKey, saveApiKey. cbn. reflexivity.
Qed.

Lemma apiKey_round_trip_witness :
  saveKeyClick ([32] ++ str "sk-1" ++ [10]) (str "openai") None (mkSync None None)
    = mkSync (Some (str "sk-1")) (Some (str "openai"))
  /\ saveKeyClick (str "   ") (str "openai") None (mkSync None None) = mkSync None None.
Proof.
  split.
  - refine (proj1 (proj1 (apiKey_round_trip ([32] ++ str "sk-1" ++ [10]) (str "openai")
                            (mkSync None None) Samples.openaiBrowser) _)).
    vm_compute. discriminate.
  - exact (proj1 (proj2 (apiKey_round_trip (str "   ") (str "openai")
                           (mkSync None None) Samples.openaiBrowser)) eq_refl None).
Defined.

Lemma valueOr_truthy (v : JsValue) (text : string) :
  str text <> [] -> Js.truthy (valueOr v text) = true.
Proof.
  intros H. unfold valueOr. destruct (Js.truthy v) eqn:E; [exact E|].
  cbn. now apply truthy_nonempty.
Qed.

Lemma truthy_text (v : JsValue) (text : jsstring) :
  Js.truthy v = true -> v = JStr text -> text <> [].
Proof. intros H -> ->. discriminate H. Qed.

(** X28: how a request ends in the popup.  Whatever the reply (an
    exception, no payload, a failure, a success) and whatever was shown
    before, once [triggerSummarization] or [triggerSelectionSummarization]
    is through the loading block is hidden and exactly one of the error
    and summary blocks shows.  The summary block shows exactly for a
    successful payload, with its summary, and the current summary is then
    that payload's summary, title and url (the title defaulting to
    'Selected Text' for a selection).  Otherwise the error block shows,
    the options come back, the current summary is left as it was, and the
    value assigned as the error text is truthy: the fixed text 'Failed to
    communicate with extension.' for an exception, 'No response from
    background script.' for no payload, and for a failure the payload's
    error when that is truthy and the trigger's fallback text when it is
    not.  Whenever that value is a string it is not empty; a truthy error
    that is not a string (the worker passes on whatever the provider sent
    as [error.message], an empty array for one) is assigned as it is, and
    nothing is claimed about the text the browser makes of it. *)
Theorem trigger_ends_in_one_block (reply : Reply) (p : State) :
  afterTrigger "Summarizing article..." "Failed to generate summary."
    (fun t => t) reply p (triggerSummarization reply p)
  /\ afterTrigger "Summarizing selection..." "Failed to summarize selection."
       (fun t => Some (orElse t (str "Selected Text")))
       reply p (triggerSelectionSummarization reply p).
Proof.
  unfold afterTrigger, triggerSummarization, triggerSelectionSummarization.
  split.
  - destruct reply as [[payload|]|e]; [destruct (success payload) eqn:Hs| |];
      cbn; repeat split; try discriminate; try reflexivity; try congruence;
      try (intros (q & [= ->] & Hq); congruence);
      try (intros (q & [= ] & Hq));
      try (intros; exists payload; now split);
      try (intros q [= <-]; congruence);
      try (intros q [= <-] _; reflexivity);
      try (apply valueOr_truthy; discriminate);
      try (intros text E; eapply truthy_text; [|exact E];
           apply valueOr_truthy; discriminate);
      try (intros text [= <-]; discriminate).
  - destruct reply as [[payload|]|e]; [destruct (success payload) eqn:Hs| |];
      cbn; repeat split; try discriminate; try reflexivity; try congruence;
      try (intros (q & [= ->] & Hq); congruence);
      try (intros (q & [= ] & Hq));
      try (intros; exists payload; now split);
      try (intros q [= <-]; congruence);
      try (intros q [= <-] _; reflexivity);
      try (apply valueOr_truthy; discriminate);
      try (intros text E; eapply truthy_text; [|exact E];
           apply valueOr_truthy; discriminate);
      try (intros text [= <-]; discriminate).
Qed.

Lemma saveCurrentSummary_list (current : Storage.Summary) (random : nat -> Z) (now : Z)
    (store : Storage.LocalStorage) :
  Storage.readSummaries (Storage.saveCurrentSummary (Some current) random now store)
    = Storage.newEntry random now current :: firstn 99 (Storage.readSummaries store).
Proof.
  unfold Storage.saveCurrentSummary. cbn [Storage.readSummaries].
  now rewrite unshiftAndCap_firstn.
Qed.

(** X29: what is saved is what was shown.  When the worker answers a
    page request with a success and the user then saves, the saved list
    opens with an entry that has the worker's summary, title and url, the
    generated id and the time of the save, followed by the first 99
    entries from before; the count shown is the length of the stored list
    and the first item of the rendered list is that title ('Untitled' if
    the title is empty).  When the answer is a failure and no summary was
    current before, saving stores nothing. *)
Theorem saved_as_shown (br : Browser) (p : State) (random : nat -> Z) (now : Z)
    (store : Storage.LocalStorage) (payload : SummaryResult) :
  fst (onMessage (requestType PageScope) br) = Some payload ->
  (success payload = true ->
   Storage.readSummaries
     (fst (Popup.saveCurrentSummary random now store
             (triggerSummarization (Ok (fst (onMessage (requestType PageScope) br))) p)))
     = Storage.mkSaved (Storage.generateUUID random) (url payload) (title payload)
         (summary payload) now
       :: firstn 99 (Storage.readSummaries store)
   /\ savedCount
        (snd (Popup.saveCurrentSummary random now store
                (triggerSummarization (Ok (fst (onMessage (requestType PageScope) br))) p)))
      = Z.of_nat
          (List.length
             (Storage.readSummaries
                (fst (Popup.saveCurrentSummary random now store
                        (triggerSummarization
                           (Ok (fst (onMessage (requestType PageScope) br))) p)))))
   /\ hd_error
        (savedTitles
           (snd (Popup.saveCurrentSummary random now store
                   (triggerSummarization
                      (Ok (fst (onMessage (requestType PageScope) br))) p))))
      = Some (orElse (title payload) (str "Untitled")))
  /\ (success payload = false ->
      currentSummary p = None ->
      fst (Popup.saveCurrentSummary random now store
             (triggerSummarization (Ok (fst (onMessage (requestType PageScope) br))) p))
        = store).
Proof.
  intros Hp. rewrite Hp. split.
  - intros Hs. unfold triggerSummarization. cbv zeta. rewrite Hs.
    unfold Popup.saveCurrentSummary, showSummary. cbn [currentSummary fst snd].
    rewrite saveCurrentSummary_list.
    unfold loadSavedSummaries. cbn [savedCount savedTitles].
    rewrite saveCurrentSummary_list. repeat split.
  - intros Hf Hnone. unfold triggerSummarization. cbv zeta. rewrite Hf.
    unfold Popup.saveCurrentSummary, showError, showLoading. cbn [currentSummary].
    now rewrite Hnone.
Qed.

Lemma saved_as_shown_witness :
  Storage.readSummaries
    (fst (Popup.saveCurrentSummary (fun _ => 10) 5 Examples.threeSaved
            (triggerSummarization
               (Ok (fst (onMessage (requestType PageScope) Samples.openaiBrowser)))
               (showView (str "main")
                  (loadSavedSummaries Examples.threeSaved
                     (mkState true true true false true true true [] JUndefined []
                        [] [] 0 [] None None))))))
  = Storage.mkSaved (str "aaaaaaaa-aaaa-4aaa-aaaa-aaaaaaaaaaaa")
      (Some (str "https://example.org/a")) (Some (str "Example")) (str "A summary.") 5
    :: firstn 99 (Storage.readSummaries Examples.threeSaved).
Proof.
  assert (Hp : fst (onMessage (requestType PageScope) Samples.openaiBrowser)
               = Some (mkResult (str "A summary.") (Some (str "Example"))
                         (Some (str "https://example.org/a")) true JUndefined))
    by (vm_compute; reflexivity).
  exact (proj1 (proj1 (saved_as_shown Samples.openaiBrowser _ (fun _ => 10) 5
                         Examples.threeSaved _ Hp) eq_refl)).
Defined.

Lemma showView_shows (name view : jsstring) :
  negb (JsString.eqb view name) = false <-> view = name.
Proof.
  rewrite negb_false_iff. split.
  - apply eqb_eq.
  - intros ->. apply eqb_refl.
Qed.

(** X30: opening and deleting a saved summary.  [showView] with 'main',
    'settings' or 'detail' leaves the view of that name showing and the
    other two hidden, whatever showed before; for any name at all, a view
    shows exactly when the name is its own.  Calling it twice is calling
    it once, and it touches nothing in the popup but the three views.
    Opening a saved summary shows the detail view, and only it, with the
    summary's title ('Untitled' if it has none) and its text.  Deleting
    it then removes from the store every entry with its id and no other
    entry, forgets the opened summary, goes back to the main view, and
    only it, and shows as count the length of the list now stored; with
    no summary opened, deleting changes neither the store nor the
    popup. *)
Theorem open_then_delete (s : Storage.SavedSummary) (store : Storage.LocalStorage)
    (p : State) :
  ((mainView_hidden (showView (str "main") p) = false
    /\ settingsView_hidden (showView (str "main") p) = true
    /\ detailView_hidden (showView (str "main") p) = true)
   /\ (mainView_hidden (showView (str "settings") p) = true
       /\ settingsView_hidden (showView (str "settings") p) = false
       /\ detailView_hidden (showView (str "settings") p) = true)
   /\ (mainView_hidden (showView (str "detail") p) = true
       /\ settingsView_hidden (showView (str "detail") p) = true
       /\ detailView_hidden (showView (str "detail") p) = false)
   /\ viewsShown (showView (str "main") p) = 1%nat
   /\ viewsShown (showView (str "settings") p) = 1%nat
   /\ viewsShown (showView (str "detail") p) = 1%nat
   /\ (forall view,
         (mainView_hidden (showView view p) = false <-> view = str "main")
         /\ (settingsView_hidden (showView view p) = false <-> view = str "settings")
         /\ (detailView_hidden (showView view p) = false <-> view = str "detail"))
   /\ (forall view, showView view (showView view p) = showView view p)
   /\ (forall view,
         summarizeOptions_hidden (showView view p) = summarizeOptions_hidden p
         /\ loadingSection_hidden (showView view p) = loadingSection_hidden p
         /\ errorSection_hidden (showView view p) = errorSection_hidden p
         /\ summarySection_hidden (showView view p) = summarySection_hidden p
         /\ loadingText (showView view p) = loadingText p
         /\ errorMessage (showView view p) = errorMessage p
         /\ summaryText (showView view p) = summaryText p
         /\ detailTitle (showView view p) = detailTitle p
         /\ detailContent (showView view p) = detailContent p
         /\ savedCount (showView view p) = savedCount p
         /\ savedTitles (showView view p) = savedTitles p
         /\ currentSummary (showView view p) = currentSummary p
         /\ currentDetailSummary (showView view p) = currentDetailSummary p))
  /\ (mainView_hidden (showSummaryDetail s p) = true
      /\ settingsView_hidden (showSummaryDetail s p) = true
      /\ detailView_hidden (showSummaryDetail s p) = false
      /\ viewsShown (showSummaryDetail s p) = 1%nat
      /\ detailTitle (showSummaryDetail s p) = orElse (Storage.title s) (str "Untitled")
      /\ detailContent (showSummaryDetail s p) = Storage.summary s)
  /\ (Storage.readSummaries (fst (deleteCurrentSummary store (showSummaryDetail s p)))
        = Storage.withoutId (Storage.id s) (Storage.readSummaries store)
      /\ currentDetailSummary (snd (deleteCurrentSummary store (showSummaryDetail s p)))
         = None
      /\ mainView_hidden (snd (deleteCurrentSummary store (showSummaryDetail s p))) = false
      /\ settingsView_hidden (snd (deleteCurrentSummary store (showSummaryDetail s p))) = true
      /\ detailView_hidden (snd (deleteCurrentSummary store (showSummaryDetail s p))) = true
      /\ viewsShown (snd (deleteCurrentSummary store (showSummaryDetail s p))) = 1%nat
      /\ savedCount (snd (deleteCurrentSummary store (showSummaryDetail s p)))
         = Z.of_nat
             (List.length
                (Storage.readSummaries
                   (fst (deleteCurrentSummary store (showSummaryDetail s p))))))
  /\ (currentDetailSummary p = None -> deleteCurrentSummary store p = (store, p)).
Proof.
  split; [|split; [|split]].
  - repeat match goal with |- _ /\ _ => split end; try reflexivity.
    + intros view. repeat split; apply showView_shows.
    + intros view. repeat split.
  - repeat split.
  - unfold deleteCurrentSummary, showSummaryDetail, showView.
    cbn [currentDetailSummary fst snd]. repeat split.
  - intros H. unfold deleteCurrentSummary. now rewrite H.
Qed.

Lemma open_then_delete_witness :
  deleteCurrentSummary Examples.threeSaved
    (mkState true true true false true true true [] JUndefined [] [] [] 0 [] None None)
  = (Examples.threeSaved,
     mkState true true true false true true true [] JUndefined [] [] [] 0 [] None None).
Proof.
  exact (proj2 (proj2 (proj2 (open_then_delete (Examples.saved "a") Examples.threeSaved
                                (mkState true true true false true true true [] JUndefined
                                   [] [] [] 0 [] None None))))
           eq_refl).
Defined.

End PopupFlows.
